(** * Real-estate database: commission engine and monthly reports

    A shallow embedding of the Python sources
      - [create.py]      (the SQLAlchemy schema),
      - [insert_data.py] (data seeding, sale recording, commission rates),
      - [query_data.py]  (monthly rollup and report queries),
    followed by theorems about them.

    Modelling conventions.
      - A table is the list of its rows in insertion order; a row is a record
        whose fields carry the column names of [create.py].
      - An integer primary key is assigned the way SQLite assigns a rowid:
        1 in an empty table, otherwise one more than the largest id in use.
      - Python [float] / SQL [Float] values are exact rationals ([Q]): the
        comparisons of the source are exact on every finite number, rounding
        of products and sums is not modelled.
      - A [Date] column holds a (year, month, day) triple, stored by SQLite
        as the text 'YYYY-MM-DD'.  A comparison in a query compares texts: a
        Python [datetime] bound is sent as 'YYYY-MM-DD 00:00:00.000000' even
        against a [Date] column (see [sql_text]).
      - A Python exception is a value of [exn]; a call that may raise returns
        in [result].
      - Values drawn from [faker] / [random] are explicit arguments.
      - The storage layer itself never fails (no I/O errors). *)

From Stdlib Require Import String ZArith QArith Qminmax List Bool Lia Lqa.
From Stdlib Require Import Permutation Sorted.
Import ListNotations.

Local Open Scope Z_scope.

(** ** Exceptions and fallible calls *)

Inductive exn : Type :=
| ValueError
| OverflowError
| IndexError
| AttributeError.

Inductive result (A : Type) : Type :=
| Ok (a : A)
| Raise (e : exn).

Arguments Ok {A} a.
Arguments Raise {A} e.

Definition bind {A B : Type} (r : result A) (k : A -> result B) : result B :=
  match r with
  | Ok a => k a
  | Raise e => Raise e
  end.

Notation "x <- r ;; k" := (bind r (fun x => k))
  (at level 61, r at next level, right associativity).

(** ** Dates ([datetime.date], [datetime.datetime] at midnight) *)

Record date : Type := mkdate { year : Z; month : Z; day : Z }.

Definition date_eqb (a b : date) : bool :=
  (year a =? year b) && (month a =? month b) && (day a =? day b).

(** [a < b] on ISO dates. *)
Definition date_ltb (a b : date) : bool :=
  (year a <? year b)
  || ((year a =? year b)
      && ((month a <? month b)
          || ((month a =? month b) && (day a <? day b)))).

(** [a >= b] on ISO dates. *)
Definition date_geb (a b : date) : bool := negb (date_ltb a b).

Definition is_leap (y : Z) : bool :=
  (y mod 4 =? 0) && (negb (y mod 100 =? 0) || (y mod 400 =? 0)).

Definition days_in_month (y m : Z) : Z :=
  if m =? 2 then (if is_leap y then 29 else 28)
  else if (m =? 4) || (m =? 6) || (m =? 9) || (m =? 11) then 30
  else 31.

(** An argument of [datetime] is converted to a C int (32 bits) first. *)
Definition fits_c_int (z : Z) : bool :=
  (-2147483648 <=? z) && (z <=? 2147483647).

(** [datetime(y, m, d)], the time left at midnight: raises [OverflowError]
    when an argument does not fit a C int, and [ValueError] outside
    MINYEAR..MAXYEAR, 1..12, 1..days in the month. *)
Definition datetime (y m d : Z) : result date :=
  if negb (fits_c_int y && fits_c_int m && fits_c_int d)
  then Raise OverflowError
  else if (1 <=? y) && (y <=? 9999) && (1 <=? m) && (m <=? 12)
          && (1 <=? d) && (d <=? days_in_month y m)
  then Ok (mkdate y m d)
  else Raise ValueError.

(** *** Dates as SQLite compares them

    A value reaches SQLite as text.  SQLAlchemy sends a value of a [Date]
    column as 'YYYY-MM-DD'.  A Python [datetime] used as the other side of a
    comparison is sent with the DateTime type whatever the type of the column,
    as 'YYYY-MM-DD 00:00:00.000000'.  SQLite compares the two texts character
    by character, a strict prefix before its extensions.  Years have four
    digits (1..9999), so the date parts order as the dates do. *)
Record sql_text : Type := mk_sql_text { text_date : date; with_time : bool }.

(** The text of a [Date] column value. *)
Definition date_text (d : date) : sql_text := mk_sql_text d false.

(** The text of a [datetime] bound (at midnight). *)
Definition datetime_text (d : date) : sql_text := mk_sql_text d true.

Definition text_eqb (a b : sql_text) : bool :=
  date_eqb (text_date a) (text_date b) && Bool.eqb (with_time a) (with_time b).

Definition text_ltb (a b : sql_text) : bool :=
  date_ltb (text_date a) (text_date b)
  || (date_eqb (text_date a) (text_date b) && negb (with_time a) && with_time b).

Definition text_geb (a b : sql_text) : bool := negb (text_ltb a b).

(** [julianday] of a date, as SQLite computes it for a 'YYYY-MM-DD' string
    (the Julian day number at noon, minus one half). *)
Definition julian_day_number (t : date) : Z :=
  let a := (14 - month t) / 12 in
  let y := year t + 4800 - a in
  let m := month t + 12 * a - 3 in
  day t + (153 * m + 2) / 5 + 365 * y + y / 4 - y / 100 + y / 400 - 32045.

Definition julianday (t : date) : Q :=
  (inject_Z (julian_day_number t) - (1 # 2))%Q.

(** ** Commission rate policy ([insert_data.get_commission_rate]) *)

Definition Qltb (a b : Q) : bool := negb (Qle_bool b a).

Definition get_commission_rate (sale_price : Q) : Q :=
  if Qltb sale_price 100000 then 0.10%Q
  else if Qltb sale_price 200000 then 0.075%Q
  else if Qltb sale_price 500000 then 0.06%Q
  else if Qltb sale_price 1000000 then 0.05%Q
  else 0.04%Q.

(** ** Schema ([create.py]) *)

Module Office.
Record t : Type := mk { id : Z; address : string }.
End Office.

Module Agent.
Record t : Type := mk { id : Z; name : string; email : string; phone : string }.
End Agent.

Module AgentOffice.
Record t : Type := mk { id : Z; agent_id : Z; office_id : Z }.
End AgentOffice.

Module Seller.
Record t : Type := mk { id : Z; name : string; phone : string }.
End Seller.

Module Listing.
Record t : Type := mk {
  id : Z;
  seller_id : Z;
  bedrooms : Z;
  bathrooms : Z;
  listing_price : Q;
  zip_code : string;
  date_of_listing : date;
  listing_agent_id : Z;
  office_id : Z;
  is_sold : Z
}.

Definition set_is_sold (l : t) (v : Z) : t :=
  mk (id l) (seller_id l) (bedrooms l) (bathrooms l) (listing_price l)
     (zip_code l) (date_of_listing l) (listing_agent_id l) (office_id l) v.
End Listing.

Module Buyer.
Record t : Type := mk { id : Z; name : string; phone : string }.
End Buyer.

Module Sale.
Record t : Type := mk {
  id : Z;
  buyer_id : Z;
  sale_price : Q;
  date_of_sale : date;
  selling_agent_id : Z;
  office_id : Z;
  listing_id : Z
}.
End Sale.

Module Commission.
Record t : Type := mk {
  id : Z;
  agent_id : Z;
  sale_id : Z;
  amount : Q;
  date_of_commission : date
}.
End Commission.

Module MonthlyCommission.
Record t : Type := mk { id : Z; agent_id : Z; date : date; amount : Q }.
End MonthlyCommission.

(** The database: one list of rows per table. *)
Record DB : Type := mkDB {
  offices : list Office.t;
  agents : list Agent.t;
  agent_office : list AgentOffice.t;
  sellers : list Seller.t;
  listings : list Listing.t;
  buyers : list Buyer.t;
  sales : list Sale.t;
  commissions : list Commission.t;
  month_commissions : list MonthlyCommission.t
}.

(** [Base.metadata.create_all] on a fresh file. *)
Definition empty_db : DB := mkDB [] [] [] [] [] [] [] [] [].

Definition set_offices (db : DB) (v : list Office.t) : DB :=
  mkDB v (agents db) (agent_office db) (sellers db) (listings db) (buyers db)
       (sales db) (commissions db) (month_commissions db).
Definition set_agents (db : DB) (v : list Agent.t) : DB :=
  mkDB (offices db) v (agent_office db) (sellers db) (listings db) (buyers db)
       (sales db) (commissions db) (month_commissions db).
Definition set_agent_office (db : DB) (v : list AgentOffice.t) : DB :=
  mkDB (offices db) (agents db) v (sellers db) (listings db) (buyers db)
       (sales db) (commissions db) (month_commissions db).
Definition set_sellers (db : DB) (v : list Seller.t) : DB :=
  mkDB (offices db) (agents db) (agent_office db) v (listings db) (buyers db)
       (sales db) (commissions db) (month_commissions db).
Definition set_listings (db : DB) (v : list Listing.t) : DB :=
  mkDB (offices db) (agents db) (agent_office db) (sellers db) v (buyers db)
       (sales db) (commissions db) (month_commissions db).
Definition set_buyers (db : DB) (v : list Buyer.t) : DB :=
  mkDB (offices db) (agents db) (agent_office db) (sellers db) (listings db) v
       (sales db) (commissions db) (month_commissions db).
Definition set_sales (db : DB) (v : list Sale.t) : DB :=
  mkDB (offices db) (agents db) (agent_office db) (sellers db) (listings db)
       (buyers db) v (commissions db) (month_commissions db).
Definition set_commissions (db : DB) (v : list Commission.t) : DB :=
  mkDB (offices db) (agents db) (agent_office db) (sellers db) (listings db)
       (buyers db) (sales db) v (month_commissions db).
Definition set_month_commissions (db : DB) (v : list MonthlyCommission.t) : DB :=
  mkDB (offices db) (agents db) (agent_office db) (sellers db) (listings db)
       (buyers db) (sales db) (commissions db) v.

(** ** Session primitives *)

Definition max_id (x : Z) (rest : list Z) : Z := fold_left Z.max rest x.

(** The id SQLite gives the next inserted row. *)
Definition next_id (ids : list Z) : Z :=
  match ids with
  | [] => 1
  | x :: rest => max_id x rest + 1
  end.

(** [session.query(T).order_by(T.id.desc()).first().id]: [first()] is [None]
    on an empty table and [None.id] raises. *)
Definition first_id_desc (ids : list Z) : result Z :=
  match ids with
  | [] => Raise AttributeError
  | x :: rest => Ok (max_id x rest)
  end.

(** [random.choice(l)], the drawn position given as [pick]. *)
Definition choice {A : Type} (pick : nat) (l : list A) : result A :=
  match l with
  | [] => Raise IndexError
  | x :: _ => Ok (nth (Nat.modulo pick (length l)) l x)
  end.

(** A [for] loop whose body may raise. *)
Fixpoint for_each {S A : Type} (body : S -> A -> result S) (l : list A) (s : S)
  : result S :=
  match l with
  | [] => Ok s
  | x :: rest => s' <- body s x ;; for_each body rest s'
  end.

(** [try: ...; session.commit()  except: session.rollback()] run on a session
    whose last commit left [db]. *)
Definition commit_or_rollback (db : DB) (r : result DB) : DB :=
  match r with
  | Ok db' => db'
  | Raise _ => db
  end.

(** ** SQL helpers *)

(** [and_(column >= start_date, column < end_date)] on a [Date] column [d],
    the two bounds being [datetime] values. *)
Definition in_window (start_date end_date d : date) : bool :=
  text_geb (date_text d) (datetime_text start_date)
  && text_ltb (date_text d) (datetime_text end_date).

(** The month window every report function builds. *)
Definition month_window (year month : Z) : result (date * date) :=
  start_date <- datetime year month 1 ;;
  end_date <- (if month =? 12 then datetime (year + 1) 1 1
               else datetime year (month + 1) 1) ;;
  Ok (start_date, end_date).

Definition sql_sum (xs : list Q) : Q := fold_left Qplus xs 0%Q.

(** [func.avg]: NULL (Python [None]) over no rows. *)
Definition sql_avg (xs : list Q) : option Q :=
  match xs with
  | [] => None
  | _ :: _ => Some (sql_sum xs / inject_Z (Z.of_nat (length xs)))%Q
  end.

(** [A JOIN B ON on]: left rows outermost. *)
Definition inner_join {A B : Type} (on : A -> B -> bool) (la : list A) (lb : list B)
  : list (A * B) :=
  flat_map (fun a => map (pair a) (filter (on a) lb)) la.

(** The first row of every key, in order of first occurrence. *)
Fixpoint distinct_on {R : Type} (key : R -> Z) (rows : list R) : list R :=
  match rows with
  | [] => []
  | r :: rest => r :: filter (fun r' => negb (key r' =? key r)) (distinct_on key rest)
  end.

(** [GROUP BY key]: one group per distinct key, as the first joined row of the
    key (it supplies the bare columns of the select list) with all joined rows
    of that key. *)
Definition group_by {R : Type} (key : R -> Z) (rows : list R) : list (R * list R) :=
  map (fun r => (r, filter (fun r' => key r' =? key r) rows)) (distinct_on key rows).

(** [ORDER BY ... DESC] as a stable insertion sort; [ge x y] is "x sorts no
    later than y".  SQL leaves the order of ties open; the model keeps them in
    input order. *)
Fixpoint insert_desc {R : Type} (ge : R -> R -> bool) (x : R) (l : list R) : list R :=
  match l with
  | [] => [x]
  | y :: rest => if ge x y then x :: y :: rest else y :: insert_desc ge x rest
  end.

Fixpoint order_by_desc {R : Type} (ge : R -> R -> bool) (l : list R) : list R :=
  match l with
  | [] => []
  | x :: rest => insert_desc ge x (order_by_desc ge rest)
  end.

(** [.limit(n)] *)
Definition limit {R : Type} (n : nat) (l : list R) : list R := firstn n l.

(** ** Seeding and sale recording ([insert_data.py]) *)

Definition add_office (tbl : list Office.t) (address : string) : list Office.t :=
  tbl ++ [Office.mk (next_id (map Office.id tbl)) address].

(** [insert_offices]: one [fake.address()] per office. *)
Definition insert_offices (fake_addresses : list string) (db : DB) : DB :=
  commit_or_rollback db
    (Ok (set_offices db (fold_left add_office fake_addresses (offices db)))).

Record AgentDraw : Type := mkAgentDraw {
  fake_name : string;
  fake_email : string;
  fake_phone_number : string;
  office_pick : nat
}.

Definition insert_agents_body (db : DB) (d : AgentDraw) : result DB :=
  let agent :=
    Agent.mk (next_id (map Agent.id (agents db)))
             (fake_name d) (fake_email d) (fake_phone_number d) in
  let db1 := set_agents db (agents db ++ [agent]) in
  agent_id <- first_id_desc (map Agent.id (agents db1)) ;;
  office <- choice (office_pick d) (offices db1) ;;
  let agent_office_row :=
    AgentOffice.mk (next_id (map AgentOffice.id (agent_office db1)))
                   agent_id (Office.id office) in
  Ok (set_agent_office db1 (agent_office db1 ++ [agent_office_row])).

Definition insert_agents (draws : list AgentDraw) (db : DB) : DB :=
  commit_or_rollback db (for_each insert_agents_body draws db).

(** [assign_agents_to_offices]: both tables are read once, before the loop;
    a draw is the pair (agent pick, office pick). *)
Definition assign_body (offices_ : list Office.t) (agents_ : list Agent.t)
  (db : DB) (picks : nat * nat) : result DB :=
  agent <- choice (fst picks) agents_ ;;
  office <- choice (snd picks) offices_ ;;
  let row :=
    AgentOffice.mk (next_id (map AgentOffice.id (agent_office db)))
                   (Agent.id agent) (Office.id office) in
  Ok (set_agent_office db (agent_office db ++ [row])).

Definition assign_agents_to_offices (picks : list (nat * nat)) (db : DB) : DB :=
  let offices_ := offices db in
  let agents_ := agents db in
  commit_or_rollback db (for_each (assign_body offices_ agents_) picks db).

Record ListingDraw : Type := mkListingDraw {
  seller_name : string;
  seller_phone : string;
  agent_pick : nat;
  fake_bedrooms : Z;
  fake_bathrooms : Z;
  fake_listing_price : Q;
  fake_zipcode : string;
  fake_date_of_listing : date
}.

Definition add_seller (tbl : list Seller.t) (d : ListingDraw) : list Seller.t :=
  tbl ++ [Seller.mk (next_id (map Seller.id tbl)) (seller_name d) (seller_phone d)].

(** [session.query(AgentOffice).filter(agent_id == a).first().office_id] *)
Definition first_office_of (a : Z) (tbl : list AgentOffice.t) : result Z :=
  match find (fun ao => AgentOffice.agent_id ao =? a) tbl with
  | Some ao => Ok (AgentOffice.office_id ao)
  | None => Raise AttributeError
  end.

Definition insert_listings_body (agents_ : list Agent.t) (db : DB)
  (x : Seller.t * ListingDraw) : result DB :=
  let (seller, d) := x in
  listing_agent <- choice (agent_pick d) agents_ ;;
  office_id <- first_office_of (Agent.id listing_agent) (agent_office db) ;;
  let listing :=
    Listing.mk (next_id (map Listing.id (listings db)))
               (Seller.id seller) (fake_bedrooms d) (fake_bathrooms d)
               (fake_listing_price d) (fake_zipcode d) (fake_date_of_listing d)
               (Agent.id listing_agent) office_id 0 in
  Ok (set_listings db (listings db ++ [listing])).

Definition insert_listings (draws : list ListingDraw) (db : DB) : DB :=
  let agents_ := agents db in
  let n := List.length (sellers db) in
  let db1 :=
    commit_or_rollback db
      (Ok (set_sellers db (fold_left add_seller draws (sellers db)))) in
  let sellers_ := skipn n (sellers db1) in
  commit_or_rollback db1
    (for_each (insert_listings_body agents_) (combine sellers_ draws) db1).

Record SaleDraw : Type := mkSaleDraw {
  buyer_name : string;
  buyer_phone : string;
  fake_date_of_sale : date
}.

Definition add_buyer (tbl : list Buyer.t) (d : SaleDraw) : list Buyer.t :=
  tbl ++ [Buyer.mk (next_id (map Buyer.id tbl)) (buyer_name d) (buyer_phone d)].

(** [listing.is_sold = 1] on the mapped row: UPDATE ... WHERE id = listing.id. *)
Definition mark_sold (listing_id : Z) (tbl : list Listing.t) : list Listing.t :=
  map (fun l => if Listing.id l =? listing_id then Listing.set_is_sold l 1 else l) tbl.

(** One turn of the loop of [insert_sales]: the listing, with the buyer and the
    draw of the same index. *)
Definition insert_sales_body (db : DB) (x : Listing.t * (Buyer.t * SaleDraw))
  : result DB :=
  let '(listing, (buyer, d)) := x in
  let selling_agent_id := Listing.listing_agent_id listing in
  let office_id := Listing.office_id listing in
  let sale :=
    Sale.mk (next_id (map Sale.id (sales db)))
            (Buyer.id buyer) (Listing.listing_price listing) (fake_date_of_sale d)
            selling_agent_id office_id (Listing.id listing) in
  let db1 := set_sales db (sales db ++ [sale]) in
  sale_id <- first_id_desc (map Sale.id (sales db1)) ;;
  let db2 := set_listings db1 (mark_sold (Listing.id listing) (listings db1)) in
  let commision_rate := get_commission_rate (Sale.sale_price sale) in
  let commision_amount := (Sale.sale_price sale * commision_rate)%Q in
  let commision :=
    Commission.mk (next_id (map Commission.id (commissions db2)))
                  selling_agent_id sale_id commision_amount (Sale.date_of_sale sale) in
  Ok (set_commissions db2 (commissions db2 ++ [commision])).

(** [insert_sales]: [num_sales] is the number of draws.  Every exception is
    caught inside, so the call itself always returns. *)
Definition insert_sales (draws : list SaleDraw) (db : DB) : result DB :=
  let num_sales := List.length draws in
  let n := List.length (buyers db) in
  let db1 :=
    commit_or_rollback db
      (Ok (set_buyers db (fold_left add_buyer draws (buyers db)))) in
  let buyers_ := skipn n (buyers db1) in
  let listings_ :=
    limit num_sales (filter (fun l => Listing.is_sold l =? 0) (listings db1)) in
  Ok (commit_or_rollback db1
        (for_each insert_sales_body
                  (combine listings_ (combine buyers_ draws)) db1)).

(** [insert_data.main]: the seeding run on an open session.  The numbers it
    passes (50 offices, 250 agents, 500 assignments, 1000 listings, 500 sales)
    are the lengths of the lists of draws. *)
Record SeedDraws : Type := mkSeedDraws {
  office_addresses : list string;
  agent_draws : list AgentDraw;
  assignment_picks : list (nat * nat);
  listing_draws : list ListingDraw;
  sale_draws : list SaleDraw
}.

Definition insert_data_main (d : SeedDraws) (db : DB) : result DB :=
  let db1 := insert_offices (office_addresses d) db in
  let db2 := insert_agents (agent_draws d) db1 in
  let db3 := assign_agents_to_offices (assignment_picks d) db2 in
  let db4 := insert_listings (listing_draws d) db3 in
  insert_sales (sale_draws d) db4.

(** ** Monthly rollup and reports ([query_data.py]) *)

(** The aggregate query of [get_total_commission]: rows
    (Agent.id, total_commission), largest total first. *)
Definition agents_commission_query (start_date end_date : date) (db : DB)
  : list (Z * Q) :=
  let joined :=
    inner_join (fun a c => Commission.agent_id c =? Agent.id a)
               (agents db) (commissions db) in
  let filtered :=
    filter (fun r => in_window start_date end_date
                       (Commission.date_of_commission (snd r))) joined in
  let grouped := group_by (fun r => Agent.id (fst r)) filtered in
  let rows :=
    map (fun g => (Agent.id (fst (fst g)),
                   sql_sum (map (fun r => Commission.amount (snd r)) (snd g))))
        grouped in
  order_by_desc (fun x y => Qle_bool (snd y) (snd x)) rows.

(** The rows the check-before-insert of the rollup finds:
    [filter(agent_id == ..., MonthlyCommission.date == end_date)], the date a
    [Date] column and [end_date] a [datetime].  The session flushes pending
    rows before it queries, so rows added earlier in the same loop are
    looked at too. *)
Definition existing_monthly (agent_id : Z) (end_date : date)
  (tbl : list MonthlyCommission.t) : list MonthlyCommission.t :=
  filter (fun mc => (MonthlyCommission.agent_id mc =? agent_id)
                    && text_eqb (date_text (MonthlyCommission.date mc))
                                (datetime_text end_date)) tbl.

Definition get_total_commission_body (end_date : date) (db : DB)
  (agent_commission : Z * Q) : DB :=
  if (0 <? List.length (existing_monthly (fst agent_commission) end_date
                                         (month_commissions db)))%nat
  then db
  else
    let monthly_commission :=
      MonthlyCommission.mk
        (next_id (map MonthlyCommission.id (month_commissions db)))
        (fst agent_commission) end_date (snd agent_commission) in
    set_month_commissions db (month_commissions db ++ [monthly_commission]).

(** [get_total_commission]: not wrapped in [try]; an error of [datetime] is
    raised before the session is touched.  The new row's [date] is a [Date]
    column, so [end_date] is stored as its date. *)
Definition get_total_commission (year month : Z) (db : DB) : result DB :=
  w <- month_window year month ;;
  let (start_date, end_date) := w in
  let agents_commission := agents_commission_query start_date end_date db in
  Ok (fold_left (get_total_commission_body end_date) agents_commission db).

(** [print_monthly_commission_table]: the result is [table_data], the rows
    handed to [tabulate] and printed. *)
Definition print_monthly_commission_table (year month : Z) (db : DB)
  : result (list (Z * Q)) :=
  start_date <- datetime year (month - 1) 1 ;;
  end_date <- (if month =? 12 then datetime (year + 1) 1 1
               else datetime year (month + 1) 1) ;;
  let monthly_commissions :=
    filter (fun mc => in_window start_date end_date (MonthlyCommission.date mc))
           (month_commissions db) in
  Ok (map (fun mc => (MonthlyCommission.agent_id mc, MonthlyCommission.amount mc))
          monthly_commissions).

Record office_sales : Type := mk_office_sales {
  os_id : Z;
  os_address : string;
  os_sales_count : Z
}.

Definition top_offices_by_sales_monthly (year month : Z) (db : DB)
  : result (list office_sales) :=
  w <- month_window year month ;;
  let (start_date, end_date) := w in
  let joined :=
    inner_join (fun ol s => Sale.listing_id s =? Listing.id (snd ol))
      (inner_join (fun o l => Listing.office_id l =? Office.id o)
                  (offices db) (listings db))
      (sales db) in
  let filtered :=
    filter (fun r => in_window start_date end_date (Sale.date_of_sale (snd r)))
           joined in
  let grouped := group_by (fun r => Office.id (fst (fst r))) filtered in
  let rows :=
    map (fun g => let o := fst (fst (fst g)) in
                  mk_office_sales (Office.id o) (Office.address o)
                                  (Z.of_nat (List.length (snd g))))
        grouped in
  Ok (limit 5 (order_by_desc (fun x y => os_sales_count y <=? os_sales_count x) rows)).

Record agent_sales : Type := mk_agent_sales {
  as_id : Z;
  as_name : string;
  as_email : string;
  as_phone : string;
  sales_count : Z
}.

Definition top_agents_by_sales_monthly (year month : Z) (db : DB)
  : result (list agent_sales) :=
  w <- month_window year month ;;
  let (start_date, end_date) := w in
  let joined :=
    inner_join (fun a s => Sale.selling_agent_id s =? Agent.id a)
               (agents db) (sales db) in
  let filtered :=
    filter (fun r => in_window start_date end_date (Sale.date_of_sale (snd r)))
           joined in
  let grouped := group_by (fun r => Agent.id (fst r)) filtered in
  let rows :=
    map (fun g => let a := fst (fst g) in
                  mk_agent_sales (Agent.id a) (Agent.name a) (Agent.email a)
                                 (Agent.phone a) (Z.of_nat (List.length (snd g))))
        grouped in
  Ok (limit 5 (order_by_desc (fun x y => sales_count y <=? sales_count x) rows)).

Definition average_days_on_market_monthly (year month : Z) (db : DB)
  : result (option Q) :=
  w <- month_window year month ;;
  let (start_date, end_date) := w in
  let joined :=
    inner_join (fun s l => Listing.id l =? Sale.listing_id s)
               (sales db) (listings db) in
  let filtered :=
    filter (fun r => in_window start_date end_date (Sale.date_of_sale (fst r)))
           joined in
  Ok (sql_avg (map (fun r => (julianday (Sale.date_of_sale (fst r))
                              - julianday (Listing.date_of_listing (snd r)))%Q)
                   filtered)).

Definition average_selling_price_monthly (year month : Z) (db : DB)
  : result (option Q) :=
  w <- month_window year month ;;
  let (start_date, end_date) := w in
  let filtered :=
    filter (fun s => in_window start_date end_date (Sale.date_of_sale s))
           (sales db) in
  Ok (sql_avg (map Sale.sale_price filtered)).

(** ** The program's operations and the states they reach *)

Inductive op : Type :=
| InsertOffices (fake_addresses : list string)
| InsertAgents (draws : list AgentDraw)
| AssignAgentsToOffices (picks : list (nat * nat))
| InsertListings (draws : list ListingDraw)
| InsertSales (draws : list SaleDraw)
| GetTotalCommission (year month : Z)
| PrintMonthlyCommissionTable (year month : Z)
| TopOfficesBySalesMonthly (year month : Z)
| TopAgentsBySalesMonthly (year month : Z)
| AverageDaysOnMarketMonthly (year month : Z)
| AverageSellingPriceMonthly (year month : Z).

(** The database an operation leaves behind; a call that raises, and a
    read-only report, leave it as it was. *)
Definition state_after (db : DB) (r : result DB) : DB :=
  match r with
  | Ok db' => db'
  | Raise _ => db
  end.

Definition exec (o : op) (db : DB) : DB :=
  match o with
  | InsertOffices a => insert_offices a db
  | InsertAgents d => insert_agents d db
  | AssignAgentsToOffices p => assign_agents_to_offices p db
  | InsertListings d => insert_listings d db
  | InsertSales d => state_after db (insert_sales d db)
  | GetTotalCommission y m => state_after db (get_total_commission y m db)
  | PrintMonthlyCommissionTable _ _
  | TopOfficesBySalesMonthly _ _
  | TopAgentsBySalesMonthly _ _
  | AverageDaysOnMarketMonthly _ _
  | AverageSellingPriceMonthly _ _ => db
  end.

(** The state after a sequence of operations, first operation first. *)
Definition run (ops : list op) (db : DB) : DB :=
  fold_left (fun s o => exec o s) ops db.

(** ** Vocabulary of the statements *)

(** A primary-key column holds no value twice. *)
Definition primary_key {R : Type} (id : R -> Z) (tbl : list R) : Prop :=
  NoDup (map id tbl).

(** The month window in the words of the specification: from the first day of
    the month to the first day of the following month, the year rolling over
    after December. *)
Definition window_start (year month : Z) : date := mkdate year month 1.

Definition window_end (year month : Z) : date :=
  if month =? 12 then mkdate (year + 1) 1 1 else mkdate year (month + 1) 1.

(** The (year, month) pairs for which [datetime] builds both window bounds. *)
Definition valid_month (year month : Z) : Prop :=
  1 <= year <= 9999 /\ 1 <= month <= 12 /\ (month = 12 -> year <= 9998).

(** The error of a call that builds its dates from [year] and [month] and is
    given values [datetime] rejects. *)
Definition datetime_error (year month : Z) : exn :=
  if fits_c_int year && fits_c_int month then ValueError else OverflowError.

(** The dates of a calendar month, as the specification words the window:
    from its first day up to, not including, the first day of the next. *)
Definition in_month (year month : Z) (d : date) : bool :=
  date_geb d (window_start year month) && date_ltb d (window_end year month).

(** The dates after [start_date], up to and including [end_date]. *)
Definition after_upto (start_date end_date d : date) : bool :=
  date_ltb start_date d && negb (date_ltb end_date d).

(** The Commission rows and the Sale rows of an agent dated in a calendar
    month, as the specification words the window of the rollup and of the
    reports. *)
Definition commissions_in_month (year month : Z) (db : DB) (a : Agent.t)
  : list Commission.t :=
  filter (fun c => (Commission.agent_id c =? Agent.id a)
                   && in_month year month (Commission.date_of_commission c))
         (commissions db).

Definition sales_in_month (year month : Z) (db : DB) (a : Agent.t) : list Sale.t :=
  filter (fun s => (Sale.selling_agent_id s =? Agent.id a)
                   && in_month year month (Sale.date_of_sale s))
         (sales db).

(** The Commission rows of an agent dated after [start_date], up to and
    including [end_date]. *)
Definition commissions_in_window (start_date end_date : date) (db : DB)
  (a : Agent.t) : list Commission.t :=
  filter (fun c => (Commission.agent_id c =? Agent.id a)
                   && after_upto start_date end_date (Commission.date_of_commission c))
         (commissions db).

Definition total_commission (start_date end_date : date) (db : DB) (a : Agent.t) : Q :=
  sql_sum (map Commission.amount (commissions_in_window start_date end_date db a)).

(** The agents the aggregate query of the rollup has a row for. *)
Definition has_commission (start_date end_date : date) (db : DB) (a : Agent.t)
  : bool :=
  (0 <? List.length (commissions_in_window start_date end_date db a))%nat.

(** The columns of a MonthlyCommission row other than its id. *)
Definition monthly_fields (mc : MonthlyCommission.t) : Z * date * Q :=
  (MonthlyCommission.agent_id mc, MonthlyCommission.date mc,
   MonthlyCommission.amount mc).

(** The MonthlyCommission rows of an agent with a given date. *)
Definition monthly_rows (agent_id : Z) (d : date) (db : DB)
  : list MonthlyCommission.t :=
  filter (fun mc => (MonthlyCommission.agent_id mc =? agent_id)
                    && date_eqb (MonthlyCommission.date mc) d)
         (month_commissions db).

(** At most one MonthlyCommission row per (agent_id, date). *)
Definition monthly_unique (db : DB) : Prop :=
  forall (agent_id : Z) (d : date),
    (List.length (monthly_rows agent_id d db) <= 1)%nat.

(** The Sale rows of an agent dated after [start_date], up to and including
    [end_date], and the report row they make. *)
Definition sales_in_window (start_date end_date : date) (db : DB) (a : Agent.t)
  : list Sale.t :=
  filter (fun s => (Sale.selling_agent_id s =? Agent.id a)
                   && after_upto start_date end_date (Sale.date_of_sale s))
         (sales db).

Definition agent_sales_row (start_date end_date : date) (db : DB) (a : Agent.t)
  : agent_sales :=
  mk_agent_sales (Agent.id a) (Agent.name a) (Agent.email a) (Agent.phone a)
                 (Z.of_nat (List.length (sales_in_window start_date end_date db a))).

Definition has_sale (start_date end_date : date) (db : DB) (a : Agent.t) : bool :=
  (0 <? List.length (sales_in_window start_date end_date db a))%nat.

(** What sale recording stores for one sale. *)
Definition commission_of_sale (s : Sale.t) (c : Commission.t) : Prop :=
  Commission.sale_id c = Sale.id s
  /\ Commission.agent_id c = Sale.selling_agent_id s
  /\ Commission.amount c
     = (Sale.sale_price s * get_commission_rate (Sale.sale_price s))%Q
  /\ Commission.date_of_commission c = Sale.date_of_sale s.

Definition sale_of_listing (db : DB) (s : Sale.t) : Prop :=
  exists l, In l (listings db)
            /\ Listing.is_sold l = 0
            /\ Sale.listing_id s = Listing.id l
            /\ Sale.sale_price s = Listing.listing_price l
            /\ Sale.selling_agent_id s = Listing.listing_agent_id l.

(** Agent and listing ids are unique. *)
Definition keys_unique (db : DB) : Prop :=
  primary_key Agent.id (agents db) /\ primary_key Listing.id (listings db).

(** [commision_amount] of [insert_sales]: the price times its rate. *)
Definition commission_amount (sale_price : Q) : Q :=
  (sale_price * get_commission_rate sale_price)%Q.

(** The (year, month) pairs [print_monthly_commission_table] accepts: its
    start date is built from [month - 1]. *)
Definition printable_month (year month : Z) : Prop :=
  1 <= year <= 9999 /\ 2 <= month <= 12 /\ (month = 12 -> year <= 9998).

(** What [insert_listings] stores for the seller and the draw of one index. *)
Definition listing_from_draw (db : DB) (x : Seller.t * ListingDraw) (l : Listing.t)
  : Prop :=
  Listing.is_sold l = 0
  /\ Listing.seller_id l = Seller.id (fst x)
  /\ Listing.bedrooms l = fake_bedrooms (snd x)
  /\ Listing.bathrooms l = fake_bathrooms (snd x)
  /\ Listing.listing_price l = fake_listing_price (snd x)
  /\ Listing.zip_code l = fake_zipcode (snd x)
  /\ Listing.date_of_listing l = fake_date_of_listing (snd x)
  /\ exists a, In a (agents db)
               /\ Listing.listing_agent_id l = Agent.id a
               /\ first_office_of (Agent.id a) (agent_office db)
                  = Ok (Listing.office_id l).

(** What [insert_sales] stores for a listing with the buyer and the draw of
    its index. *)
Definition sale_from_listing (x : Listing.t * (Buyer.t * SaleDraw)) (s : Sale.t)
  : Prop :=
  Sale.listing_id s = Listing.id (fst x)
  /\ Sale.buyer_id s = Buyer.id (fst (snd x))
  /\ Sale.sale_price s = Listing.listing_price (fst x)
  /\ Sale.date_of_sale s = fake_date_of_sale (snd (snd x))
  /\ Sale.selling_agent_id s = Listing.listing_agent_id (fst x)
  /\ Sale.office_id s = Listing.office_id (fst x).

(** The Listing table with is_sold set to 1 on the rows whose id is in [ids]. *)
Definition flag_sold (ids : list Z) (tbl : list Listing.t) : list Listing.t :=
  map (fun l => if existsb (Z.eqb (Listing.id l)) ids
                then Listing.set_is_sold l 1 else l) tbl.

(** The listings still for sale. *)
Definition unsold (tbl : list Listing.t) : list Listing.t :=
  filter (fun l => Listing.is_sold l =? 0) tbl.

(** Every table has unique ids. *)
Definition all_keys_unique (db : DB) : Prop :=
  primary_key Office.id (offices db)
  /\ primary_key Agent.id (agents db)
  /\ primary_key AgentOffice.id (agent_office db)
  /\ primary_key Seller.id (sellers db)
  /\ primary_key Listing.id (listings db)
  /\ primary_key Buyer.id (buyers db)
  /\ primary_key Sale.id (sales db)
  /\ primary_key Commission.id (commissions db)
  /\ primary_key MonthlyCommission.id (month_commissions db).

(** [k] is the id of a row of the table. *)
Definition has_id {R : Type} (id : R -> Z) (tbl : list R) (k : Z) : Prop :=
  In k (map id tbl).

(** Every foreign-key column holds the id of a row of the table it points to
    (SQLite does not check this by itself). *)
Definition foreign_keys (db : DB) : Prop :=
  Forall (fun ao => has_id Agent.id (agents db) (AgentOffice.agent_id ao)
                    /\ has_id Office.id (offices db) (AgentOffice.office_id ao))
         (agent_office db)
  /\ Forall (fun l => has_id Seller.id (sellers db) (Listing.seller_id l)
                      /\ has_id Agent.id (agents db) (Listing.listing_agent_id l)
                      /\ has_id Office.id (offices db) (Listing.office_id l))
            (listings db)
  /\ Forall (fun s => has_id Buyer.id (buyers db) (Sale.buyer_id s)
                      /\ has_id Agent.id (agents db) (Sale.selling_agent_id s)
                      /\ has_id Office.id (offices db) (Sale.office_id s)
                      /\ has_id Listing.id (listings db) (Sale.listing_id s))
            (sales db)
  /\ Forall (fun c => has_id Agent.id (agents db) (Commission.agent_id c)
                      /\ has_id Sale.id (sales db) (Commission.sale_id c))
            (commissions db)
  /\ Forall (fun mc => has_id Agent.id (agents db) (MonthlyCommission.agent_id mc))
            (month_commissions db).

(** The Sale rows of a listing. *)
Definition sales_of_listing (db : DB) (l : Listing.t) : list Sale.t :=
  filter (fun s => Sale.listing_id s =? Listing.id l) (sales db).

(** A listing is flagged sold exactly when it has a sale, and then it has one:
    is_sold is 0 with no Sale row, or 1 with a single Sale row. *)
Definition sold_once (db : DB) : Prop :=
  forall l, In l (listings db) ->
            (Listing.is_sold l = 0 /\ sales_of_listing db l = [])
            \/ (Listing.is_sold l = 1 /\ exists s, sales_of_listing db l = [s]).

(** How one operation changes the database: it appends rows to tables and
    flags listings sold, and the rows it appends refer to rows that exist. *)
Definition appended_by (db db' : DB) : Prop :=
  exists new_offices new_agents new_agent_office new_sellers new_listings
         new_buyers new_sales new_commissions new_monthly sold xs,
    db' = mkDB (offices db ++ new_offices) (agents db ++ new_agents)
               (agent_office db ++ new_agent_office) (sellers db ++ new_sellers)
               (flag_sold (map Listing.id sold) (listings db) ++ new_listings)
               (buyers db ++ new_buyers) (sales db ++ new_sales)
               (commissions db ++ new_commissions)
               (month_commissions db ++ new_monthly)
    /\ Forall (fun ao => has_id Agent.id (agents db ++ new_agents)
                                (AgentOffice.agent_id ao)
                         /\ has_id Office.id (offices db) (AgentOffice.office_id ao))
              new_agent_office
    /\ Forall (fun l => Listing.is_sold l = 0
                        /\ has_id Seller.id (sellers db ++ new_sellers)
                                  (Listing.seller_id l)
                        /\ has_id Agent.id (agents db) (Listing.listing_agent_id l)
                        /\ exists ao, In ao (agent_office db)
                                      /\ Listing.office_id l = AgentOffice.office_id ao)
              new_listings
    /\ (exists n, sold = limit n (unsold (listings db)))
    /\ map fst xs = sold
    /\ Forall (fun x => In (fst (snd x)) new_buyers) xs
    /\ Forall2 sale_from_listing xs new_sales
    /\ Forall2 commission_of_sale new_sales new_commissions
    /\ Forall (fun mc => has_id Agent.id (agents db) (MonthlyCommission.agent_id mc))
              new_monthly.




(** The commission rates of the five tiers. *)
Definition rates : list Q := [0.10; 0.075; 0.06; 0.05; 0.04]%Q.

(** ** Example data *)

(** April 2023 and the days around it. *)
Definition apr (d : Z) : date := mkdate 2023 4 d.

Definition agent_A : Agent.t := Agent.mk 1 "A" "a@example.org" "555-0101".
Definition agent_B : Agent.t := Agent.mk 2 "B" "b@example.org" "555-0102".
Definition agent_C : Agent.t := Agent.mk 3 "C" "c@example.org" "555-0103".

(** Agent A earned 11,250 and 8,000 in April 2023; agent B earned on the first
    day of May and at the end of March. *)
Definition april_commissions : list Commission.t :=
  [Commission.mk 1 1 1 11250 (apr 10);
   Commission.mk 2 1 2 8000 (apr 30);
   Commission.mk 3 2 3 5000 (mkdate 2023 5 1);
   Commission.mk 4 2 4 7000 (mkdate 2023 3 31)].

Definition db_april : DB :=
  mkDB [] [agent_A; agent_B] [] [] [] [] [] april_commissions [].

(** [db_april] after the rollup of April 2023. *)
Definition db_april_rolled : DB :=
  set_month_commissions db_april
    [MonthlyCommission.mk 1 1 (mkdate 2023 5 1) (0 + 11250 + 8000);
     MonthlyCommission.mk 2 2 (mkdate 2023 5 1) (0 + 5000)].

(** The same rows with agent B stored before agent A. *)
Definition db_april_B_first : DB :=
  mkDB [] [agent_B; agent_A] [] [] [] [] [] april_commissions [].

(** [db_april_B_first] after the rollup of April 2023: agent A's larger total
    is stored first. *)
Definition db_april_B_first_rolled : DB :=
  set_month_commissions db_april_B_first
    [MonthlyCommission.mk 1 1 (mkdate 2023 5 1) (0 + 11250 + 8000);
     MonthlyCommission.mk 2 2 (mkdate 2023 5 1) (0 + 5000)].

(** Agent A earned 11,250 on the first day of April 2023 and 8,000 on its last
    day; agent B earned 5,000 on the first day of May; agent C earned 7,000 on
    the first day of April. *)
Definition db_first_days : DB :=
  mkDB [] [agent_A; agent_B; agent_C] [] [] [] [] []
       [Commission.mk 1 1 1 11250 (apr 1);
        Commission.mk 2 1 2 8000 (apr 30);
        Commission.mk 3 2 3 5000 (mkdate 2023 5 1);
        Commission.mk 4 3 4 7000 (apr 1)] [].

(** A sale by [agent] on 15 April 2023. *)
Definition april_sale (id agent : Z) : Sale.t :=
  Sale.mk id id 250000 (apr 15) agent 1 id.

(** A sale by [agent] on the date [d]. *)
Definition sale_on (d : date) (id agent : Z) : Sale.t :=
  Sale.mk id id 250000 d agent 1 id.

(** Agent A closes three sales on the first day of April 2023, agent B two in
    mid-April, agent C one on the first day of May. *)
Definition db_top_first_days : DB :=
  mkDB [] [agent_A; agent_B; agent_C] [] [] [] []
       (map (fun i => sale_on (apr 1) i 1) [1; 2; 3]
        ++ map (fun i => sale_on (apr 15) i 2) [4; 5]
        ++ [sale_on (mkdate 2023 5 1) 6 3])
       [] [].

(** April 2023: agent B closes seven sales and agent C three; agent A's only
    sale is from March. *)
Definition db_top : DB :=
  mkDB [] [agent_A; agent_C; agent_B] [] [] [] []
       (Sale.mk 1 1 150000 (mkdate 2023 3 20) 1 1 1
        :: map (fun i => april_sale i 3) [2; 3; 4]
        ++ map (fun i => april_sale i 2) [5; 6; 7; 8; 9; 10; 11])
       [] [].

(** A listing priced 150,000, listed on 2023-03-01 and not sold yet. *)
Definition listing_150k : Listing.t :=
  Listing.mk 1 1 3 2 150000 "94110" (mkdate 2023 3 1) 1 1 0.

Definition db_listed : DB :=
  mkDB [Office.mk 1 "1 Main St"] [agent_A] [AgentOffice.mk 1 1 1]
       [Seller.mk 1 "S" "555-0201"] [listing_150k] [] [] [] [].

Definition draw_apr10 : SaleDraw := mkSaleDraw "Y" "555-0301" (apr 10).

(** [db_listed] once the listing is sold on 2023-04-10. *)
Definition db_sold : DB :=
  mkDB [Office.mk 1 "1 Main St"] [agent_A] [AgentOffice.mk 1 1 1]
       [Seller.mk 1 "S" "555-0201"]
       [Listing.set_is_sold listing_150k 1]
       [Buyer.mk 1 "Y" "555-0301"]
       [Sale.mk 1 1 150000 (apr 10) 1 1 1]
       [Commission.mk 1 1 1 (150000 * 0.075) (apr 10)] [].

Definition draw_apr20 : SaleDraw := mkSaleDraw "Z" "555-0302" (apr 20).

Definition draw_may1 : SaleDraw := mkSaleDraw "Y" "555-0301" (mkdate 2023 5 1).

(** [db_listed] once the listing is sold on the date [d]. *)
Definition db_sold_on (d : date) : DB :=
  mkDB [Office.mk 1 "1 Main St"] [agent_A] [AgentOffice.mk 1 1 1]
       [Seller.mk 1 "S" "555-0201"]
       [Listing.set_is_sold listing_150k 1]
       [Buyer.mk 1 "Y" "555-0301"]
       [Sale.mk 1 1 150000 d 1 1 1]
       [Commission.mk 1 1 1 (150000 * 0.075) d] [].

(** [db_sold] after the rollup of April 2023, run once and run twice. *)
Definition db_sold_rolled : DB :=
  set_month_commissions db_sold
    [MonthlyCommission.mk 1 1 (mkdate 2023 5 1) (0 + 150000 * 0.075)].

Definition db_sold_rolled_twice : DB :=
  set_month_commissions db_sold
    [MonthlyCommission.mk 1 1 (mkdate 2023 5 1) (0 + 150000 * 0.075);
     MonthlyCommission.mk 2 1 (mkdate 2023 5 1) (0 + 150000 * 0.075)].

(** Seeding one office, agent and listing, one sale on 2023-04-10, and the
    rollup of April 2023 run twice. *)
Definition ops_rollup_twice : list op :=
  [InsertOffices ["1 Main St"%string];
   InsertAgents [mkAgentDraw "A" "a@example.org" "555-0101" 0];
   InsertListings [mkListingDraw "S" "555-0201" 0 3 2 150000 "94110"
                                 (mkdate 2023 3 1)];
   InsertSales [draw_apr10];
   GetTotalCommission 2023 4;
   GetTotalCommission 2023 4].

(** Draws of the sizes [insert_data.main] asks for. *)
Definition seed_draws : SeedDraws :=
  mkSeedDraws
    (repeat "1 Main St"%string 50)
    (repeat (mkAgentDraw "A" "a@example.org" "555-0101" 3) 250)
    (repeat (7%nat, 11%nat) 500)
    (repeat (mkListingDraw "S" "555-0201" 5 3 2 150000 "94110" (mkdate 2023 3 1)) 1000)
    (repeat draw_apr10 500).

(** * Properties *)

(** ** Arithmetic and date helpers *)

Lemma Qltb_lt (a b : Q) : Qltb a b = true <-> (a < b)%Q.
Proof.
  unfold Qltb. rewrite negb_true_iff. split; intro H.
  - apply Qnot_le_lt. intro Hle. apply Qle_bool_iff in Hle. congruence.
  - destruct (Qle_bool b a) eqn:E; [|reflexivity].
    apply Qle_bool_iff in E. exfalso. exact (Qlt_not_le _ _ H E).
Qed.

Lemma Qltb_ge (a b : Q) : Qltb a b = false <-> (b <= a)%Q.
Proof.
  unfold Qltb. rewrite negb_false_iff. apply Qle_bool_iff.
Qed.

(** The tiers of [get_commission_rate], lower bound inclusive, upper bound
    exclusive, first match first. *)
Lemma commission_rate_tiers (p : Q) :
  ((p < 100000)%Q /\ get_commission_rate p = 0.10%Q)
  \/ ((100000 <= p)%Q /\ (p < 200000)%Q /\ get_commission_rate p = 0.075%Q)
  \/ ((200000 <= p)%Q /\ (p < 500000)%Q /\ get_commission_rate p = 0.06%Q)
  \/ ((500000 <= p)%Q /\ (p < 1000000)%Q /\ get_commission_rate p = 0.05%Q)
  \/ ((1000000 <= p)%Q /\ get_commission_rate p = 0.04%Q).
Proof.
  unfold get_commission_rate.
  destruct (Qltb p 100000) eqn:E1.
  { left. split; [now apply Qltb_lt | reflexivity]. }
  apply Qltb_ge in E1.
  destruct (Qltb p 200000) eqn:E2.
  { right; left. repeat split; [assumption | now apply Qltb_lt]. }
  apply Qltb_ge in E2.
  destruct (Qltb p 500000) eqn:E3.
  { right; right; left. repeat split; [assumption | now apply Qltb_lt]. }
  apply Qltb_ge in E3.
  destruct (Qltb p 1000000) eqn:E4.
  { right; right; right; left. repeat split; [assumption | now apply Qltb_lt]. }
  apply Qltb_ge in E4.
  right; right; right; right. split; [assumption | reflexivity].
Qed.

(** C3: the commission rate at the eight boundary prices.  Tiers are tried in
    order with an exclusive upper bound, so a price just below a bound takes
    the lower tier's rate and the bound itself takes the next one:
    rate(99999.99)=0.10, rate(100000)=0.075, rate(199999.99)=0.075,
    rate(200000)=0.06, rate(499999.99)=0.06, rate(500000)=0.05,
    rate(999999.99)=0.05, rate(1000000)=0.04. *)
Theorem commission_rate_boundary_values :
  get_commission_rate 99999.99 = 0.10%Q
  /\ get_commission_rate 100000 = 0.075%Q
  /\ get_commission_rate 199999.99 = 0.075%Q
  /\ get_commission_rate 200000 = 0.06%Q
  /\ get_commission_rate 499999.99 = 0.06%Q
  /\ get_commission_rate 500000 = 0.05%Q
  /\ get_commission_rate 999999.99 = 0.05%Q
  /\ get_commission_rate 1000000 = 0.04%Q.
Proof.
  repeat split; reflexivity.
Qed.

(** C4: for a non-negative sale price the rate is one of the five tier rates,
    and a higher price never has a higher rate; a negative price is accepted
    and takes the rate 0.10 of the lowest tier. *)
Theorem commission_rate_range_monotone :
  (forall p : Q, (0 <= p)%Q -> In (get_commission_rate p) rates)
  /\ (forall p1 p2 : Q,
         (0 <= p1)%Q -> (p1 <= p2)%Q ->
         (get_commission_rate p2 <= get_commission_rate p1)%Q)
  /\ (forall p : Q, (p < 0)%Q -> get_commission_rate p = 0.10%Q).
Proof.
  split; [|split].
  - intros p _. unfold rates.
    destruct (commission_rate_tiers p)
      as [[_ H]|[[_ [_ H]]|[[_ [_ H]]|[[_ [_ H]]|[_ H]]]]];
      rewrite H; simpl; tauto.
  - intros p1 p2 _ Hle.
    destruct (commission_rate_tiers p1)
      as [[U1 H1]|[[L1 [U1 H1]]|[[L1 [U1 H1]]|[[L1 [U1 H1]]|[L1 H1]]]]];
    destruct (commission_rate_tiers p2)
      as [[U2 H2]|[[L2 [U2 H2]]|[[L2 [U2 H2]]|[[L2 [U2 H2]]|[L2 H2]]]]];
    rewrite H1, H2;
    first [ discriminate
          | exfalso;
            match goal with
            | [ L : (?c <= p1)%Q, U : (p2 < ?d)%Q |- _ ] =>
                apply (Qlt_irrefl c);
                apply (Qle_lt_trans _ p1); [exact L|];
                apply (Qle_lt_trans _ p2); [exact Hle|];
                apply (Qlt_le_trans _ d); [exact U|]; discriminate
            end ].
  - intros p Hneg.
    destruct (commission_rate_tiers p)
      as [[_ H]|[[L _]|[[L _]|[[L _]|[L _]]]]]; [exact H| | | |];
      pose proof (Qle_lt_trans _ _ _ L Hneg) as F; vm_compute in F; discriminate F.
Qed.

Lemma commission_rate_range_monotone_witness :
  In (get_commission_rate 150000) rates
  /\ (get_commission_rate 600000 <= get_commission_rate 150000)%Q
  /\ get_commission_rate (-5) = 0.10%Q.
Proof.
  split; [|split].
  - apply (proj1 commission_rate_range_monotone). discriminate.
  - apply (proj1 (proj2 commission_rate_range_monotone)); discriminate.
  - apply (proj2 (proj2 commission_rate_range_monotone)). reflexivity.
Defined.

(** ** Dates and their texts *)

Lemma date_eqb_eq (a b : date) : date_eqb a b = true <-> a = b.
Proof.
  destruct a as [y1 m1 d1], b as [y2 m2 d2]. unfold date_eqb. simpl.
  rewrite !andb_true_iff, !Z.eqb_eq. split.
  - intros [[-> ->] ->]. reflexivity.
  - intro H. injection H as -> -> ->. auto.
Qed.

Lemma date_ltb_lt (a b : date) :
  date_ltb a b = true
  <-> year a < year b
      \/ (year a = year b
          /\ (month a < month b \/ (month a = month b /\ day a < day b))).
Proof.
  unfold date_ltb.
  rewrite !orb_true_iff, !andb_true_iff, !orb_true_iff, !andb_true_iff,
    !Z.ltb_lt, !Z.eqb_eq.
  tauto.
Qed.

(** Dates are totally ordered. *)
Lemma date_ltb_false (a b : date) :
  date_ltb a b = false <-> date_ltb b a = true \/ a = b.
Proof.
  rewrite <- not_true_iff_false, !date_ltb_lt.
  destruct a as [y1 m1 d1], b as [y2 m2 d2]. simpl. split.
  - intros H.
    destruct (Z.eq_dec y1 y2) as [->|Hy], (Z.eq_dec m1 m2) as [->|Hm],
      (Z.eq_dec d1 d2) as [->|Hd]; try (left; lia).
    now right.
  - intros [H|H]; [lia|]. injection H as -> -> ->. lia.
Qed.

(** The text of a [Date] value never equals the text of a [datetime]. *)
Lemma text_eqb_date_datetime (d e : date) :
  text_eqb (date_text d) (datetime_text e) = false.
Proof.
  unfold text_eqb. simpl. apply andb_false_r.
Qed.

(** Against a [datetime] bound, [>=] leaves out the bound's own date and [<]
    lets it in. *)
Lemma text_geb_date_datetime (d s : date) :
  text_geb (date_text d) (datetime_text s) = date_ltb s d.
Proof.
  unfold text_geb, text_ltb. simpl. rewrite !andb_true_r.
  destruct (date_ltb s d) eqn:K.
  - apply negb_true_iff, orb_false_iff. split.
    + apply date_ltb_false. now left.
    + apply not_true_iff_false. intro E. apply date_eqb_eq in E. subst d.
      assert (F : date_ltb s s = false) by (apply date_ltb_false; now right).
      congruence.
  - apply negb_false_iff, orb_true_iff.
    apply date_ltb_false in K. destruct K as [K|K]; [now left|].
    right. apply date_eqb_eq. now symmetry.
Qed.

Lemma text_ltb_date_datetime (d e : date) :
  text_ltb (date_text d) (datetime_text e) = negb (date_ltb e d).
Proof.
  unfold text_ltb. simpl. rewrite !andb_true_r.
  destruct (date_ltb e d) eqn:K; simpl.
  - apply orb_false_iff. split.
    + apply date_ltb_false. now left.
    + apply not_true_iff_false. intro E. apply date_eqb_eq in E. subst d.
      assert (F : date_ltb e e = false) by (apply date_ltb_false; now right).
      congruence.
  - apply orb_true_iff. apply date_ltb_false in K.
    destruct K as [K|K]; [now left|]. right. apply date_eqb_eq. now symmetry.
Qed.

(** The window filter selects the dates after [s] up to and including [e]. *)
Lemma in_window_after_upto (s e d : date) :
  in_window s e d = after_upto s e d.
Proof.
  unfold in_window, after_upto.
  now rewrite text_geb_date_datetime, text_ltb_date_datetime.
Qed.

Lemma in_window_iff (s e d : date) :
  in_window s e d = true <-> date_ltb s d = true /\ date_ltb e d = false.
Proof.
  rewrite in_window_after_upto. unfold after_upto.
  rewrite andb_true_iff, negb_true_iff. tauto.
Qed.

(** The check-before-insert of the rollup finds no row, whatever the table
    holds. *)
Lemma existing_monthly_nil (a : Z) (e : date) (tbl : list MonthlyCommission.t) :
  existing_monthly a e tbl = [].
Proof.
  unfold existing_monthly. induction tbl as [|mc tbl IH]; simpl; [reflexivity|].
  now rewrite text_eqb_date_datetime, andb_false_r.
Qed.

(** ** The month window *)

Lemma fits_c_int_small (z : Z) :
  -2147483648 <= z <= 2147483647 -> fits_c_int z = true.
Proof.
  intros H. unfold fits_c_int. apply andb_true_iff. split; apply Z.leb_le; lia.
Qed.

Lemma datetime_first_day (y m : Z) :
  1 <= y <= 9999 -> 1 <= m <= 12 -> datetime y m 1 = Ok (mkdate y m 1).
Proof.
  intros Hy Hm. unfold datetime.
  rewrite !fits_c_int_small by lia. cbn [andb negb].
  assert (Hd : (1 <=? days_in_month y m) = true).
  { unfold days_in_month.
    destruct (m =? 2); [destruct (is_leap y)|
      destruct ((m =? 4) || (m =? 6) || (m =? 9) || (m =? 11))]; reflexivity. }
  replace (1 <=? y) with true by (symmetry; apply Z.leb_le; lia).
  replace (y <=? 9999) with true by (symmetry; apply Z.leb_le; lia).
  replace (1 <=? m) with true by (symmetry; apply Z.leb_le; lia).
  replace (m <=? 12) with true by (symmetry; apply Z.leb_le; lia).
  unfold days_in_month in *. simpl. rewrite Hd. reflexivity.
Qed.

Lemma datetime_inv (y m d : Z) (t : date) :
  datetime y m d = Ok t ->
  t = mkdate y m d /\ 1 <= y <= 9999 /\ 1 <= m <= 12.
Proof.
  unfold datetime.
  destruct (negb _); [discriminate|].
  destruct (1 <=? y) eqn:E1; [|discriminate].
  destruct (y <=? 9999) eqn:E2; [|discriminate].
  destruct (1 <=? m) eqn:E3; [|discriminate].
  destruct (m <=? 12) eqn:E4; [|discriminate].
  simpl. destruct (1 <=? d); [|discriminate].
  simpl. destruct (d <=? days_in_month y m); [|discriminate].
  intro H. injection H as <-.
  apply Z.leb_le in E1, E2, E3, E4. repeat split; assumption.
Qed.

(** The code's window is the specification's, exactly on the valid months. *)
Lemma month_window_valid (y m : Z) :
  valid_month y m ->
  month_window y m = Ok (window_start y m, window_end y m).
Proof.
  intros [Hy [Hm H12]]. unfold month_window, window_start, window_end.
  rewrite (datetime_first_day y m Hy Hm). simpl.
  destruct (m =? 12) eqn:E.
  - apply Z.eqb_eq in E. rewrite datetime_first_day by lia. reflexivity.
  - apply Z.eqb_neq in E. rewrite datetime_first_day by lia. reflexivity.
Qed.

Lemma month_window_inv (y m : Z) (s e : date) :
  month_window y m = Ok (s, e) ->
  valid_month y m /\ s = window_start y m /\ e = window_end y m.
Proof.
  unfold month_window, window_start, window_end, valid_month.
  destruct (datetime y m 1) as [s0|] eqn:Es; [|discriminate]. simpl.
  apply datetime_inv in Es. destruct Es as [-> [Hy Hm]].
  destruct (m =? 12) eqn:E.
  - destruct (datetime (y + 1) 1 1) as [e0|] eqn:Ee; [|discriminate]. simpl.
    apply datetime_inv in Ee. destruct Ee as [-> [Hy' _]].
    intro H. injection H as <- <-. repeat split; try lia.
  - destruct (datetime y (m + 1) 1) as [e0|] eqn:Ee; [|discriminate]. simpl.
    apply datetime_inv in Ee. destruct Ee as [-> [_ Hm']].
    intro H. injection H as <- <-. apply Z.eqb_neq in E. repeat split; try lia.
Qed.

(** C10: [print_monthly_commission_table] fails on month 1 of every year: its
    start date is [datetime(year, 0, 1)], which raises an error, so no table
    is printed for January although 1 is a valid month.  The error is
    [ValueError] (month 0) for every year that fits a C int, the years 1 to
    9999 among them, and [OverflowError] for a year beyond. *)
Theorem print_monthly_commission_table_january (year : Z) (db : DB) :
  print_monthly_commission_table year 1 db
  = Raise (if fits_c_int year then ValueError else OverflowError).
Proof.
  unfold print_monthly_commission_table, datetime. cbn [Z.sub Z.add Z.opp Z.pos_sub].
  change (fits_c_int 0) with true. change (fits_c_int 1) with true.
  rewrite !andb_true_r.
  destruct (fits_c_int year); cbn [negb]; [|reflexivity].
  change (1 <=? 0) with false. rewrite andb_false_r. reflexivity.
Qed.

(** For contrast, the months 2 to 11 of a valid year do print. *)
Lemma print_monthly_commission_table_other_months (year month : Z) (db : DB) :
  1 <= year <= 9999 -> 2 <= month <= 11 ->
  exists table_data, print_monthly_commission_table year month db = Ok table_data.
Proof.
  intros Hy Hm. unfold print_monthly_commission_table.
  rewrite datetime_first_day by lia. simpl.
  replace (month =? 12) with false by (symmetry; apply Z.eqb_neq; lia).
  rewrite datetime_first_day by lia. simpl. eexists. reflexivity.
Qed.

(** ** Joins, filters and aggregates *)

Lemma filter_nil_of_all_false {A : Type} (f : A -> bool) (l : list A) :
  (forall x, In x l -> f x = false) -> filter f l = [].
Proof.
  induction l as [|x l IH]; intros H; simpl; [reflexivity|].
  rewrite (H x (or_introl eq_refl)). apply IH.
  intros y Hy. apply H. now right.
Qed.

Lemma in_inner_join {A B : Type} (on : A -> B -> bool) (la : list A) (lb : list B)
  (a : A) (b : B) :
  In (a, b) (inner_join on la lb) <-> In a la /\ In b lb /\ on a b = true.
Proof.
  unfold inner_join. rewrite in_flat_map. split.
  - intros [a' [Ha H]]. apply in_map_iff in H. destruct H as [b' [Heq Hb]].
    injection Heq as -> ->. apply filter_In in Hb. tauto.
  - intros [Ha [Hb Hon]]. exists a. split; [assumption|].
    apply in_map. apply filter_In. tauto.
Qed.

(** C7: the two averages are not None for every month without sales.  In
    [db_sold_on (mkdate 2023 5 1)] the only sale is dated 2023-05-01, so April
    2023 holds no sale; the listing was listed on 2023-03-01 at 150,000.  For
    (2023, 4) [average_days_on_market_monthly] returns 61 days and
    [average_selling_price_monthly] returns 150,000: the upper bound of the
    filter is a [datetime] compared with a [Date] column, which lets the first
    day of the following month in. *)
Theorem averages_count_first_day_of_next_month :
  insert_sales [draw_may1] db_listed = Ok (db_sold_on (mkdate 2023 5 1))
  /\ filter (fun s => in_month 2023 4 (Sale.date_of_sale s))
            (sales (db_sold_on (mkdate 2023 5 1))) = []
  /\ average_days_on_market_monthly 2023 4 (db_sold_on (mkdate 2023 5 1))
     = Ok (Some (244 # 4))
  /\ (244 # 4 == 61)%Q
  /\ average_selling_price_monthly 2023 4 (db_sold_on (mkdate 2023 5 1))
     = Ok (Some 150000%Q).
Proof.
  repeat split.
Qed.

(** ** Loops and the tables they leave alone *)

Lemma for_each_invariant {S A : Type} (P : S -> Prop) (body : S -> A -> result S) :
  (forall s x s', P s -> body s x = Ok s' -> P s') ->
  forall l s s', P s -> for_each body l s = Ok s' -> P s'.
Proof.
  intros Hbody. induction l as [|x l IH]; intros s s' Hs Hrun; simpl in Hrun.
  - injection Hrun as <-. exact Hs.
  - destruct (body s x) as [s1|] eqn:E; simpl in Hrun; [|discriminate].
    apply (IH s1 s'); [|exact Hrun]. exact (Hbody s x s1 Hs E).
Qed.

Lemma commit_or_rollback_invariant (P : DB -> Prop) (db : DB) (r : result DB) :
  P db -> (forall db', r = Ok db' -> P db') -> P (commit_or_rollback db r).
Proof.
  intros Hdb Hr. destruct r as [db'|]; simpl; [now apply Hr | exact Hdb].
Qed.

(** ** The check-before-insert of the rollup *)

(** One turn of the loop of the rollup: the check finds nothing and the row
    is appended. *)
Lemma get_total_commission_body_appends (e : date) (db : DB) (r : Z * Q) :
  get_total_commission_body e db r
  = set_month_commissions db
      (month_commissions db
       ++ [MonthlyCommission.mk
             (next_id (map MonthlyCommission.id (month_commissions db)))
             (fst r) e (snd r)]).
Proof.
  unfold get_total_commission_body. now rewrite existing_monthly_nil.
Qed.

(** C2: a second rollup of the same month does not leave the table as the
    first did.  [db_sold] holds one sale, of 2023-04-10, with its commission
    of 150,000 * 0.075.  The first rollup of April 2023 stores one row for
    (agent 1, 2023-05-01).  The second finds no row for that pair, although
    the row is there, and stores the same total again: running the rollup
    twice leaves two rows where running it once leaves one.  The check
    compares the [Date] column with the [datetime] [end_date], and the two
    never compare equal. *)
Theorem second_rollup_inserts_again :
  get_total_commission 2023 4 db_sold = Ok db_sold_rolled
  /\ monthly_rows 1 (mkdate 2023 5 1) db_sold_rolled
     = [MonthlyCommission.mk 1 1 (mkdate 2023 5 1) (0 + 150000 * 0.075)]
  /\ existing_monthly 1 (mkdate 2023 5 1) (month_commissions db_sold_rolled) = []
  /\ get_total_commission 2023 4 db_sold_rolled = Ok db_sold_rolled_twice
  /\ run [GetTotalCommission 2023 4] db_sold = db_sold_rolled
  /\ run [GetTotalCommission 2023 4; GetTotalCommission 2023 4] db_sold
     = db_sold_rolled_twice
  /\ List.length (month_commissions db_sold_rolled) = 1%nat
  /\ List.length (month_commissions db_sold_rolled_twice) = 2%nat.
Proof.
  repeat split.
Qed.

(** C8: the operations of the program reach a state with two MonthlyCommission
    rows for one (agent_id, date).  From the empty database, seeding one
    office, one agent and one listing, recording its sale on 2023-04-10 and
    running the rollup of April 2023 twice leaves two rows for
    (agent 1, 2023-05-01).  The second rollup starts from a state with one
    row per pair and does not keep it so: its check-before-insert never finds
    the row that is there. *)
Theorem rollup_twice_breaks_monthly_unique :
  run ops_rollup_twice empty_db = db_sold_rolled_twice
  /\ List.length (monthly_rows 1 (mkdate 2023 5 1) (run ops_rollup_twice empty_db))
     = 2%nat
  /\ ~ monthly_unique (run ops_rollup_twice empty_db)
  /\ monthly_unique db_sold_rolled
  /\ exec (GetTotalCommission 2023 4) db_sold_rolled = db_sold_rolled_twice
  /\ ~ monthly_unique (exec (GetTotalCommission 2023 4) db_sold_rolled).
Proof.
  split; [reflexivity|]. split; [reflexivity|]. split; [|split; [|split]].
  - intros H. specialize (H 1 (mkdate 2023 5 1)).
    change (2 <= 1)%nat in H. lia.
  - intros a d. unfold monthly_rows. cbn [month_commissions db_sold_rolled
      set_month_commissions filter].
    destruct (_ && _); cbn [List.length]; lia.
  - reflexivity.
  - intros H. specialize (H 1 (mkdate 2023 5 1)).
    change (2 <= 1)%nat in H. lia.
Qed.

(** ** Sorting, grouping and joining *)

Section OrderBy.
Context {R : Type} (ge : R -> R -> bool).

Lemma insert_desc_perm (x : R) (l : list R) :
    Permutation (insert_desc ge x l) (x :: l).
  Proof.
    induction l as [|y l IH]; simpl; [reflexivity|].
    destruct (ge x y); [reflexivity|].
    rewrite IH. apply perm_swap.
  Qed.

Lemma order_by_desc_perm (l : list R) : Permutation (order_by_desc ge l) l.
  Proof.
    induction l as [|x l IH]; simpl; [reflexivity|].
    rewrite insert_desc_perm. now apply perm_skip.
  Qed.

Hypothesis ge_total : forall x y, ge x y = false -> ge y x = true.
Hypothesis ge_trans : forall x y z, ge x y = true -> ge y z = true -> ge x z = true.

Let before (x y : R) : Prop := ge x y = true.

Lemma insert_desc_sorted (x : R) (l : list R) :
    Sorted before l -> Sorted before (insert_desc ge x l).
  Proof.
    induction l as [|y l IH]; intros Hs; simpl.
    - repeat constructor.
    - destruct (ge x y) eqn:E.
      + constructor; [exact Hs|]. constructor. exact E.
      + inversion Hs as [|? ? Hs' Hhd]; subst.
        constructor; [now apply IH|].
        destruct l as [|z l]; simpl.
        * constructor. now apply ge_total.
        * destruct (ge x z); constructor.
          -- now apply ge_total.
          -- now inversion Hhd.
  Qed.

Lemma order_by_desc_sorted (l : list R) :
    StronglySorted before (order_by_desc ge l).
  Proof.
    apply Sorted_StronglySorted.
    - intros x y z. apply ge_trans.
    - induction l as [|x l IH]; simpl; [constructor|].
      now apply insert_desc_sorted.
  Qed.
End OrderBy.

Lemma Permutation_filter {A : Type} (f : A -> bool) (l l' : list A) :
  Permutation l l' -> Permutation (filter f l) (filter f l').
Proof.
  induction 1 as [|x l l' _ IH|x y l|l l' l'' _ IH1 _ IH2]; simpl.
  - constructor.
  - destruct (f x); [now apply perm_skip | exact IH].
  - destruct (f x), (f y); try reflexivity. apply perm_swap.
  - now transitivity (filter f l').
Qed.

Lemma NoDup_map_filter {A B : Type} (g : A -> B) (f : A -> bool) (l : list A) :
  NoDup (map g l) -> NoDup (map g (filter f l)).
Proof.
  induction l as [|x l IH]; simpl; intros H; [constructor|].
  inversion H as [|? ? Hnot Hnd]; subst.
  destruct (f x); simpl; [|now apply IH].
  constructor; [|now apply IH].
  intro Hin. apply Hnot. apply in_map_iff in Hin.
  destruct Hin as [y [Hy Hin]]. apply filter_In in Hin.
  apply in_map_iff. exists y. tauto.
Qed.

Section GroupBy.
Context {R : Type} (key : R -> Z).

Lemma distinct_on_incl (l : list R) (r : R) :
    In r (distinct_on key l) -> In r l.
  Proof.
    induction l as [|x l IH]; simpl; [tauto|].
    intros [->|H]; [now left|]. right. apply IH.
    apply filter_In in H. tauto.
  Qed.

Lemma distinct_on_filter (k : Z) (l : list R) :
    filter (fun r => negb (key r =? k)) (distinct_on key l)
    = distinct_on key (filter (fun r => negb (key r =? k)) l).
  Proof.
    induction l as [|x l IH]; simpl; [reflexivity|].
    destruct (key x =? k) eqn:E; simpl.
    - apply Z.eqb_eq in E. subst k. rewrite <- IH.
      clear IH. induction (distinct_on key l) as [|y t IHt]; simpl; [reflexivity|].
      destruct (key y =? key x) eqn:Ey; simpl; [exact IHt|].
      rewrite Ey. simpl. now f_equal.
    - f_equal. rewrite <- IH. clear IH.
      induction (distinct_on key l) as [|y t IHt]; simpl; [reflexivity|].
      destruct (key y =? key x) eqn:Ey, (key y =? k) eqn:Ek; simpl;
        rewrite ?Ey, ?Ek; simpl; rewrite ?IHt; reflexivity.
  Qed.

Lemma distinct_on_keys (l : list R) : NoDup (map key (distinct_on key l)).
  Proof.
    induction l as [|x l IH]; simpl; constructor.
    - intro Hin. apply in_map_iff in Hin. destruct Hin as [y [Hy Hin]].
      apply filter_In in Hin. destruct Hin as [_ Hne].
      rewrite Hy, Z.eqb_refl in Hne. discriminate.
    - now apply NoDup_map_filter.
  Qed.
End GroupBy.

Section JoinGroup.
Context {A B : Type} (key : A -> Z) (m : A -> list B).

  (** A join whose right rows depend on the left row only. *)
Let joined (la : list A) : list (A * B) :=
    flat_map (fun a => map (pair a) (m a)) la.

Lemma joined_key_absent (k : Z) (la : list A) :
    ~ In k (map key la) ->
    filter (fun r => key (fst r) =? k) (joined la) = []
    /\ filter (fun r => negb (key (fst r) =? k)) (joined la) = joined la.
  Proof.
    intros Hnot. split.
    - apply filter_nil_of_all_false. intros [a b] Hin. simpl.
      apply in_flat_map in Hin. destruct Hin as [a' [Ha Hin]].
      apply in_map_iff in Hin. destruct Hin as [b' [Heq _]]. injection Heq as -> ->.
      apply Z.eqb_neq. intros <-. apply Hnot. now apply in_map.
    - apply forallb_filter_id. apply forallb_forall. intros [a b] Hin. simpl.
      apply in_flat_map in Hin. destruct Hin as [a' [Ha Hin]].
      apply in_map_iff in Hin. destruct Hin as [b' [Heq _]]. injection Heq as -> ->.
      apply negb_true_iff, Z.eqb_neq. intros <-. apply Hnot. now apply in_map.
  Qed.

Lemma filter_pair_same (a : A) (bs : list B) :
    filter (fun r : A * B => key (fst r) =? key a) (map (pair a) bs) = map (pair a) bs
    /\ filter (fun r : A * B => negb (key (fst r) =? key a)) (map (pair a) bs) = [].
  Proof.
    induction bs as [|b bs [IH1 IH2]]; simpl; [split; reflexivity|].
    rewrite Z.eqb_refl. simpl. rewrite IH1, IH2. split; reflexivity.
  Qed.

Lemma filter_pair_other (a a' : A) (bs : list B) :
    key a' <> key a ->
    filter (fun r : A * B => key (fst r) =? key a) (map (pair a') bs) = [].
  Proof.
    intros Hne. apply filter_nil_of_all_false. intros [x b] Hin.
    apply in_map_iff in Hin. destruct Hin as [b' [Heq _]]. injection Heq as -> ->.
    simpl. now apply Z.eqb_neq.
  Qed.

  (** With a unique key on the left, the rows of one key are the rows of one
      left row. *)
Lemma group_of_joined (la : list A) (a : A) :
    NoDup (map key la) -> In a la ->
    filter (fun r => key (fst r) =? key a) (joined la) = map (pair a) (m a).
  Proof.
    induction la as [|a0 la IH]; simpl; intros Hnd Hin; [tauto|].
    inversion Hnd as [|? ? Hnot Hnd']; subst.
    unfold joined. simpl. rewrite filter_app. destruct Hin as [->|Hin].
    - rewrite (proj1 (filter_pair_same a (m a))).
      fold (joined la). rewrite (proj1 (joined_key_absent (key a) la Hnot)).
      apply app_nil_r.
    - rewrite filter_pair_other.
      + simpl. now apply IH.
      + intro Heq. apply Hnot. rewrite Heq. now apply in_map.
  Qed.

  (** ... and there is one group for every left row that has a right row. *)
Lemma distinct_on_joined (la : list A) :
    NoDup (map key la) ->
    map fst (distinct_on (fun r => key (fst r)) (joined la))
    = filter (fun a => (0 <? List.length (m a))%nat) la.
  Proof.
    induction la as [|a la IH]; simpl; intros Hnd; [reflexivity|].
    inversion Hnd as [|? ? Hnot Hnd']; subst.
    unfold joined. simpl. fold (joined la).
    destruct (m a) as [|b bs]; simpl; [now apply IH|].
    f_equal.
    rewrite (distinct_on_filter (fun r : A * B => key (fst r)) (key a)).
    rewrite filter_app.
    rewrite (proj2 (filter_pair_same a bs)).
    rewrite (proj2 (joined_key_absent (key a) la Hnot)).
    simpl. now apply IH.
  Qed.

Lemma group_by_joined {T : Type} (agg : A -> list (A * B) -> T) (la : list A) :
    NoDup (map key la) ->
    map (fun g => agg (fst (fst g)) (snd g))
        (group_by (fun r => key (fst r)) (joined la))
    = map (fun a => agg a (map (pair a) (m a)))
          (filter (fun a => (0 <? List.length (m a))%nat) la).
  Proof.
    intros Hnd. unfold group_by. rewrite map_map. simpl.
    rewrite <- (distinct_on_joined la Hnd), map_map.
    apply map_ext_in. intros [a b] Hin. simpl.
    apply distinct_on_incl in Hin.
    assert (Ha : In a la).
    { apply in_flat_map in Hin. destruct Hin as [a' [Ha Hin]].
      apply in_map_iff in Hin. destruct Hin as [b' [Heq _]].
      now injection Heq as -> _. }
    now rewrite (group_of_joined la a Hnd Ha).
  Qed.
End JoinGroup.

Lemma filter_inner_join_snd {A B : Type} (on : A -> B -> bool) (w : B -> bool)
  (la : list A) (lb : list B) :
  filter (fun r => w (snd r)) (inner_join on la lb)
  = flat_map (fun a => map (pair a) (filter (fun b => on a b && w b) lb)) la.
Proof.
  unfold inner_join. induction la as [|a la IH]; simpl; [reflexivity|].
  rewrite filter_app, IH. f_equal.
  clear IH. induction lb as [|b lb IHb]; simpl; [reflexivity|].
  destruct (on a b); simpl; [|exact IHb].
  destruct (w b); simpl; now rewrite IHb.
Qed.

(** ** The monthly rollup *)

(** The loop of the rollup appends one row per row of the aggregate query, in
    its order, and touches no other table. *)
Lemma rollup_loop_new (e : date) (rows : list (Z * Q)) (db : DB) :
  exists new,
    fold_left (get_total_commission_body e) rows db
    = set_month_commissions db (month_commissions db ++ new)
    /\ map monthly_fields new = map (fun r => (fst r, e, snd r)) rows.
Proof.
  revert db. induction rows as [|r rows IH]; intros db; cbn [fold_left].
  - exists []. rewrite app_nil_r. split; [destruct db|]; reflexivity.
  - rewrite get_total_commission_body_appends.
    match goal with
    | [ |- context [fold_left _ rows ?st] ] => destruct (IH st) as [new [Hrun Hnew]]
    end.
    eexists (_ :: new). split.
    + rewrite Hrun. cbn. rewrite <- app_assoc. reflexivity.
    + cbn [map]. rewrite Hnew. reflexivity.
Qed.

Lemma rollup_loop_frame (e : date) (rows : list (Z * Q)) (db : DB) :
  exists new,
    fold_left (get_total_commission_body e) rows db
    = set_month_commissions db (month_commissions db ++ new).
Proof.
  destruct (rollup_loop_new e rows db) as [new [H _]]. now exists new.
Qed.

(** With agent ids unique, the aggregate query has one row per agent with a
    commission dated after [s], up to and including [e], carrying the sum of
    those commissions. *)
Lemma agents_commission_query_rows (s e : date) (db : DB) :
  primary_key Agent.id (agents db) ->
  Permutation
    (agents_commission_query s e db)
    (map (fun a => (Agent.id a, total_commission s e db a))
         (filter (fun a => (0 <? List.length (commissions_in_window s e db a))%nat)
                 (agents db))).
Proof.
  intros Hpk. unfold agents_commission_query.
  rewrite order_by_desc_perm.
  rewrite (filter_ext _ (fun r : Agent.t * Commission.t =>
                           after_upto s e (Commission.date_of_commission (snd r))))
    by (intros r; apply in_window_after_upto).
  pose proof (filter_inner_join_snd
                (fun a c => Commission.agent_id c =? Agent.id a)
                (fun c => after_upto s e (Commission.date_of_commission c))
                (agents db) (commissions db)) as Hj.
  simpl in Hj. rewrite Hj. clear Hj.
  pose proof (group_by_joined Agent.id (commissions_in_window s e db)
                (fun a g => (Agent.id a,
                             sql_sum (map (fun r : Agent.t * Commission.t =>
                                             Commission.amount (snd r)) g)))
                (agents db) Hpk) as Hg.
  unfold commissions_in_window in Hg at 1. simpl in Hg. rewrite Hg. clear Hg.
  unfold total_commission.
  erewrite map_ext; [reflexivity|].
  intros a. simpl. now rewrite map_map.
Qed.

Lemma primary_key_inj {R : Type} (id : R -> Z) (tbl : list R) (x y : R) :
  primary_key id tbl -> In x tbl -> In y tbl -> id x = id y -> x = y.
Proof.
  unfold primary_key. induction tbl as [|z tbl IH]; simpl; intros Hnd Hx Hy Heq;
    [tauto|].
  inversion Hnd as [|? ? Hnot Hnd']; subst.
  destruct Hx as [->|Hx], Hy as [->|Hy]; try reflexivity.
  - exfalso. apply Hnot. rewrite Heq. now apply in_map.
  - exfalso. apply Hnot. rewrite <- Heq. now apply in_map.
  - now apply IH.
Qed.

Lemma filter_by_primary_key {R : Type} (id : R -> Z) (tbl : list R) (x : R) :
  primary_key id tbl -> In x tbl ->
  filter (fun y => id y =? id x) tbl = [x].
Proof.
  unfold primary_key. induction tbl as [|z tbl IH]; simpl; intros Hnd Hx; [tauto|].
  inversion Hnd as [|? ? Hnot Hnd']; subst.
  destruct Hx as [->|Hx].
  - rewrite Z.eqb_refl. f_equal. apply filter_nil_of_all_false.
    intros y Hy. apply Z.eqb_neq. intros Heq. apply Hnot.
    rewrite <- Heq. now apply in_map.
  - replace (id z =? id x) with false; [now apply IH|].
    symmetry. apply Z.eqb_neq. intros Heq. apply Hnot.
    rewrite Heq. now apply in_map.
Qed.

(** C1: the rollup does not sum over the calendar month.  In [db_first_days]
    agent A earned 11,250 on 2023-04-01 and 8,000 on 2023-04-30, 19,250 in
    April 2023; agent C earned 7,000 on 2023-04-01; agent B earned nothing in
    April, its 5,000 being dated 2023-05-01.  The rollup of April stores
    8,000 for A, not 19,250, no row for C, and a row of 5,000 for B: the
    bounds of the query are [datetime] values compared with a [Date] column,
    which leaves the first day of the month out and lets the first day of the
    following month in. *)
Theorem rollup_misses_first_day_of_month :
  (sql_sum (map Commission.amount
                (commissions_in_month 2023 4 db_first_days agent_A)) == 19250)%Q
  /\ commissions_in_month 2023 4 db_first_days agent_B = []
  /\ commissions_in_month 2023 4 db_first_days agent_C
     = [Commission.mk 4 3 4 7000 (apr 1)]
  /\ get_total_commission 2023 4 db_first_days
     = Ok (set_month_commissions db_first_days
             [MonthlyCommission.mk 1 1 (mkdate 2023 5 1) (0 + 8000);
              MonthlyCommission.mk 2 2 (mkdate 2023 5 1) (0 + 5000)])
  /\ ~ (0 + 8000 == 19250)%Q.
Proof.
  split; [reflexivity|]. split; [reflexivity|]. split; [reflexivity|].
  split; [reflexivity|].
  intro H. vm_compute in H. discriminate H.
Qed.

(** ** Top agents by sales *)

Lemma StronglySorted_weaken {A : Type} (P Q : A -> A -> Prop) (l : list A) :
  (forall x y, P x y -> Q x y) -> StronglySorted P l -> StronglySorted Q l.
Proof.
  intros Himp. induction 1 as [|x l _ IH Hall]; constructor; [exact IH|].
  eapply Forall_impl; [|exact Hall]. intros y. apply Himp.
Qed.

Lemma top_agents_rows (s e : date) (db : DB) :
  primary_key Agent.id (agents db) ->
  map (fun g : (Agent.t * Sale.t) * list (Agent.t * Sale.t) =>
         mk_agent_sales (Agent.id (fst (fst g))) (Agent.name (fst (fst g)))
                        (Agent.email (fst (fst g))) (Agent.phone (fst (fst g)))
                        (Z.of_nat (List.length (snd g))))
      (group_by (fun r => Agent.id (fst r))
         (filter (fun r => in_window s e (Sale.date_of_sale (snd r)))
            (inner_join (fun a x => Sale.selling_agent_id x =? Agent.id a)
                        (agents db) (sales db))))
  = map (agent_sales_row s e db) (filter (has_sale s e db) (agents db)).
Proof.
  intros Hpk.
  rewrite (filter_ext _ (fun r : Agent.t * Sale.t =>
                           after_upto s e (Sale.date_of_sale (snd r))))
    by (intros r; apply in_window_after_upto).
  pose proof (filter_inner_join_snd
                (fun a x => Sale.selling_agent_id x =? Agent.id a)
                (fun x => after_upto s e (Sale.date_of_sale x))
                (agents db) (sales db)) as Hj.
  simpl in Hj. rewrite Hj. clear Hj.
  pose proof (group_by_joined Agent.id (sales_in_window s e db)
                (fun a (g : list (Agent.t * Sale.t)) =>
                   mk_agent_sales (Agent.id a) (Agent.name a) (Agent.email a)
                                  (Agent.phone a) (Z.of_nat (List.length g)))
                (agents db) Hpk) as Hg.
  unfold sales_in_window in Hg at 1. simpl in Hg. rewrite Hg. clear Hg.
  apply map_ext. intros a. unfold agent_sales_row. now rewrite length_map.
Qed.

(** C9: the report does not count the sales of the calendar month.  In
    [db_top_first_days] agent A closed three sales on 2023-04-01, agent B two
    on 2023-04-15 and agent C one on 2023-05-01: in April 2023 A has three
    sales, B two and C none.  For (2023, 4) the report returns B with two
    sales and C with one, and no row for A: the bounds of the query are
    [datetime] values compared with a [Date] column, which leaves the first
    day of the month out and lets the first day of the following month in. *)
Theorem top_agents_miss_first_day_of_month :
  List.length (sales_in_month 2023 4 db_top_first_days agent_A) = 3%nat
  /\ List.length (sales_in_month 2023 4 db_top_first_days agent_B) = 2%nat
  /\ sales_in_month 2023 4 db_top_first_days agent_C = []
  /\ top_agents_by_sales_monthly 2023 4 db_top_first_days
     = Ok [mk_agent_sales 2 "B" "b@example.org" "555-0102" 2;
           mk_agent_sales 3 "C" "c@example.org" "555-0103" 1].
Proof.
  repeat split.
Qed.

(** ** Sale recording *)

Lemma max_id_bounds (x : Z) (rest : list Z) :
  x <= max_id x rest /\ forall i, In i rest -> i <= max_id x rest.
Proof.
  unfold max_id. revert x. induction rest as [|y rest IH]; intros x; simpl.
  - split; [lia | tauto].
  - destruct (IH (Z.max x y)) as [H1 H2]. split; [lia|].
    intros i [<-|Hi]; [lia | now apply H2].
Qed.

(** The id of a new row is above every id in the table. *)
Lemma next_id_fresh (ids : list Z) (i : Z) : In i ids -> i < next_id ids.
Proof.
  destruct ids as [|x rest]; simpl; [tauto|].
  destruct (max_id_bounds x rest) as [H1 H2].
  intros [<-|Hi]; [lia|]. specialize (H2 i Hi). lia.
Qed.

(** Right after an insert the largest id is the new row's. *)
Lemma first_id_desc_after_insert (ids : list Z) :
  first_id_desc (ids ++ [next_id ids]) = Ok (next_id ids).
Proof.
  destruct ids as [|x rest]; simpl; [reflexivity|].
  unfold max_id. rewrite fold_left_app. simpl. f_equal. lia.
Qed.


(** What one turn of the loop of [insert_sales] does. *)
Lemma insert_sales_body_ok (db : DB) (listing : Listing.t) (buyer : Buyer.t)
  (d : SaleDraw) :
  let sale :=
    Sale.mk (next_id (map Sale.id (sales db))) (Buyer.id buyer)
            (Listing.listing_price listing) (fake_date_of_sale d)
            (Listing.listing_agent_id listing) (Listing.office_id listing)
            (Listing.id listing) in
  let commision :=
    Commission.mk (next_id (map Commission.id (commissions db)))
                  (Listing.listing_agent_id listing) (Sale.id sale)
                  (Sale.sale_price sale * get_commission_rate (Sale.sale_price sale))%Q
                  (Sale.date_of_sale sale) in
  insert_sales_body db (listing, (buyer, d))
  = Ok (mkDB (offices db) (agents db) (agent_office db) (sellers db)
             (mark_sold (Listing.id listing) (listings db)) (buyers db)
             (sales db ++ [sale]) (commissions db ++ [commision])
             (month_commissions db)).
Proof.
  intros sale commision. unfold insert_sales_body. simpl.
  rewrite map_app. simpl. rewrite first_id_desc_after_insert. reflexivity.
Qed.


(** The loop of [insert_sales] over listings taken from [L]: it never raises
    and appends one sale and one commission per listing. *)
Lemma insert_sales_loop (L : list Listing.t)
  (xs : list (Listing.t * (Buyer.t * SaleDraw))) :
  (forall x, In x xs -> In (fst x) L /\ Listing.is_sold (fst x) = 0) ->
  forall db,
  exists db' new_sales new_commissions,
    for_each insert_sales_body xs db = Ok db'
    /\ sales db' = sales db ++ new_sales
    /\ commissions db' = commissions db ++ new_commissions
    /\ Forall2 commission_of_sale new_sales new_commissions
    /\ Forall (fun s => forall i, In i (map Sale.id (sales db)) -> i < Sale.id s)
              new_sales
    /\ NoDup (map Sale.id new_sales)
    /\ Forall (fun s => exists l, In l L
                                  /\ Listing.is_sold l = 0
                                  /\ Sale.listing_id s = Listing.id l
                                  /\ Sale.sale_price s = Listing.listing_price l
                                  /\ Sale.selling_agent_id s = Listing.listing_agent_id l)
              new_sales.
Proof.
  induction xs as [|[listing [buyer d]] xs IH]; intros Hxs db.
  - exists db, [], []. simpl. rewrite !app_nil_r.
    repeat split; constructor.
  - cbn [for_each]. rewrite insert_sales_body_ok. cbn [bind].
    match goal with
    | [ |- context [for_each _ xs ?st] ] => set (db1 := st)
    end.
    destruct (IH (fun x Hx => Hxs x (or_intror Hx)) db1)
      as [db' [ns [nc [Hrun [Hs [Hc [Hpair [Hfresh [Hnd Hfrom]]]]]]]]].
    set (sale := Sale.mk (next_id (map Sale.id (sales db))) (Buyer.id buyer)
                         (Listing.listing_price listing) (fake_date_of_sale d)
                         (Listing.listing_agent_id listing)
                         (Listing.office_id listing) (Listing.id listing)) in *.
    exists db', (sale :: ns).
    eexists (_ :: nc).
    split; [exact Hrun|].
    split; [rewrite Hs; unfold db1; simpl; now rewrite <- app_assoc|].
    split; [rewrite Hc; unfold db1; simpl; rewrite <- app_assoc; reflexivity|].
    assert (Hnew : forall s, In s ns -> Sale.id sale < Sale.id s).
    { intros s Hin. rewrite Forall_forall in Hfresh. apply (Hfresh s Hin).
      unfold db1. simpl. rewrite map_app. apply in_or_app. right. now left. }
    split; [|split; [|split]].
    + constructor; [|exact Hpair]. unfold commission_of_sale. simpl. auto.
    + constructor.
      * intros i Hi. simpl. now apply next_id_fresh.
      * eapply Forall_impl; [|exact Hfresh]. intros s H i Hi. apply H.
        unfold db1. simpl. rewrite map_app. apply in_or_app. now left.
    + simpl. constructor; [|exact Hnd].
      intro Hin. apply in_map_iff in Hin. destruct Hin as [s [Heq Hin]].
      specialize (Hnew s Hin). simpl in *. lia.
    + constructor; [|exact Hfrom].
      destruct (Hxs _ (or_introl eq_refl)) as [HinL Hunsold]. simpl in *.
      exists listing. simpl. auto.
Qed.

Lemma In_limit {A : Type} (n : nat) (l : list A) (x : A) :
  In x (limit n l) -> In x l.
Proof.
  unfold limit. intros H. rewrite <- (firstn_skipn n l).
  apply in_or_app. now left.
Qed.

(** The listings [insert_sales] works on are unsold rows of the table. *)
Lemma insert_sales_selection (n : nat) (tbl : list Listing.t)
  (ys : list (Buyer.t * SaleDraw)) (x : Listing.t * (Buyer.t * SaleDraw)) :
  In x (combine (limit n (filter (fun l => Listing.is_sold l =? 0) tbl)) ys) ->
  In (fst x) tbl /\ Listing.is_sold (fst x) = 0.
Proof.
  destruct x as [l y]. intros H. apply in_combine_l in H.
  apply In_limit, filter_In in H. simpl. destruct H as [H1 H2].
  apply Z.eqb_eq in H2. now split.
Qed.

(** A table filled by a loop of inserts: the rows are appended in order. *)
Lemma fold_left_append {R D : Type} (mk : list R -> D -> R) (ds : list D) :
  forall tbl,
  exists new,
    fold_left (fun t d => t ++ [mk t d]) ds tbl = tbl ++ new
    /\ Forall2 (fun d r => exists t, r = mk t d) ds new.
Proof.
  induction ds as [|d ds IH]; intros tbl; simpl.
  - exists []. split; [now rewrite app_nil_r | constructor].
  - destruct (IH (tbl ++ [mk tbl d])) as [new [Hrun Hnew]].
    exists (mk tbl d :: new). split.
    + rewrite Hrun, <- app_assoc. reflexivity.
    + constructor; [now exists tbl | exact Hnew].
Qed.

Lemma skipn_app_length {A : Type} (l1 l2 : list A) :
  skipn (List.length l1) (l1 ++ l2) = l2.
Proof.
  rewrite skipn_app, skipn_all, Nat.sub_diag. reflexivity.
Qed.

Lemma new_buyers (draws : list SaleDraw) (tbl : list Buyer.t) :
  exists new,
    fold_left add_buyer draws tbl = tbl ++ new
    /\ Forall2 (fun d b => Buyer.name b = buyer_name d
                           /\ Buyer.phone b = buyer_phone d) draws new.
Proof.
  destruct (fold_left_append
              (fun t d => Buyer.mk (next_id (map Buyer.id t))
                                   (buyer_name d) (buyer_phone d)) draws tbl)
    as [new [Hrun Hnew]].
  exists new. split; [exact Hrun|].
  eapply Forall2_impl; [|exact Hnew]. intros d r [t ->]. now split.
Qed.

Lemma set_is_sold_twice (l : Listing.t) :
  Listing.set_is_sold (Listing.set_is_sold l 1) 1 = Listing.set_is_sold l 1.
Proof. reflexivity. Qed.

Lemma mark_sold_flag_sold (k : Z) (ids : list Z) (tbl : list Listing.t) :
  flag_sold ids (mark_sold k tbl) = flag_sold (k :: ids) tbl.
Proof.
  unfold flag_sold, mark_sold. rewrite map_map. apply map_ext. intros l.
  cbn [existsb]. destruct (Listing.id l =? k) eqn:E; cbn [Listing.id Listing.set_is_sold].
  - cbn [orb]. now destruct (existsb _ ids).
  - reflexivity.
Qed.

Lemma flag_sold_nil (tbl : list Listing.t) : flag_sold [] tbl = tbl.
Proof.
  unfold flag_sold. cbn [existsb]. now rewrite map_id.
Qed.

(** The loop of [insert_sales], table by table. *)
Lemma insert_sales_loop_result (xs : list (Listing.t * (Buyer.t * SaleDraw))) :
  forall db,
  exists new_sales new_commissions,
    for_each insert_sales_body xs db
    = Ok (mkDB (offices db) (agents db) (agent_office db) (sellers db)
               (flag_sold (map (fun x => Listing.id (fst x)) xs) (listings db))
               (buyers db) (sales db ++ new_sales)
               (commissions db ++ new_commissions) (month_commissions db))
    /\ Forall2 sale_from_listing xs new_sales
    /\ Forall2 commission_of_sale new_sales new_commissions.
Proof.
  induction xs as [|[listing [buyer d]] xs IH]; intros db.
  - exists [], []. cbn [for_each map]. rewrite flag_sold_nil, !app_nil_r.
    split; [destruct db; reflexivity|]. split; constructor.
  - cbn [for_each]. rewrite insert_sales_body_ok. cbn [bind].
    match goal with
    | [ |- context [for_each _ xs ?st] ] => destruct (IH st) as [ns [nc [Hrun [Hs Hc]]]]
    end.
    rewrite Hrun.
    cbn [offices agents agent_office sellers listings buyers sales commissions
         month_commissions map fst].
    rewrite mark_sold_flag_sold, <- !app_assoc. cbn [app].
    eexists (_ :: ns), (_ :: nc). split; [reflexivity|]. split.
    + constructor; [|exact Hs]. unfold sale_from_listing. cbn. auto 10.
    + constructor; [|exact Hc]. unfold commission_of_sale. cbn. auto.
Qed.

Lemma map_fst_combine {A B : Type} (l : list A) (r : list B) :
  (List.length l <= List.length r)%nat -> map fst (combine l r) = l.
Proof.
  revert r. induction l as [|x l IH]; intros r H; [reflexivity|].
  destruct r as [|y r]; simpl in *; [lia|]. f_equal. apply IH. lia.
Qed.

Lemma one_commission_per_sale (ns : list Sale.t) (nc : list Commission.t) :
  Forall2 commission_of_sale ns nc ->
  NoDup (map Sale.id ns) ->
  forall s, In s ns ->
  exists c, filter (fun c => Commission.sale_id c =? Sale.id s) nc = [c]
            /\ commission_of_sale s c.
Proof.
  induction 1 as [|s0 c0 ns nc Hsc Hrest IH]; intros Hnd s Hin; [destruct Hin|].
  inversion Hnd as [|? ? Hnot Hnd']; subst. simpl.
  assert (Hids : forall c, In c nc -> In (Commission.sale_id c) (map Sale.id ns)).
  { clear -Hrest. induction Hrest as [|s1 c1 ns nc H1 _ IH1]; intros c Hc;
      [destruct Hc|].
    destruct Hc as [<-|Hc]; simpl.
    - left. symmetry. exact (proj1 H1).
    - right. now apply IH1. }
  destruct Hin as [->|Hin].
  - rewrite (proj1 Hsc), Z.eqb_refl. exists c0. split; [|exact Hsc].
    f_equal. apply filter_nil_of_all_false. intros c Hc.
    apply Z.eqb_neq. intros Heq. apply Hnot. rewrite <- Heq. now apply Hids.
  - replace (Commission.sale_id c0 =? Sale.id s) with false; [now apply IH|].
    symmetry. apply Z.eqb_neq. rewrite (proj1 Hsc). intros Heq. apply Hnot.
    rewrite Heq. now apply in_map.
Qed.

(** C5: [insert_sales] always returns.  It sells the first [num_sales]
    unsold listings in table order, or all of them if there are fewer: it
    appends one Sale per such listing, with the listing's id and its
    listing_price as sale_price, and as many Commission rows, pairwise: the
    i-th new commission belongs to the i-th new sale, with amount
    sale_price * rate(sale_price) and date_of_commission = date_of_sale.  New
    sale ids are fresh and distinct, so each created sale has exactly one
    created commission. *)
Theorem insert_sales_one_commission_per_sale (draws : list SaleDraw) (db : DB) :
  let sold := limit (List.length draws) (unsold (listings db)) in
  exists db' new_sales new_commissions,
    insert_sales draws db = Ok db'
    /\ sales db' = sales db ++ new_sales
    /\ commissions db' = commissions db ++ new_commissions
    /\ Forall2 commission_of_sale new_sales new_commissions
    /\ Forall (fun s => ~ In (Sale.id s) (map Sale.id (sales db))) new_sales
    /\ Forall (fun s =>
                 exists c,
                   filter (fun c => Commission.sale_id c =? Sale.id s)
                          new_commissions = [c]
                   /\ commission_of_sale s c) new_sales
    /\ Forall (sale_of_listing db) new_sales
    /\ List.length new_sales
       = Nat.min (List.length draws) (List.length (unsold (listings db)))
    /\ List.length new_commissions = List.length new_sales
    /\ map Sale.listing_id new_sales = map Listing.id sold
    /\ map Sale.sale_price new_sales = map Listing.listing_price sold.
Proof.
  intros sold.
  unfold insert_sales. cbn [commit_or_rollback buyers set_buyers listings].
  destruct (new_buyers draws (buyers db)) as [nb [Hnb Hnames]].
  rewrite Hnb, skipn_app_length. fold (unsold (listings db)). fold sold.
  set (db1 := set_buyers db (buyers db ++ nb)).
  set (xs := combine sold (combine nb draws)).
  destruct (insert_sales_loop (listings db) xs
              (fun x Hx => insert_sales_selection _ _ _ x Hx) db1)
    as [db' [ns [nc [Hrun [Hs [Hc [Hpair [Hfresh [Hnd Hfrom]]]]]]]]].
  destruct (insert_sales_loop_result xs db1) as [ns' [nc' [Hrun' [Hs' _]]]].
  assert (Hsame : ns' = ns).
  { rewrite Hrun in Hrun'. injection Hrun' as Hdb'.
    rewrite Hdb' in Hs. cbn [sales] in Hs. now apply app_inv_head in Hs. }
  subst ns'.
  pose proof (Forall2_length Hnames) as Hlb.
  assert (Hlen : (List.length sold <= List.length (combine nb draws))%nat).
  { rewrite length_combine. unfold sold, limit. rewrite length_firstn. lia. }
  assert (Hfst : map fst xs = sold) by (apply map_fst_combine; exact Hlen).
  rewrite Hrun. exists db', ns, nc. cbn [commit_or_rollback].
  split; [reflexivity|]. split; [exact Hs|]. split; [exact Hc|].
  split; [exact Hpair|]. split; [|split; [|split; [exact Hfrom|]]].
  - eapply Forall_impl; [|exact Hfresh]. intros s H Hin.
    specialize (H _ Hin). lia.
  - apply Forall_forall. intros s Hin.
    exact (one_commission_per_sale ns nc Hpair Hnd s Hin).
  - split; [|split; [|split]].
    + rewrite <- (Forall2_length Hs'). unfold xs. rewrite length_combine.
      apply Nat.min_l in Hlen. rewrite Hlen.
      unfold sold, limit. now rewrite length_firstn.
    + symmetry. exact (Forall2_length Hpair).
    + rewrite <- Hfst, map_map. clear -Hs'.
      induction Hs' as [|x s xs ns Hx _ IH]; [reflexivity|].
      cbn [map]. f_equal; [exact (proj1 Hx) | exact IH].
    + rewrite <- Hfst, map_map. clear -Hs'.
      induction Hs' as [|x s xs ns Hx _ IH]; [reflexivity|].
      cbn [map]. f_equal; [exact (proj1 (proj2 (proj2 Hx))) | exact IH].
Qed.

Lemma insert_sales_one_commission_per_sale_witness :
  exists db' s c,
    insert_sales [draw_apr10] db_listed = Ok db'
    /\ sales db' = [s]
    /\ commissions db' = [c]
    /\ Sale.listing_id s = 1
    /\ (Sale.sale_price s == 150000)%Q
    /\ Commission.sale_id c = Sale.id s
    /\ (Commission.amount c == 11250)%Q
    /\ Commission.date_of_commission c = Sale.date_of_sale s.
Proof.
  destruct (insert_sales_one_commission_per_sale [draw_apr10] db_listed)
    as [db' [ns [nc [Hrun [Hs [Hc [Hpair [_ [_ [_ [Hn [Hm [Hid Hprice]]]]]]]]]]]]].
  destruct ns as [|s [|s' ns]]; try discriminate Hn.
  destruct nc as [|c [|c' nc]]; try discriminate Hm.
  injection Hid as Hid. injection Hprice as Hprice.
  inversion Hpair as [|? ? ? ? [Hsale [_ [Hamount Hdate]]] _]; subst.
  exists db', s, c.
  split; [exact Hrun|]. split; [exact Hs|]. split; [exact Hc|].
  split; [exact Hid|]. split; [rewrite Hprice; reflexivity|].
  split; [exact Hsale|]. split; [|exact Hdate].
  rewrite Hamount, Hprice. reflexivity.
Defined.

(** The scenario of the specification: a listing priced 150,000 sold on
    2023-04-10 earns its agent 150,000 * 0.075 = 11,250. *)
Example insert_sales_scenario :
  insert_sales [draw_apr10] db_listed = Ok db_sold
  /\ (150000 * 0.075 == 11250)%Q
  /\ average_days_on_market_monthly 2023 4 db_sold = Ok (Some (160 # 4))
  /\ (160 # 4 == 40)%Q.
Proof. repeat split. Qed.





(** ** Primary keys in reachable states *)

(** The statements above about agents and listings assume unique ids; the
    program's own inserts keep them unique. *)

Lemma primary_key_insert {R : Type} (id : R -> Z) (tbl : list R) (x : R) :
  primary_key id tbl -> id x = next_id (map id tbl) -> primary_key id (tbl ++ [x]).
Proof.
  unfold primary_key. intros Hnd Hid. rewrite map_app. simpl.
  apply (Permutation_NoDup (l := id x :: map id tbl)).
  - apply Permutation_cons_append.
  - constructor; [|exact Hnd]. intro Hin. apply next_id_fresh in Hin. lia.
Qed.

Lemma mark_sold_ids (k : Z) (tbl : list Listing.t) :
  map Listing.id (mark_sold k tbl) = map Listing.id tbl.
Proof.
  unfold mark_sold. rewrite map_map. apply map_ext.
  intros l. now destruct (Listing.id l =? k).
Qed.

Lemma exec_keys_unique (o : op) (db : DB) :
  keys_unique db -> keys_unique (exec o db).
Proof.
  intros Hk.
  destruct o as [a|draws|picks|draws|draws|y m|y m|y m|y m|y m|y m];
    simpl; try exact Hk.
  - unfold insert_agents.
    apply (commit_or_rollback_invariant keys_unique); [exact Hk|].
    intros db' Hrun.
    apply (for_each_invariant keys_unique insert_agents_body)
      with (l := draws) (s := db); [|exact Hk|exact Hrun].
    intros s x s' [Ha Hl] Hb. unfold insert_agents_body in Hb.
    destruct (first_id_desc _); simpl in Hb; [|discriminate].
    destruct (choice _ _); simpl in Hb; [|discriminate].
    injection Hb as <-. split; simpl; [|exact Hl].
    now apply primary_key_insert.
  - unfold assign_agents_to_offices.
    apply (commit_or_rollback_invariant keys_unique); [exact Hk|].
    intros db' Hrun.
    apply (for_each_invariant keys_unique (assign_body (offices db) (agents db)))
      with (l := picks) (s := db); [|exact Hk|exact Hrun].
    intros s x s' Hs Hb. unfold assign_body in Hb.
    destruct (choice _ (agents db)); simpl in Hb; [|discriminate].
    destruct (choice _ (offices db)); simpl in Hb; [|discriminate].
    injection Hb as <-. exact Hs.
  - unfold insert_listings. simpl.
    apply (commit_or_rollback_invariant keys_unique); [exact Hk|].
    intros db' Hrun.
    eapply (for_each_invariant keys_unique (insert_listings_body (agents db)));
      [| |exact Hrun]; [|exact Hk].
    intros s [seller d] s' [Ha Hl] Hb. unfold insert_listings_body in Hb.
    destruct (choice _ (agents db)); simpl in Hb; [|discriminate].
    destruct (first_office_of _ _); simpl in Hb; [|discriminate].
    injection Hb as <-. split; simpl; [exact Ha|].
    now apply primary_key_insert.
  - unfold insert_sales. simpl.
    apply (commit_or_rollback_invariant keys_unique); [exact Hk|].
    intros db' Hrun.
    eapply (for_each_invariant keys_unique insert_sales_body);
      [| |exact Hrun]; [|exact Hk].
    intros s [listing [buyer d]] s' [Ha Hl] Hb.
    rewrite insert_sales_body_ok in Hb. injection Hb as <-.
    split; simpl; [exact Ha|].
    unfold primary_key. now rewrite mark_sold_ids.
  - unfold get_total_commission.
    destruct (month_window y m) as [[s e]|]; simpl; [|exact Hk].
    destruct (rollup_loop_frame e (agents_commission_query s e db) db) as [new ->].
    exact Hk.
Qed.

Lemma reachable_keys_unique (ops : list op) : keys_unique (run ops empty_db).
Proof.
  unfold run.
  assert (H : forall db, keys_unique db ->
                         keys_unique (fold_left (fun s o => exec o s) ops db)).
  { induction ops as [|o ops IH]; intros db Hk; simpl; [exact Hk|].
    apply IH. now apply exec_keys_unique. }
  apply H. split; constructor.
Qed.

(** * Further properties of the code *)

(** ** Commission amounts *)

(** X1: the commission of a sale at a non-negative price lies between 4% and
    10% of the price. *)
Theorem commission_amount_bounds (p : Q) :
  (0 <= p)%Q ->
  (0.04 * p <= commission_amount p)%Q /\ (commission_amount p <= 0.10 * p)%Q.
Proof.
  intros Hp. unfold commission_amount.
  destruct (commission_rate_tiers p)
    as [[_ H]|[[_ [_ H]]|[[_ [_ H]]|[[_ [_ H]]|[_ H]]]]]; rewrite H; split; lra.
Qed.

Lemma commission_amount_bounds_witness :
  (0.04 * 150000 <= commission_amount 150000)%Q
  /\ (commission_amount 150000 <= 0.10 * 150000)%Q.
Proof.
  apply (commission_amount_bounds 150000). discriminate.
Defined.

(** X2: the rate applies to the whole price, so the commission drops at every
    tier bound: a price in the upper part of a tier earns more than the bound
    above it. *)
Theorem commission_amount_drops_at_tier_bounds (p : Q) :
  ((75000 < p)%Q -> (p < 100000)%Q ->
   (commission_amount 100000 < commission_amount p)%Q)
  /\ ((160000 < p)%Q -> (p < 200000)%Q ->
      (commission_amount 200000 < commission_amount p)%Q)
  /\ ((416667 <= p)%Q -> (p < 500000)%Q ->
      (commission_amount 500000 < commission_amount p)%Q)
  /\ ((800000 < p)%Q -> (p < 1000000)%Q ->
      (commission_amount 1000000 < commission_amount p)%Q).
Proof.
  unfold commission_amount.
  change (get_commission_rate 100000) with 0.075%Q.
  change (get_commission_rate 200000) with 0.06%Q.
  change (get_commission_rate 500000) with 0.05%Q.
  change (get_commission_rate 1000000) with 0.04%Q.
  repeat split; intros H1 H2;
    destruct (commission_rate_tiers p)
      as [[U H]|[[L [U H]]|[[L [U H]]|[[L [U H]]|[L H]]]]]; rewrite H; lra.
Qed.

Lemma commission_amount_drops_at_tier_bounds_witness :
  (commission_amount 100000 < commission_amount 99999.99)%Q
  /\ (commission_amount 200000 < commission_amount 199999.99)%Q
  /\ (commission_amount 500000 < commission_amount 499999.99)%Q
  /\ (commission_amount 1000000 < commission_amount 999999.99)%Q.
Proof.
  split; [|split; [|split]].
  - apply (proj1 (commission_amount_drops_at_tier_bounds 99999.99)); reflexivity.
  - apply (proj1 (proj2 (commission_amount_drops_at_tier_bounds 199999.99)));
      reflexivity.
  - apply (proj1 (proj2 (proj2 (commission_amount_drops_at_tier_bounds 499999.99)))).
    + discriminate.
    + reflexivity.
  - apply (proj2 (proj2 (proj2 (commission_amount_drops_at_tier_bounds 999999.99))));
      reflexivity.
Defined.

(** ** Which months the reports accept *)

Lemma datetime_error_small (y m : Z) :
  -2147483648 <= y <= 2147483647 -> -2147483648 <= m <= 2147483647 ->
  datetime_error y m = ValueError.
Proof.
  intros Hy Hm. unfold datetime_error. now rewrite !fits_c_int_small.
Qed.

Lemma datetime_raises (y m : Z) (e : exn) :
  datetime y m 1 = Raise e -> e = datetime_error y m.
Proof.
  unfold datetime, datetime_error. change (fits_c_int 1) with true.
  rewrite andb_true_r.
  destruct (fits_c_int y && fits_c_int m); cbn [negb].
  - destruct (_ && _); [discriminate|]. intro H. now injection H as <-.
  - intro H. now injection H as <-.
Qed.

Lemma month_window_invalid (y m : Z) :
  ~ valid_month y m -> month_window y m = Raise (datetime_error y m).
Proof.
  intros Hnot. destruct (month_window y m) as [[s e]|err] eqn:E.
  - exfalso. apply Hnot. exact (proj1 (month_window_inv _ _ _ _ E)).
  - f_equal. unfold month_window in E.
    destruct (datetime y m 1) as [s|e1] eqn:E1; simpl in E.
    + apply datetime_inv in E1. destruct E1 as [_ [Hy Hm]].
      rewrite (datetime_error_small y m) by lia.
      destruct (m =? 12).
      * destruct (datetime (y + 1) 1 1) as [e0|e2] eqn:E2; simpl in E;
          [discriminate|].
        injection E as <-. rewrite (datetime_raises _ _ _ E2).
        apply datetime_error_small; lia.
      * destruct (datetime y (m + 1) 1) as [e0|e2] eqn:E2; simpl in E;
          [discriminate|].
        injection E as <-. rewrite (datetime_raises _ _ _ E2).
        apply datetime_error_small; lia.
    + injection E as <-. exact (datetime_raises _ _ _ E1).
Qed.

(** X3: the rollup and the four report queries accept exactly the valid
    months (year 1 to 9999, month 1 to 12, December 9999 excluded, whose
    window end is past MAXYEAR); on any other (year, month) each of them
    raises the error of [datetime], the rollup before it writes anything:
    [OverflowError] when the year or the month does not fit a C int,
    [ValueError] otherwise. *)
Theorem reports_accept_valid_months (year month : Z) (db : DB) :
  (valid_month year month ->
   (exists db', get_total_commission year month db = Ok db')
   /\ (exists rows, top_offices_by_sales_monthly year month db = Ok rows)
   /\ (exists rows, top_agents_by_sales_monthly year month db = Ok rows)
   /\ (exists avg, average_days_on_market_monthly year month db = Ok avg)
   /\ (exists avg, average_selling_price_monthly year month db = Ok avg))
  /\ (~ valid_month year month ->
      get_total_commission year month db = Raise (datetime_error year month)
      /\ exec (GetTotalCommission year month) db = db
      /\ top_offices_by_sales_monthly year month db
         = Raise (datetime_error year month)
      /\ top_agents_by_sales_monthly year month db
         = Raise (datetime_error year month)
      /\ average_days_on_market_monthly year month db
         = Raise (datetime_error year month)
      /\ average_selling_price_monthly year month db
         = Raise (datetime_error year month)).
Proof.
  split; intros H.
  - unfold get_total_commission, top_offices_by_sales_monthly,
      top_agents_by_sales_monthly, average_days_on_market_monthly,
      average_selling_price_monthly.
    rewrite (month_window_valid _ _ H). cbn [bind].
    repeat split; eexists; reflexivity.
  - unfold exec, get_total_commission, top_offices_by_sales_monthly,
      top_agents_by_sales_monthly, average_days_on_market_monthly,
      average_selling_price_monthly.
    rewrite (month_window_invalid _ _ H). repeat split.
Qed.

Lemma reports_accept_valid_months_witness :
  (exists db', get_total_commission 2023 4 db_april = Ok db')
  /\ get_total_commission 9999 12 db_april = Raise ValueError
  /\ average_selling_price_monthly 2023 13 db_april = Raise ValueError
  /\ top_agents_by_sales_monthly 2147483648 4 db_april = Raise OverflowError.
Proof.
  split; [|split; [|split]].
  - apply (proj1 (reports_accept_valid_months 2023 4 db_april)).
    unfold valid_month. lia.
  - apply (proj2 (reports_accept_valid_months 9999 12 db_april)).
    unfold valid_month. lia.
  - apply (proj2 (reports_accept_valid_months 2023 13 db_april)).
    unfold valid_month. lia.
  - apply (proj2 (reports_accept_valid_months 2147483648 4 db_april)).
    unfold valid_month. lia.
Defined.

(** X4: [print_monthly_commission_table] prints exactly for the months 2 to
    12 of a valid year (December 9999 excluded); for any other (year, month),
    month 1 and month 13 among them, it raises the error of [datetime]:
    [OverflowError] when [year] or [month - 1] does not fit a C int,
    [ValueError] otherwise. *)
Theorem print_monthly_commission_table_domain (year month : Z) (db : DB) :
  (printable_month year month ->
   exists table_data, print_monthly_commission_table year month db = Ok table_data)
  /\ (~ printable_month year month ->
      print_monthly_commission_table year month db
      = Raise (datetime_error year (month - 1))).
Proof.
  unfold printable_month, print_monthly_commission_table. split.
  - intros [Hy [Hm H12]]. rewrite datetime_first_day by lia. cbn [bind].
    destruct (month =? 12) eqn:E.
    + apply Z.eqb_eq in E. rewrite datetime_first_day by lia.
      eexists. reflexivity.
    + apply Z.eqb_neq in E. rewrite datetime_first_day by lia.
      eexists. reflexivity.
  - intros Hnot.
    destruct (datetime year (month - 1) 1) as [s|e1] eqn:E1; cbn [bind].
    + apply datetime_inv in E1. destruct E1 as [_ [Hy Hm]].
      rewrite (datetime_error_small year (month - 1)) by lia.
      destruct (month =? 12) eqn:E.
      * apply Z.eqb_eq in E.
        destruct (datetime (year + 1) 1 1) as [e0|e2] eqn:E2; cbn [bind].
        -- apply datetime_inv in E2. exfalso. apply Hnot. lia.
        -- f_equal. rewrite (datetime_raises _ _ _ E2).
           apply datetime_error_small; lia.
      * apply Z.eqb_neq in E.
        destruct (datetime year (month + 1) 1) as [e0|e2] eqn:E2; cbn [bind].
        -- apply datetime_inv in E2. exfalso. apply Hnot. lia.
        -- f_equal. rewrite (datetime_raises _ _ _ E2).
           apply datetime_error_small; lia.
    + f_equal. exact (datetime_raises _ _ _ E1).
Qed.

Lemma print_monthly_commission_table_domain_witness :
  (exists table_data,
      print_monthly_commission_table 2023 5 db_april_rolled = Ok table_data)
  /\ print_monthly_commission_table 2023 13 db_april_rolled = Raise ValueError
  /\ print_monthly_commission_table 2023 (-2147483648) db_april_rolled
     = Raise OverflowError.
Proof.
  split; [|split].
  - apply (proj1 (print_monthly_commission_table_domain 2023 5 db_april_rolled)).
    unfold printable_month. lia.
  - apply (proj2 (print_monthly_commission_table_domain 2023 13 db_april_rolled)).
    unfold printable_month. lia.
  - apply (proj2 (print_monthly_commission_table_domain 2023 (-2147483648)
                    db_april_rolled)).
    unfold printable_month. lia.
Defined.

(** ** What the rollup writes and what the table printer shows *)

Lemma rollup_loop_rows (e : date) (rows : list (Z * Q)) (db : DB) :
  exists new,
    fold_left (get_total_commission_body e) rows db
    = set_month_commissions db (month_commissions db ++ new)
    /\ Forall (fun mc => MonthlyCommission.date mc = e
                        /\ In (MonthlyCommission.agent_id mc,
                               MonthlyCommission.amount mc) rows) new.
Proof.
  revert db. induction rows as [|r rows IH]; intros db; simpl.
  - exists []. rewrite app_nil_r. split; [destruct db; reflexivity | constructor].
  - unfold get_total_commission_body at 2.
    destruct (0 <? _)%nat.
    + destruct (IH db) as [new [Hrun Hnew]]. exists new. split; [exact Hrun|].
      eapply Forall_impl; [|exact Hnew]. intros mc [H1 H2]. split; [exact H1|now right].
    + match goal with
      | [ |- context [fold_left _ rows ?st] ] => destruct (IH st) as [new [Hrun Hnew]]
      end.
      eexists (_ :: new). split.
      * rewrite Hrun. simpl. rewrite <- app_assoc. reflexivity.
      * constructor.
        -- simpl. split; [reflexivity|]. left. now destruct r.
        -- eapply Forall_impl; [|exact Hnew]. intros mc [H1 H2].
           split; [exact H1|now right].
Qed.

(** Every row of the aggregate query belongs to an agent of the table with a
    commission dated after [s], up to and including [e]. *)
Lemma agents_commission_query_origin (s e : date) (db : DB) (r : Z * Q) :
  In r (agents_commission_query s e db) ->
  exists a, In a (agents db) /\ fst r = Agent.id a
            /\ commissions_in_window s e db a <> [].
Proof.
  unfold agents_commission_query. intros Hin.
  apply (Permutation_in _ (order_by_desc_perm _ _)) in Hin.
  apply in_map_iff in Hin. destruct Hin as [[rep grp] [<- Hg]]. simpl.
  unfold group_by in Hg. apply in_map_iff in Hg.
  destruct Hg as [rep' [Heq Hrep]]. injection Heq as -> _.
  apply distinct_on_incl, filter_In in Hrep. destruct Hrep as [Hj Hw].
  destruct rep as [a c]. apply in_inner_join in Hj. destruct Hj as [Ha [Hc Hon]].
  exists a. split; [exact Ha|]. split; [reflexivity|].
  assert (Hin : In c (commissions_in_window s e db a)).
  { unfold commissions_in_window. apply filter_In. split; [exact Hc|].
    simpl in Hw. rewrite in_window_after_upto in Hw. now rewrite Hon, Hw. }
  intro Hnil. rewrite Hnil in Hin. destruct Hin.
Qed.

(** X5: the rollup only appends to MonthlyCommission: rows already there keep
    their place and content, no other table changes, and every appended row
    is dated on the first day of the following month and belongs to an agent
    of the table with a commission dated after the first day of the month, up
    to and including the first day of the following month.  No uniqueness of
    ids is assumed. *)
Theorem rollup_only_appends (year month : Z) (db db' : DB) :
  get_total_commission year month db = Ok db' ->
  exists new,
    db' = set_month_commissions db (month_commissions db ++ new)
    /\ Forall (fun mc =>
                 MonthlyCommission.date mc = window_end year month
                 /\ exists a,
                      In a (agents db)
                      /\ MonthlyCommission.agent_id mc = Agent.id a
                      /\ commissions_in_window (window_start year month)
                           (window_end year month) db a <> []) new.
Proof.
  unfold get_total_commission.
  destruct (month_window year month) as [[s e]|] eqn:E; cbn [bind]; [|discriminate].
  apply month_window_inv in E. destruct E as [_ [-> ->]].
  intro H. injection H as <-.
  destruct (rollup_loop_rows (window_end year month)
              (agents_commission_query (window_start year month)
                                       (window_end year month) db) db)
    as [new [Hrun Hnew]].
  exists new. split; [exact Hrun|].
  eapply Forall_impl; [|exact Hnew]. intros mc [Hd Hin]. split; [exact Hd|].
  destruct (agents_commission_query_origin _ _ _ _ Hin) as [a [Ha [Hid Hc]]].
  exists a. simpl in Hid. auto.
Qed.

Lemma rollup_only_appends_witness :
  exists new,
    db_april_rolled
    = set_month_commissions db_april (month_commissions db_april ++ new)
    /\ Forall (fun mc =>
                 MonthlyCommission.date mc = mkdate 2023 5 1
                 /\ exists a,
                      In a (agents db_april)
                      /\ MonthlyCommission.agent_id mc = Agent.id a
                      /\ commissions_in_window (mkdate 2023 4 1) (mkdate 2023 5 1)
                           db_april a <> []) new.
Proof.
  apply (rollup_only_appends 2023 4 db_april db_april_rolled). reflexivity.
Defined.

(** X24: for a valid (year, month) and unique agent ids, every call of the
    rollup appends exactly one MonthlyCommission row for each agent with at
    least one commission dated after the first day of the month, up to and
    including the first day of the following month, whatever rows the table
    holds already: the row is dated on the first day of the following month
    and its amount is the sum of those commissions.  An agent without such a
    commission gets no row. *)
Theorem rollup_appends_one_row_per_agent (year month : Z) (db : DB) :
  valid_month year month ->
  primary_key Agent.id (agents db) ->
  let s := window_start year month in
  let e := window_end year month in
  exists new,
    get_total_commission year month db
    = Ok (set_month_commissions db (month_commissions db ++ new))
    /\ Permutation
         (map monthly_fields new)
         (map (fun a => (Agent.id a, e, total_commission s e db a))
              (filter (has_commission s e db) (agents db)))
    /\ (forall a, In a (agents db) -> has_commission s e db a = true ->
          exists mc,
            filter (fun mc => MonthlyCommission.agent_id mc =? Agent.id a) new = [mc]
            /\ MonthlyCommission.date mc = e
            /\ MonthlyCommission.amount mc = total_commission s e db a)
    /\ (forall a, In a (agents db) -> has_commission s e db a = false ->
          filter (fun mc => MonthlyCommission.agent_id mc =? Agent.id a) new = []).
Proof.
  intros Hv Hpk s e.
  unfold get_total_commission. rewrite (month_window_valid _ _ Hv). cbn [bind].
  fold s e.
  pose proof (agents_commission_query_rows s e db Hpk) as Hrows.
  destruct (rollup_loop_new e (agents_commission_query s e db) db)
    as [new [Hrun Hnew]].
  assert (Hperm : Permutation
            (map monthly_fields new)
            (map (fun a => (Agent.id a, e, total_commission s e db a))
                 (filter (has_commission s e db) (agents db)))).
  { rewrite Hnew, (Permutation_map _ Hrows), map_map. reflexivity. }
  assert (Hone : forall a,
            map monthly_fields
                (filter (fun mc => MonthlyCommission.agent_id mc =? Agent.id a) new)
            = filter (fun x => fst (fst x) =? Agent.id a) (map monthly_fields new)).
  { intros a. now rewrite filter_map_swap. }
  exists new. split; [now rewrite Hrun|]. split; [exact Hperm|]. split.
  - intros a Ha Hroll.
    pose proof (Permutation_filter (fun x => fst (fst x) =? Agent.id a) _ _ Hperm) as Hp.
    rewrite <- Hone, filter_map_swap in Hp. simpl in Hp.
    rewrite (filter_by_primary_key Agent.id) in Hp.
    + simpl in Hp. apply Permutation_sym, Permutation_length_1_inv in Hp.
      destruct (filter _ new) as [|mc [|mc' rest]]; try discriminate.
      exists mc. split; [reflexivity|].
      simpl in Hp. injection Hp as H1 H2 H3. now split.
    + now apply NoDup_map_filter.
    + apply filter_In. now split.
  - intros a Ha Hroll.
    pose proof (Permutation_filter (fun x => fst (fst x) =? Agent.id a) _ _ Hperm) as Hp.
    rewrite <- Hone, filter_map_swap in Hp. simpl in Hp.
    rewrite (filter_nil_of_all_false (fun a0 => Agent.id a0 =? Agent.id a)) in Hp.
    + simpl in Hp. apply Permutation_sym, Permutation_nil in Hp.
      now apply map_eq_nil in Hp.
    + intros a' Ha'. apply filter_In in Ha'. destruct Ha' as [Hin Hr'].
      apply Z.eqb_neq. intros Heq.
      rewrite (primary_key_inj Agent.id _ _ _ Hpk Hin Ha Heq) in Hr'. congruence.
Qed.

Lemma rollup_appends_one_row_per_agent_witness :
  exists new,
    get_total_commission 2023 4 db_first_days
    = Ok (set_month_commissions db_first_days
            (month_commissions db_first_days ++ new))
    /\ (exists mc,
          filter (fun mc => MonthlyCommission.agent_id mc =? 1) new = [mc]
          /\ MonthlyCommission.date mc = mkdate 2023 5 1
          /\ (MonthlyCommission.amount mc == 8000)%Q)
    /\ (exists mc,
          filter (fun mc => MonthlyCommission.agent_id mc =? 2) new = [mc]
          /\ MonthlyCommission.date mc = mkdate 2023 5 1
          /\ (MonthlyCommission.amount mc == 5000)%Q)
    /\ filter (fun mc => MonthlyCommission.agent_id mc =? 3) new = [].
Proof.
  assert (Hv : valid_month 2023 4) by (unfold valid_month; lia).
  assert (Hpk : primary_key Agent.id (agents db_first_days)).
  { unfold primary_key. simpl. repeat constructor; simpl; intuition discriminate. }
  destruct (rollup_appends_one_row_per_agent 2023 4 db_first_days Hv Hpk)
    as [new [Hrun [_ [Hin Hout]]]].
  exists new. split; [exact Hrun|]. split; [|split].
  - destruct (Hin agent_A (or_introl eq_refl) eq_refl) as [mc [H1 [H2 H3]]].
    exists mc. split; [exact H1|]. split; [exact H2|]. rewrite H3. reflexivity.
  - destruct (Hin agent_B (or_intror (or_introl eq_refl)) eq_refl)
      as [mc [H1 [H2 H3]]].
    exists mc. split; [exact H1|]. split; [exact H2|]. rewrite H3. reflexivity.
  - exact (Hout agent_C (or_intror (or_intror (or_introl eq_refl))) eq_refl).
Defined.




(** ** Seeding agents and office assignments *)

Lemma choice_in {A : Type} (pick : nat) (l : list A) (x : A) :
  choice pick l = Ok x -> In x l.
Proof.
  destruct l as [|y l]; [discriminate|]. intro H.
  assert (Hx : x = nth (Nat.modulo pick (List.length (y :: l))) (y :: l) y)
    by (unfold choice in H; congruence).
  rewrite Hx. apply nth_In. apply Nat.mod_upper_bound. discriminate.
Qed.

Lemma choice_ok {A : Type} (pick : nat) (l : list A) :
  l <> [] -> exists x, choice pick l = Ok x.
Proof.
  destruct l as [|y l]; [congruence|]. intros _. eexists. reflexivity.
Qed.

Lemma insert_agents_body_ok (db : DB) (d : AgentDraw) (o : Office.t) :
  choice (office_pick d) (offices db) = Ok o ->
  let agent :=
    Agent.mk (next_id (map Agent.id (agents db)))
             (fake_name d) (fake_email d) (fake_phone_number d) in
  insert_agents_body db d
  = Ok (mkDB (offices db) (agents db ++ [agent])
             (agent_office db
              ++ [AgentOffice.mk (next_id (map AgentOffice.id (agent_office db)))
                                 (Agent.id agent) (Office.id o)])
             (sellers db) (listings db) (buyers db) (sales db) (commissions db)
             (month_commissions db)).
Proof.
  intros Hc agent. unfold insert_agents_body. cbn [agents set_agents].
  rewrite map_app. cbn [map Agent.id]. rewrite first_id_desc_after_insert.
  cbn [bind offices set_agents]. rewrite Hc. reflexivity.
Qed.

Lemma insert_agents_loop (draws : list AgentDraw) :
  forall db,
    offices db <> [] ->
    exists new_agents new_rows,
      for_each insert_agents_body draws db
      = Ok (mkDB (offices db) (agents db ++ new_agents)
                 (agent_office db ++ new_rows)
                 (sellers db) (listings db) (buyers db) (sales db)
                 (commissions db) (month_commissions db))
      /\ Forall2 (fun d a => Agent.name a = fake_name d
                             /\ Agent.email a = fake_email d
                             /\ Agent.phone a = fake_phone_number d)
                 draws new_agents
      /\ Forall2 (fun a ao => AgentOffice.agent_id ao = Agent.id a
                              /\ exists o, In o (offices db)
                                           /\ AgentOffice.office_id ao = Office.id o)
                 new_agents new_rows.
Proof.
  induction draws as [|d draws IH]; intros db Hoff.
  - exists [], []. cbn [for_each]. rewrite !app_nil_r.
    split; [destruct db; reflexivity|]. split; constructor.
  - destruct (choice_ok (office_pick d) (offices db) Hoff) as [o Ho].
    cbn [for_each]. rewrite (insert_agents_body_ok db d o Ho). cbn [bind].
    match goal with
    | [ |- context [for_each _ draws ?st] ] => set (db1 := st)
    end.
    destruct (IH db1 Hoff) as [na [nr [Hrun [Hd Hr]]]].
    rewrite Hrun. unfold db1. cbn [offices agents agent_office sellers listings
                                  buyers sales commissions month_commissions].
    eexists (_ :: na), (_ :: nr). rewrite <- !app_assoc. cbn [app].
    split; [reflexivity|]. split.
    + constructor; [|exact Hd]. cbn. auto.
    + constructor; [|exact Hr]. cbn. split; [reflexivity|].
      exists o. split; [exact (choice_in _ _ _ Ho) | reflexivity].
Qed.

(** X7: [insert_agents] gives every new agent an office: when the Office table
    is not empty the call adds one Agent row per draw, with the drawn name,
    email and phone, and one AgentOffice row per new agent that links its id
    to an office of the table; nothing else changes. *)
Theorem insert_agents_assigns_offices (draws : list AgentDraw) (db : DB) :
  offices db <> [] ->
  exists new_agents new_rows,
    insert_agents draws db
    = mkDB (offices db) (agents db ++ new_agents) (agent_office db ++ new_rows)
           (sellers db) (listings db) (buyers db) (sales db) (commissions db)
           (month_commissions db)
    /\ Forall2 (fun d a => Agent.name a = fake_name d
                           /\ Agent.email a = fake_email d
                           /\ Agent.phone a = fake_phone_number d)
               draws new_agents
    /\ Forall2 (fun a ao => AgentOffice.agent_id ao = Agent.id a
                            /\ exists o, In o (offices db)
                                         /\ AgentOffice.office_id ao = Office.id o)
               new_agents new_rows.
Proof.
  intros Hoff. unfold insert_agents.
  destruct (insert_agents_loop draws db Hoff) as [na [nr [Hrun H]]].
  rewrite Hrun. exists na, nr. split; [reflexivity | exact H].
Qed.

Lemma insert_agents_assigns_offices_witness :
  exists new_agents new_rows,
    insert_agents [mkAgentDraw "B" "b@example.org" "555-0102" 7] db_listed
    = mkDB (offices db_listed) (agents db_listed ++ new_agents)
           (agent_office db_listed ++ new_rows)
           (sellers db_listed) (listings db_listed) (buyers db_listed)
           (sales db_listed) (commissions db_listed) (month_commissions db_listed)
    /\ Forall2 (fun d a => Agent.name a = fake_name d
                           /\ Agent.email a = fake_email d
                           /\ Agent.phone a = fake_phone_number d)
               [mkAgentDraw "B" "b@example.org" "555-0102" 7] new_agents
    /\ Forall2 (fun a ao => AgentOffice.agent_id ao = Agent.id a
                            /\ exists o, In o (offices db_listed)
                                         /\ AgentOffice.office_id ao = Office.id o)
               new_agents new_rows.
Proof.
  apply (insert_agents_assigns_offices
           [mkAgentDraw "B" "b@example.org" "555-0102" 7] db_listed).
  simpl. discriminate.
Defined.

(** X8: with an empty Office table [insert_agents] inserts nothing: the first
    [choice] over the offices raises IndexError, which the function catches,
    and the rollback also drops the agent added just before. *)
Theorem insert_agents_without_offices (draws : list AgentDraw) (db : DB) :
  offices db = [] -> insert_agents draws db = db.
Proof.
  intros Hoff. unfold insert_agents.
  destruct draws as [|d draws]; [reflexivity|].
  cbn [for_each]. unfold insert_agents_body at 1. cbn [agents set_agents].
  rewrite map_app. cbn [map Agent.id]. rewrite first_id_desc_after_insert.
  cbn [bind offices set_agents]. rewrite Hoff. reflexivity.
Qed.

Lemma insert_agents_without_offices_witness :
  insert_agents [mkAgentDraw "A" "a@example.org" "555-0101" 0] empty_db = empty_db.
Proof.
  apply (insert_agents_without_offices
           [mkAgentDraw "A" "a@example.org" "555-0101" 0] empty_db).
  reflexivity.
Defined.

Lemma assign_loop (agents_ : list Agent.t) (offices_ : list Office.t)
  (picks : list (nat * nat)) :
  agents_ <> [] -> offices_ <> [] ->
  forall db,
  exists new_rows,
    for_each (assign_body offices_ agents_) picks db
    = Ok (set_agent_office db (agent_office db ++ new_rows))
    /\ List.length new_rows = List.length picks
    /\ Forall (fun ao => (exists a, In a agents_
                                    /\ AgentOffice.agent_id ao = Agent.id a)
                         /\ (exists o, In o offices_
                                       /\ AgentOffice.office_id ao = Office.id o))
              new_rows.
Proof.
  intros Ha Ho. induction picks as [|p picks IH]; intros db.
  - exists []. cbn [for_each]. rewrite app_nil_r.
    split; [destruct db; reflexivity|]. split; [reflexivity | constructor].
  - destruct (choice_ok (fst p) agents_ Ha) as [a Hca].
    destruct (choice_ok (snd p) offices_ Ho) as [o Hco].
    cbn [for_each]. unfold assign_body at 1. rewrite Hca, Hco. cbn [bind].
    match goal with
    | [ |- context [for_each _ picks ?st] ] => destruct (IH st) as [nr [Hrun [Hl Hr]]]
    end.
    rewrite Hrun. eexists (_ :: nr). cbn [agent_office set_agent_office].
    rewrite <- app_assoc. cbn [app].
    split; [reflexivity|]. split; [simpl; now rewrite Hl|].
    constructor; [|exact Hr]. cbn. split.
    + exists a. split; [exact (choice_in _ _ _ Hca) | reflexivity].
    + exists o. split; [exact (choice_in _ _ _ Hco) | reflexivity].
Qed.

(** X9: [assign_agents_to_offices] adds one AgentOffice row per pick, each
    linking an agent of the table to an office of the table, and changes
    nothing else; when there is a pick to make and the Agent or the Office
    table is empty, the IndexError of [choice] is caught and nothing is
    stored. *)
Theorem assign_agents_to_offices_rows (picks : list (nat * nat)) (db : DB) :
  (agents db <> [] -> offices db <> [] ->
   exists new_rows,
     assign_agents_to_offices picks db
     = set_agent_office db (agent_office db ++ new_rows)
     /\ List.length new_rows = List.length picks
     /\ Forall (fun ao => (exists a, In a (agents db)
                                     /\ AgentOffice.agent_id ao = Agent.id a)
                          /\ (exists o, In o (offices db)
                                        /\ AgentOffice.office_id ao = Office.id o))
               new_rows)
  /\ (agents db = [] \/ offices db = [] -> assign_agents_to_offices picks db = db).
Proof.
  unfold assign_agents_to_offices. split.
  - intros Ha Ho.
    destruct (assign_loop (agents db) (offices db) picks Ha Ho db)
      as [nr [Hrun H]].
    rewrite Hrun. exists nr. split; [reflexivity | exact H].
  - intros Hempty. destruct picks as [|p picks]; [reflexivity|].
    cbn [for_each]. unfold assign_body at 1.
    destruct Hempty as [-> | ->]; [reflexivity|].
    destruct (choice (fst p) (agents db)); reflexivity.
Qed.

Lemma assign_agents_to_offices_rows_witness :
  (exists new_rows,
      assign_agents_to_offices [(4%nat, 9%nat)] db_listed
      = set_agent_office db_listed (agent_office db_listed ++ new_rows)
      /\ List.length new_rows = 1%nat
      /\ Forall (fun ao => (exists a, In a (agents db_listed)
                                      /\ AgentOffice.agent_id ao = Agent.id a)
                           /\ (exists o, In o (offices db_listed)
                                         /\ AgentOffice.office_id ao = Office.id o))
                new_rows)
  /\ assign_agents_to_offices [(4%nat, 9%nat)] empty_db = empty_db.
Proof.
  split.
  - apply (proj1 (assign_agents_to_offices_rows [(4%nat, 9%nat)] db_listed));
      simpl; discriminate.
  - apply (proj2 (assign_agents_to_offices_rows [(4%nat, 9%nat)] empty_db)).
    now left.
Defined.

(** ** Seeding listings *)

Lemma new_sellers (draws : list ListingDraw) (tbl : list Seller.t) :
  exists new,
    fold_left add_seller draws tbl = tbl ++ new
    /\ Forall2 (fun d s => Seller.name s = seller_name d
                           /\ Seller.phone s = seller_phone d) draws new.
Proof.
  destruct (fold_left_append
              (fun t d => Seller.mk (next_id (map Seller.id t))
                                    (seller_name d) (seller_phone d)) draws tbl)
    as [new [Hrun Hnew]].
  exists new. split; [exact Hrun|].
  eapply Forall2_impl; [|exact Hnew]. intros d r [t ->]. now split.
Qed.

Lemma first_office_of_ok (a : Z) (tbl : list AgentOffice.t) :
  (exists ao, In ao tbl /\ AgentOffice.agent_id ao = a) ->
  exists ao, In ao tbl /\ AgentOffice.agent_id ao = a
             /\ first_office_of a tbl = Ok (AgentOffice.office_id ao).
Proof.
  intros [ao [Hin Hid]]. unfold first_office_of.
  destruct (find _ tbl) as [ao'|] eqn:E.
  - apply find_some in E. destruct E as [Hin' Hid']. apply Z.eqb_eq in Hid'.
    exists ao'. auto.
  - exfalso. apply (find_none _ _ E) in Hin. apply Z.eqb_neq in Hin. contradiction.
Qed.

Lemma insert_listings_body_inv (agents_ : list Agent.t) (db db' : DB)
  (x : Seller.t * ListingDraw) :
  insert_listings_body agents_ db x = Ok db' ->
  exists l,
    db' = set_listings db (listings db ++ [l])
    /\ Listing.is_sold l = 0
    /\ Listing.seller_id l = Seller.id (fst x)
    /\ Listing.bedrooms l = fake_bedrooms (snd x)
    /\ Listing.bathrooms l = fake_bathrooms (snd x)
    /\ Listing.listing_price l = fake_listing_price (snd x)
    /\ Listing.zip_code l = fake_zipcode (snd x)
    /\ Listing.date_of_listing l = fake_date_of_listing (snd x)
    /\ exists a, In a agents_
                 /\ Listing.listing_agent_id l = Agent.id a
                 /\ first_office_of (Agent.id a) (agent_office db)
                    = Ok (Listing.office_id l).
Proof.
  unfold insert_listings_body. destruct x as [seller d].
  destruct (choice (agent_pick d) agents_) as [a|] eqn:Ea; cbn [bind]; [|discriminate].
  destruct (first_office_of (Agent.id a) (agent_office db)) as [o|] eqn:Eo;
    cbn [bind]; [|discriminate].
  intro H. injection H as <-. eexists. split; [reflexivity|].
  cbn. repeat split. exists a. split; [exact (choice_in _ _ _ Ea)|]. now split.
Qed.

Lemma insert_listings_loop_inv (agents_ : list Agent.t)
  (xs : list (Seller.t * ListingDraw)) :
  forall db0 db db',
    agents db0 = agents_ -> agents db = agents_ ->
    agent_office db = agent_office db0 ->
    for_each (insert_listings_body agents_) xs db = Ok db' ->
    exists new,
      db' = set_listings db (listings db ++ new)
      /\ Forall2 (listing_from_draw db0) xs new.
Proof.
  induction xs as [|x xs IH]; intros db0 db db' H0 Ha Hao Hrun; cbn [for_each] in Hrun.
  - injection Hrun as <-. exists []. rewrite app_nil_r.
    split; [destruct db; reflexivity | constructor].
  - destruct (insert_listings_body agents_ db x) as [db1|] eqn:E;
      cbn [bind] in Hrun; [|discriminate].
    apply insert_listings_body_inv in E.
    destruct E as [l [-> [H1 [H2 [H3 [H4 [H5 [H6 [H7 [a [Hin [H8 H9]]]]]]]]]]]].
    destruct (IH db0 (set_listings db (listings db ++ [l])) db' H0 Ha Hao Hrun)
      as [new [-> Hnew]].
    exists (l :: new). split.
    + cbn. now rewrite <- app_assoc.
    + constructor; [|exact Hnew].
      unfold listing_from_draw. repeat (split; [assumption|]).
      exists a. rewrite H0, <- Hao. auto.
Qed.

Lemma insert_listings_loop_ok (agents_ : list Agent.t)
  (xs : list (Seller.t * ListingDraw)) :
  agents_ <> [] ->
  forall db,
    (forall a, In a agents_ ->
               exists ao, In ao (agent_office db)
                          /\ AgentOffice.agent_id ao = Agent.id a) ->
    exists db', for_each (insert_listings_body agents_) xs db = Ok db'.
Proof.
  intros Hne. induction xs as [|[seller d] xs IH]; intros db Hoff; cbn [for_each].
  - eexists. reflexivity.
  - unfold insert_listings_body at 1.
    destruct (choice_ok (agent_pick d) agents_ Hne) as [a Ha]. rewrite Ha. cbn [bind].
    destruct (first_office_of_ok _ _ (Hoff a (choice_in _ _ _ Ha)))
      as [ao [_ [_ Ho]]].
    rewrite Ho. cbn [bind]. apply IH. exact Hoff.
Qed.

(** X10: [insert_listings] commits the new Seller rows on their own, one per
    draw.  The Listing rows are stored all or none: either as many as draws,
    each unsold, tied to the seller of its index, to an agent of the table and
    to the office of that agent's first AgentOffice row, or (when a picked
    agent has no office, or there is no agent to pick) none at all, which
    leaves the sellers without listings.  With an empty Agent table and at
    least one draw it is the second case. *)
Theorem insert_listings_sellers_then_listings (draws : list ListingDraw) (db : DB) :
  exists new_sellers,
    Forall2 (fun d s => Seller.name s = seller_name d
                        /\ Seller.phone s = seller_phone d) draws new_sellers
    /\ (insert_listings draws db = set_sellers db (sellers db ++ new_sellers)
        \/ exists new_listings,
             insert_listings draws db
             = set_listings (set_sellers db (sellers db ++ new_sellers))
                            (listings db ++ new_listings)
             /\ Forall2 (listing_from_draw db) (combine new_sellers draws)
                        new_listings)
    /\ (draws <> [] -> agents db = [] ->
        insert_listings draws db = set_sellers db (sellers db ++ new_sellers)).
Proof.
  unfold insert_listings. cbn [commit_or_rollback sellers set_sellers].
  destruct (new_sellers draws (sellers db)) as [ns [Hns Hnames]].
  rewrite Hns, skipn_app_length.
  exists ns. split; [exact Hnames|]. split.
  - destruct (for_each _ _ _) as [db'|] eqn:E; cbn [commit_or_rollback];
      [|now left].
    right.
    apply (insert_listings_loop_inv (agents db) _ db) in E; try reflexivity.
    destruct E as [new [-> Hnew]]. exists new. split; [reflexivity | exact Hnew].
  - intros Hd Ha. rewrite Ha.
    destruct draws as [|d draws]; [congruence|].
    inversion Hnames as [|? s ? ns' _ _]; subst. reflexivity.
Qed.

Lemma insert_listings_sellers_then_listings_witness :
  exists new_sellers,
    Forall2 (fun d s => Seller.name s = seller_name d
                        /\ Seller.phone s = seller_phone d)
            [mkListingDraw "T" "555-0202" 0 2 1 80000 "94110" (mkdate 2023 3 5)]
            new_sellers
    /\ insert_listings
         [mkListingDraw "T" "555-0202" 0 2 1 80000 "94110" (mkdate 2023 3 5)]
         empty_db
       = set_sellers empty_db (sellers empty_db ++ new_sellers).
Proof.
  destruct (insert_listings_sellers_then_listings
              [mkListingDraw "T" "555-0202" 0 2 1 80000 "94110" (mkdate 2023 3 5)]
              empty_db) as [ns [Hnames [_ Hempty]]].
  exists ns. split; [exact Hnames|]. apply Hempty; [discriminate | reflexivity].
Defined.

(** X11: when the Agent table is not empty and every agent has an AgentOffice
    row, [insert_listings] stores one Seller and one Listing per draw. *)
Theorem insert_listings_when_agents_have_offices (draws : list ListingDraw) (db : DB) :
  agents db <> [] ->
  (forall a, In a (agents db) ->
             exists ao, In ao (agent_office db)
                        /\ AgentOffice.agent_id ao = Agent.id a) ->
  exists new_sellers new_listings,
    insert_listings draws db
    = set_listings (set_sellers db (sellers db ++ new_sellers))
                   (listings db ++ new_listings)
    /\ List.length new_sellers = List.length draws
    /\ List.length new_listings = List.length draws
    /\ Forall2 (listing_from_draw db) (combine new_sellers draws) new_listings.
Proof.
  intros Hne Hoff. unfold insert_listings. cbn [commit_or_rollback sellers set_sellers].
  destruct (new_sellers draws (sellers db)) as [ns [Hns Hnames]].
  rewrite Hns, skipn_app_length.
  destruct (insert_listings_loop_ok (agents db) (combine ns draws) Hne
              (set_sellers db (sellers db ++ ns)) Hoff) as [db' E].
  rewrite E. cbn [commit_or_rollback].
  apply (insert_listings_loop_inv (agents db) _ db) in E; try reflexivity.
  destruct E as [new [-> Hnew]]. exists ns, new.
  split; [reflexivity|].
  pose proof (Forall2_length Hnames) as Hl1.
  pose proof (Forall2_length Hnew) as Hl2.
  rewrite length_combine in Hl2.
  repeat split; try lia. exact Hnew.
Qed.

Lemma insert_listings_when_agents_have_offices_witness :
  exists new_sellers new_listings,
    insert_listings
      [mkListingDraw "T" "555-0202" 0 2 1 80000 "94110" (mkdate 2023 3 5)] db_listed
    = set_listings (set_sellers db_listed (sellers db_listed ++ new_sellers))
                   (listings db_listed ++ new_listings)
    /\ List.length new_sellers = 1%nat
    /\ List.length new_listings = 1%nat
    /\ Forall2 (listing_from_draw db_listed)
               (combine new_sellers
                  [mkListingDraw "T" "555-0202" 0 2 1 80000 "94110" (mkdate 2023 3 5)])
               new_listings.
Proof.
  apply (insert_listings_when_agents_have_offices
           [mkListingDraw "T" "555-0202" 0 2 1 80000 "94110" (mkdate 2023 3 5)]
           db_listed).
  - simpl. discriminate.
  - intros a [<-|[]]. exists (AgentOffice.mk 1 1 1). split; [now left | reflexivity].
Defined.

(** ** What a call of [insert_sales] stores *)

(** X12: what one call of [insert_sales] stores.  It adds one Buyer row per
    draw.  It sells the first [num_sales] unsold listings in table order, or
    all of them if there are fewer: for each it adds one Sale (listing id,
    price, agent and office of the listing, the buyer and date of the same
    index) and one Commission, and it sets is_sold on exactly the listings it
    sold.  Buyers beyond the number of unsold listings get no sale. *)
Theorem insert_sales_effect (draws : list SaleDraw) (db : DB) :
  exists new_buyers new_sales new_commissions,
    let sold := limit (List.length draws) (unsold (listings db)) in
    insert_sales draws db
    = Ok (mkDB (offices db) (agents db) (agent_office db) (sellers db)
               (flag_sold (map Listing.id sold) (listings db))
               (buyers db ++ new_buyers) (sales db ++ new_sales)
               (commissions db ++ new_commissions) (month_commissions db))
    /\ Forall2 (fun d b => Buyer.name b = buyer_name d
                           /\ Buyer.phone b = buyer_phone d) draws new_buyers
    /\ Forall2 sale_from_listing (combine sold (combine new_buyers draws)) new_sales
    /\ Forall2 commission_of_sale new_sales new_commissions
    /\ List.length new_sales
       = Nat.min (List.length draws) (List.length (unsold (listings db)))
    /\ map Sale.listing_id new_sales = map Listing.id sold.
Proof.
  unfold insert_sales. cbn [commit_or_rollback buyers set_buyers listings].
  destruct (new_buyers draws (buyers db)) as [nb [Hnb Hnames]].
  rewrite Hnb, skipn_app_length. fold (unsold (listings db)).
  set (sold := limit (List.length draws) (unsold (listings db))).
  destruct (insert_sales_loop_result (combine sold (combine nb draws))
              (set_buyers db (buyers db ++ nb))) as [ns [nc [Hrun [Hs Hc]]]].
  rewrite Hrun. cbn [commit_or_rollback].
  pose proof (Forall2_length Hnames) as Hlb.
  assert (Hlen : (List.length sold <= List.length (combine nb draws))%nat).
  { rewrite length_combine. unfold sold, limit. rewrite length_firstn. lia. }
  assert (Hids : map (fun x : Listing.t * (Buyer.t * SaleDraw) => Listing.id (fst x))
                     (combine sold (combine nb draws))
                 = map Listing.id sold).
  { rewrite <- (map_map fst Listing.id), map_fst_combine by exact Hlen.
    reflexivity. }
  exists nb, ns, nc. cbn zeta. rewrite Hids.
  split; [reflexivity|]. split; [exact Hnames|]. split; [exact Hs|].
  split; [exact Hc|]. split.
  - rewrite <- (Forall2_length Hs), length_combine.
    unfold sold, limit in *. rewrite length_firstn in *. lia.
  - rewrite <- Hids. clear -Hs.
    induction Hs as [|x s xs ns Hx _ IH]; [reflexivity|].
    cbn [map]. f_equal; [exact (proj1 Hx) | exact IH].
Qed.

(** ** Invariants of the reachable states *)

Lemma primary_key_fold {R D : Type} (id : R -> Z) (mk : list R -> D -> R)
  (ds : list D) :
  (forall t d, id (mk t d) = next_id (map id t)) ->
  forall tbl,
    primary_key id tbl ->
    primary_key id (fold_left (fun t d => t ++ [mk t d]) ds tbl).
Proof.
  intros Hmk. induction ds as [|d ds IH]; intros tbl Hpk; simpl; [exact Hpk|].
  apply IH. apply primary_key_insert; [exact Hpk | apply Hmk].
Qed.

Lemma insert_agents_body_keys (db db' : DB) (d : AgentDraw) :
  all_keys_unique db -> insert_agents_body db d = Ok db' -> all_keys_unique db'.
Proof.
  intros Hk Hb. unfold insert_agents_body in Hb.
  destruct (first_id_desc _); simpl in Hb; [|discriminate].
  destruct (choice _ _); simpl in Hb; [|discriminate].
  injection Hb as <-. unfold all_keys_unique in *. simpl.
  intuition (try (apply primary_key_insert; [assumption | reflexivity])).
Qed.

Lemma assign_body_keys (o : list Office.t) (a : list Agent.t) (db db' : DB)
  (p : nat * nat) :
  all_keys_unique db -> assign_body o a db p = Ok db' -> all_keys_unique db'.
Proof.
  intros Hk Hb. unfold assign_body in Hb.
  destruct (choice _ a); simpl in Hb; [|discriminate].
  destruct (choice _ o); simpl in Hb; [|discriminate].
  injection Hb as <-. unfold all_keys_unique in *. simpl.
  intuition (try (apply primary_key_insert; [assumption | reflexivity])).
Qed.

Lemma insert_listings_body_keys (a : list Agent.t) (db db' : DB)
  (x : Seller.t * ListingDraw) :
  all_keys_unique db -> insert_listings_body a db x = Ok db' -> all_keys_unique db'.
Proof.
  intros Hk Hb. unfold insert_listings_body in Hb. destruct x as [seller d].
  destruct (choice _ a); simpl in Hb; [|discriminate].
  destruct (first_office_of _ _); simpl in Hb; [|discriminate].
  injection Hb as <-. unfold all_keys_unique in *. simpl.
  intuition (try (apply primary_key_insert; [assumption | reflexivity])).
Qed.

Lemma insert_sales_body_keys (db db' : DB) (x : Listing.t * (Buyer.t * SaleDraw)) :
  all_keys_unique db -> insert_sales_body db x = Ok db' -> all_keys_unique db'.
Proof.
  intros Hk Hb. destruct x as [listing [buyer d]].
  rewrite insert_sales_body_ok in Hb. injection Hb as <-.
  unfold all_keys_unique in *. simpl.
  assert (Hl : primary_key Listing.id (mark_sold (Listing.id listing) (listings db))).
  { unfold primary_key. rewrite mark_sold_ids. tauto. }
  intuition (try (apply primary_key_insert; [assumption | reflexivity])).
Qed.

Lemma rollup_body_keys (e : date) (db : DB) (r : Z * Q) :
  all_keys_unique db -> all_keys_unique (get_total_commission_body e db r).
Proof.
  intros Hk. unfold get_total_commission_body.
  destruct (0 <? _)%nat; [exact Hk|].
  unfold all_keys_unique in *. simpl.
  intuition (try (apply primary_key_insert; [assumption | reflexivity])).
Qed.

Lemma exec_all_keys_unique (o : op) (db : DB) :
  all_keys_unique db -> all_keys_unique (exec o db).
Proof.
  intros Hk.
  destruct o as [a|draws|picks|draws|draws|y m|y m|y m|y m|y m|y m];
    cbn [exec]; try exact Hk.
  - unfold insert_offices. cbn [commit_or_rollback].
    unfold all_keys_unique in *. cbn [offices agents agent_office sellers listings
      buyers sales commissions month_commissions set_offices].
    split; [|tauto].
    apply (primary_key_fold Office.id
             (fun t d => Office.mk (next_id (map Office.id t)) d));
      [reflexivity | tauto].
  - unfold insert_agents.
    apply (commit_or_rollback_invariant all_keys_unique); [exact Hk|].
    intros db' Hrun.
    apply (for_each_invariant all_keys_unique insert_agents_body)
      with (l := draws) (s := db); [|exact Hk|exact Hrun].
    intros s x s' Hs Hb. exact (insert_agents_body_keys _ _ _ Hs Hb).
  - unfold assign_agents_to_offices.
    apply (commit_or_rollback_invariant all_keys_unique); [exact Hk|].
    intros db' Hrun.
    apply (for_each_invariant all_keys_unique (assign_body (offices db) (agents db)))
      with (l := picks) (s := db); [|exact Hk|exact Hrun].
    intros s x s' Hs Hb. exact (assign_body_keys _ _ _ _ _ Hs Hb).
  - unfold insert_listings. cbn [commit_or_rollback].
    assert (Hk1 : all_keys_unique
                    (set_sellers db (fold_left add_seller draws (sellers db)))).
    { unfold all_keys_unique in *. cbn [offices agents agent_office sellers listings
        buyers sales commissions month_commissions set_sellers].
      repeat (split; [tauto|]). split; [|tauto].
      apply (primary_key_fold Seller.id
               (fun t d => Seller.mk (next_id (map Seller.id t))
                                     (seller_name d) (seller_phone d)));
        [reflexivity | tauto]. }
    apply (commit_or_rollback_invariant all_keys_unique); [exact Hk1|].
    intros db' Hrun.
    eapply (for_each_invariant all_keys_unique (insert_listings_body (agents db)));
      [| |exact Hrun]; [|exact Hk1].
    intros s x s' Hs Hb. exact (insert_listings_body_keys _ _ _ _ Hs Hb).
  - unfold insert_sales. cbn [state_after commit_or_rollback].
    assert (Hk1 : all_keys_unique
                    (set_buyers db (fold_left add_buyer draws (buyers db)))).
    { unfold all_keys_unique in *. cbn [offices agents agent_office sellers listings
        buyers sales commissions month_commissions set_buyers].
      repeat (split; [tauto|]). split; [|tauto].
      apply (primary_key_fold Buyer.id
               (fun t d => Buyer.mk (next_id (map Buyer.id t))
                                    (buyer_name d) (buyer_phone d)));
        [reflexivity | tauto]. }
    apply (commit_or_rollback_invariant all_keys_unique); [exact Hk1|].
    intros db' Hrun.
    eapply (for_each_invariant all_keys_unique insert_sales_body);
      [| |exact Hrun]; [|exact Hk1].
    intros s x s' Hs Hb. exact (insert_sales_body_keys _ _ _ Hs Hb).
  - unfold get_total_commission.
    destruct (month_window y m) as [[s e]|]; cbn [bind state_after]; [|exact Hk].
    generalize (agents_commission_query s e db). intros rows.
    revert db Hk. induction rows as [|r rows IH]; intros db Hk; simpl; [exact Hk|].
    apply IH. now apply rollup_body_keys.
Qed.

(** X13: ids are unique in every table of every state the operations reach
    from the empty database, and every operation keeps them unique: an insert
    takes one more than the largest id of its table, and a rollback only drops
    rows. *)
Theorem primary_keys_stay_unique :
  (forall ops : list op, all_keys_unique (run ops empty_db))
  /\ (forall (o : op) (db : DB), all_keys_unique db -> all_keys_unique (exec o db)).
Proof.
  split; [|exact exec_all_keys_unique].
  intros ops. unfold run.
  assert (H : forall db, all_keys_unique db ->
                         all_keys_unique (fold_left (fun s o => exec o s) ops db)).
  { induction ops as [|o ops IH]; intros db Hk; simpl; [exact Hk|].
    apply IH. now apply exec_all_keys_unique. }
  apply H. unfold all_keys_unique, primary_key. simpl. repeat split; constructor.
Qed.

Lemma primary_keys_stay_unique_witness :
  all_keys_unique (exec (InsertSales [draw_apr10]) db_listed).
Proof.
  apply (proj2 primary_keys_stay_unique (InsertSales [draw_apr10]) db_listed).
  unfold all_keys_unique, primary_key. simpl.
  repeat split; repeat constructor; simpl; tauto.
Defined.

Lemma flag_sold_ids (ids : list Z) (tbl : list Listing.t) :
  map Listing.id (flag_sold ids tbl) = map Listing.id tbl.
Proof.
  unfold flag_sold. rewrite map_map. apply map_ext.
  intros l. now destruct (existsb _ ids).
Qed.

Lemma appended_by_refl (db : DB) : appended_by db db.
Proof.
  exists [], [], [], [], [], [], [], [], [], [], [].
  cbn [map]. rewrite flag_sold_nil, !app_nil_r.
  split; [destruct db; reflexivity|].
  repeat split; try constructor. exists 0%nat. reflexivity.
Qed.

Lemma Forall2_right {A B : Type} (P : A -> B -> Prop) (la : list A) (lb : list B) :
  Forall2 P la lb -> Forall (fun b => exists a, In a la /\ P a b) lb.
Proof.
  induction 1 as [|a b la lb Hab _ IH]; constructor.
  - exists a. split; [now left | exact Hab].
  - eapply Forall_impl; [|exact IH]. intros b' [a' [Ha' Hp]].
    exists a'. split; [now right | exact Hp].
Qed.

Lemma first_office_of_inv (a o : Z) (tbl : list AgentOffice.t) :
  first_office_of a tbl = Ok o ->
  exists ao, In ao tbl /\ o = AgentOffice.office_id ao.
Proof.
  unfold first_office_of. destruct (find _ tbl) as [ao|] eqn:E; [|discriminate].
  intro H. injection H as <-. apply find_some in E. exists ao. tauto.
Qed.

Lemma has_id_in {R : Type} (id : R -> Z) (tbl : list R) (x : R) :
  In x tbl -> has_id id tbl (id x).
Proof. apply in_map. Qed.

Lemma has_id_app_l {R : Type} (id : R -> Z) (tbl new : list R) (k : Z) :
  has_id id tbl k -> has_id id (tbl ++ new) k.
Proof.
  unfold has_id. rewrite map_app. intro H. apply in_or_app. now left.
Qed.

Lemma has_id_app_r {R : Type} (id : R -> Z) (tbl new : list R) (k : Z) :
  has_id id new k -> has_id id (tbl ++ new) k.
Proof.
  unfold has_id. rewrite map_app. intro H. apply in_or_app. now right.
Qed.

(** Every operation only appends rows and flags listings sold. *)
Lemma exec_appended_by (o : op) (db : DB) : appended_by db (exec o db).
Proof.
  destruct o as [a|draws|picks|draws|draws|y m|y m|y m|y m|y m|y m];
    cbn [exec]; try apply appended_by_refl.
  - (* insert_offices *)
    unfold insert_offices. cbn [commit_or_rollback].
    destruct (fold_left_append
                (fun t d => Office.mk (next_id (map Office.id t)) d) a (offices db))
      as [new [Hrun _]].
    change (fold_left add_office a (offices db) = offices db ++ new) in Hrun.
    rewrite Hrun.
    exists new, [], [], [], [], [], [], [], [], [], [].
    cbn [map]. rewrite flag_sold_nil, !app_nil_r.
    split; [reflexivity|]. repeat split; try constructor. exists 0%nat. reflexivity.
  - (* insert_agents *)
    unfold insert_agents.
    destruct (offices db) as [|o0 rest] eqn:Eo.
    + destruct draws as [|d draws]; [apply appended_by_refl|].
      cbn [for_each]. unfold insert_agents_body at 1. cbn [agents set_agents].
      rewrite map_app. cbn [map Agent.id]. rewrite first_id_desc_after_insert.
      cbn [bind offices set_agents]. rewrite Eo. apply appended_by_refl.
    + assert (Hoff : offices db <> []) by (rewrite Eo; discriminate).
      destruct (insert_agents_loop draws db Hoff) as [na [nr [Hrun [_ Hr]]]].
      rewrite Hrun. cbn [commit_or_rollback].
      exists [], na, nr, [], [], [], [], [], [], [], [].
      cbn [map]. rewrite flag_sold_nil, !app_nil_r.
      split; [reflexivity|]. split.
      * apply Forall2_right in Hr. eapply Forall_impl; [|exact Hr].
        intros ao [ag [Hag [Hid [o [Ho Hoid]]]]]. split.
        -- rewrite Hid. apply has_id_app_r. now apply has_id_in.
        -- rewrite Hoid. now apply has_id_in.
      * repeat split; try constructor. exists 0%nat. reflexivity.
  - (* assign_agents_to_offices *)
    unfold assign_agents_to_offices.
    destruct (agents db) as [|a0 arest] eqn:Ea.
    + destruct picks as [|p picks]; [apply appended_by_refl|].
      cbn [for_each]. unfold assign_body at 1. cbn [choice bind].
      apply appended_by_refl.
    + destruct (offices db) as [|o0 orest] eqn:Eo.
      * destruct picks as [|p picks]; [apply appended_by_refl|].
        cbn [for_each]. unfold assign_body at 1.
        destruct (choice (fst p) (a0 :: arest)); apply appended_by_refl.
      * destruct (assign_loop (a0 :: arest) (o0 :: orest) picks
                    ltac:(discriminate) ltac:(discriminate) db)
          as [nr [Hrun [_ Hr]]].
        rewrite Hrun. cbn [commit_or_rollback].
        exists [], [], nr, [], [], [], [], [], [], [], [].
        cbn [map]. rewrite flag_sold_nil, !app_nil_r.
        split; [destruct db; reflexivity|]. split.
        -- eapply Forall_impl; [|exact Hr].
           intros ao [[ag [Hag Hid]] [o [Ho Hoid]]]. rewrite Hid, Hoid.
           rewrite Ea, Eo. split; now apply has_id_in.
        -- repeat split; try constructor. exists 0%nat. reflexivity.
  - (* insert_listings *)
    unfold insert_listings. cbn [commit_or_rollback sellers set_sellers].
    destruct (new_sellers draws (sellers db)) as [ns [Hns _]].
    rewrite Hns, skipn_app_length.
    destruct (for_each _ _ _) as [db'|] eqn:E; cbn [commit_or_rollback].
    + apply (insert_listings_loop_inv (agents db) _ db) in E; try reflexivity.
      destruct E as [nl [-> Hnl]].
      exists [], [], [], ns, nl, [], [], [], [], [], [].
      cbn [map]. rewrite flag_sold_nil, !app_nil_r.
      split; [reflexivity|]. split; [constructor|]. split.
      * apply Forall2_right in Hnl. eapply Forall_impl; [|exact Hnl].
        intros l [[seller d] [Hx [H1 [H2 [_ [_ [_ [_ [_ [ag [Hag [H8 H9]]]]]]]]]]]].
        split; [exact H1|]. split; [|split].
        -- rewrite H2. apply has_id_app_r, has_id_in.
           exact (in_combine_l _ _ _ _ Hx).
        -- rewrite H8. now apply has_id_in.
        -- destruct (first_office_of_inv _ _ _ H9) as [ao [Hao Ho]].
           exists ao. now split.
      * repeat split; try constructor. exists 0%nat. reflexivity.
    + exists [], [], [], ns, [], [], [], [], [], [], [].
      cbn [map]. rewrite flag_sold_nil, !app_nil_r.
      split; [reflexivity|]. repeat split; try constructor.
      exists 0%nat. reflexivity.
  - (* insert_sales *)
    unfold insert_sales. cbn [state_after commit_or_rollback buyers set_buyers listings].
    destruct (new_buyers draws (buyers db)) as [nb [Hnb Hnames]].
    rewrite Hnb, skipn_app_length. fold (unsold (listings db)).
    set (sold := limit (List.length draws) (unsold (listings db))).
    destruct (insert_sales_loop_result (combine sold (combine nb draws))
                (set_buyers db (buyers db ++ nb))) as [ns [nc [Hrun [Hs Hc]]]].
    rewrite Hrun. cbn [commit_or_rollback].
    pose proof (Forall2_length Hnames) as Hlb.
    assert (Hfst : map fst (combine sold (combine nb draws)) = sold).
    { apply map_fst_combine. rewrite length_combine. unfold sold, limit.
      rewrite length_firstn. lia. }
    exists [], [], [], [], [], nb, ns, nc, [], sold, (combine sold (combine nb draws)).
    rewrite !app_nil_r.
    split.
    { cbn [offices agents agent_office sellers listings buyers sales commissions
           month_commissions set_buyers].
      rewrite <- (map_map fst Listing.id), Hfst. reflexivity. }
    split; [constructor|]. split; [constructor|].
    split; [exists (List.length draws); reflexivity|].
    split; [exact Hfst|]. split.
    { apply Forall_forall. intros [l [b d]] Hx. cbn [fst snd].
      apply in_combine_r in Hx. exact (in_combine_l _ _ _ _ Hx). }
    split; [exact Hs|]. split; [exact Hc | constructor].
  - (* get_total_commission *)
    unfold get_total_commission.
    destruct (month_window y m) as [[s e]|]; cbn [bind state_after];
      [|apply appended_by_refl].
    destruct (rollup_loop_rows e (agents_commission_query s e db) db)
      as [new [Hrun Hnew]].
    rewrite Hrun.
    exists [], [], [], [], [], [], [], [], new, [], [].
    cbn [map]. rewrite flag_sold_nil, !app_nil_r.
    split; [reflexivity|].
    repeat split; try constructor; try (exists 0%nat; reflexivity).
    eapply Forall_impl; [|exact Hnew]. intros mc [_ Hin].
    destruct (agents_commission_query_origin _ _ _ _ Hin) as [ag [Hag [Hid _]]].
    cbn [fst] in Hid. rewrite Hid. now apply has_id_in.
Qed.

Lemma run_invariant (P : DB -> Prop) :
  (forall o db, P db -> P (exec o db)) ->
  forall ops db, P db -> P (run ops db).
Proof.
  intros Hstep. unfold run. induction ops as [|o ops IH]; intros db H; simpl;
    [exact H|].
  apply IH. now apply Hstep.
Qed.

Lemma sold_listing_in_table (n : nat) (tbl : list Listing.t) (l : Listing.t) :
  In l (limit n (unsold tbl)) -> In l tbl /\ Listing.is_sold l = 0.
Proof.
  intros H. apply In_limit in H. unfold unsold in H. apply filter_In in H.
  destruct H as [H1 H2]. apply Z.eqb_eq in H2. now split.
Qed.

Lemma sale_listing_ids (xs : list (Listing.t * (Buyer.t * SaleDraw)))
  (ns : list Sale.t) :
  Forall2 sale_from_listing xs ns ->
  map Sale.listing_id ns = map Listing.id (map fst xs).
Proof.
  induction 1 as [|x s xs ns Hx _ IH]; [reflexivity|].
  cbn [map]. f_equal; [exact (proj1 Hx) | exact IH].
Qed.

Lemma appended_foreign_keys (db db' : DB) :
  appended_by db db' -> foreign_keys db -> foreign_keys db'.
Proof.
  intros [no [na [nao [ns [nl [nb [nsa [nc [nm [sold [xs
            [-> [Hao [Hl [[n Hsold] [Hfst [Hb [Hs [Hc Hm]]]]]]]]]]]]]]]]]]].
  intros [Fao [Fl [Fs [Fc Fm]]]].
  assert (HL : forall k, has_id Listing.id (listings db) k ->
                         has_id Listing.id
                           (flag_sold (map Listing.id sold) (listings db) ++ nl) k).
  { intros k Hk. apply has_id_app_l. unfold has_id. now rewrite flag_sold_ids. }
  assert (Hnew_sales :
            Forall (fun s => has_id Buyer.id (buyers db ++ nb) (Sale.buyer_id s)
                             /\ has_id Agent.id (agents db ++ na) (Sale.selling_agent_id s)
                             /\ has_id Office.id (offices db ++ no) (Sale.office_id s)
                             /\ has_id Listing.id
                                  (flag_sold (map Listing.id sold) (listings db) ++ nl)
                                  (Sale.listing_id s)) nsa).
  { apply Forall2_right in Hs. eapply Forall_impl; [|exact Hs].
    intros s [x [Hx [H1 [H2 [_ [_ [H5 H6]]]]]]].
    assert (Hin : In (fst x) (listings db)).
    { apply (in_map fst) in Hx. rewrite Hfst, Hsold in Hx.
      exact (proj1 (sold_listing_in_table _ _ _ Hx)). }
    rewrite Forall_forall in Fl, Hb.
    destruct (Fl _ Hin) as [_ [Fa Fo]].
    rewrite H1, H2, H5, H6. repeat split.
    - apply has_id_app_r, has_id_in. now apply Hb.
    - now apply has_id_app_l.
    - now apply has_id_app_l.
    - apply HL. now apply has_id_in. }
  unfold foreign_keys.
  cbn [offices agents agent_office sellers listings buyers sales commissions
       month_commissions].
  repeat split; apply Forall_app; split.
  - eapply Forall_impl; [|exact Fao]. intros ao [H1 H2].
    split; now apply has_id_app_l.
  - eapply Forall_impl; [|exact Hao]. intros ao [H1 H2].
    split; [exact H1 | now apply has_id_app_l].
  - apply Forall_forall. intros l' Hl'. unfold flag_sold in Hl'.
    apply in_map_iff in Hl'. destruct Hl' as [l [<- Hin]].
    rewrite Forall_forall in Fl. destruct (Fl _ Hin) as [H1 [H2 H3]].
    destruct (existsb _ _); cbn; repeat split; now apply has_id_app_l.
  - eapply Forall_impl; [|exact Hl]. intros l [_ [H1 [H2 [ao [Hin Ho]]]]].
    rewrite Forall_forall in Fao. destruct (Fao _ Hin) as [_ H3].
    repeat split; [exact H1 | now apply has_id_app_l |].
    rewrite Ho. now apply has_id_app_l.
  - eapply Forall_impl; [|exact Fs]. intros s [H1 [H2 [H3 H4]]].
    repeat split; try (now apply has_id_app_l). now apply HL.
  - exact Hnew_sales.
  - eapply Forall_impl; [|exact Fc]. intros c [H1 H2].
    split; now apply has_id_app_l.
  - apply Forall2_right in Hc. rewrite Forall_forall in Hnew_sales.
    eapply Forall_impl; [|exact Hc]. intros c [s [Hin [H1 [H2 _]]]].
    rewrite H1, H2. split.
    + exact (proj1 (proj2 (Hnew_sales _ Hin))).
    + apply has_id_app_r. now apply has_id_in.
  - eapply Forall_impl; [|exact Fm]. intros mc H. now apply has_id_app_l.
  - eapply Forall_impl; [|exact Hm]. intros mc H. now apply has_id_app_l.
Qed.

Lemma empty_db_foreign_keys : foreign_keys empty_db.
Proof. unfold foreign_keys. simpl. repeat split; constructor. Qed.

(** X14: foreign keys stay valid although SQLite does not enforce them here:
    in every state reached from the empty database, and after any operation
    on a state where it holds, each AgentOffice, Listing, Sale, Commission and
    MonthlyCommission row refers to agents, offices, sellers, buyers, listings
    and sales that exist. *)
Theorem foreign_keys_stay_valid :
  (forall ops : list op, foreign_keys (run ops empty_db))
  /\ (forall (o : op) (db : DB), foreign_keys db -> foreign_keys (exec o db)).
Proof.
  assert (Hstep : forall o db, foreign_keys db -> foreign_keys (exec o db)).
  { intros o db. apply appended_foreign_keys, exec_appended_by. }
  split; [|exact Hstep].
  intros ops. apply (run_invariant foreign_keys Hstep). exact empty_db_foreign_keys.
Qed.

Lemma foreign_keys_stay_valid_witness :
  foreign_keys (exec (InsertSales [draw_apr10]) db_listed).
Proof.
  apply (proj2 foreign_keys_stay_valid (InsertSales [draw_apr10]) db_listed).
  unfold foreign_keys, has_id. simpl. repeat split; repeat constructor; simpl; tauto.
Defined.

(** X15: every Sale has its Commission: in every state reached from the empty
    database, and after any operation on a state where it holds, the Sale and
    Commission tables run in step, the i-th commission carrying the id, the
    agent and the date of the i-th sale and the amount
    sale_price * rate(sale_price). *)
Theorem sales_and_commissions_in_step :
  (forall ops : list op,
      Forall2 commission_of_sale (sales (run ops empty_db))
                                 (commissions (run ops empty_db)))
  /\ (forall (o : op) (db : DB),
         Forall2 commission_of_sale (sales db) (commissions db) ->
         Forall2 commission_of_sale (sales (exec o db)) (commissions (exec o db))).
Proof.
  assert (Hstep : forall o db,
             Forall2 commission_of_sale (sales db) (commissions db) ->
             Forall2 commission_of_sale (sales (exec o db)) (commissions (exec o db))).
  { intros o db H.
    destruct (exec_appended_by o db)
      as [no [na [nao [ns [nl [nb [nsa [nc [nm [sold [xs
            [-> [_ [_ [_ [_ [_ [_ [Hc _]]]]]]]]]]]]]]]]]]].
    cbn [sales commissions]. now apply Forall2_app. }
  split; [|exact Hstep].
  intros ops.
  apply (run_invariant
           (fun db => Forall2 commission_of_sale (sales db) (commissions db)) Hstep).
  constructor.
Qed.

Lemma sales_and_commissions_in_step_witness :
  Forall2 commission_of_sale
          (sales (exec (InsertSales [draw_apr10]) db_listed))
          (commissions (exec (InsertSales [draw_apr10]) db_listed)).
Proof.
  apply (proj2 sales_and_commissions_in_step (InsertSales [draw_apr10]) db_listed).
  simpl. constructor.
Defined.

Lemma NoDup_map_limit {A : Type} (f : A -> Z) (n : nat) (l : list A) :
  NoDup (map f l) -> NoDup (map f (limit n l)).
Proof.
  unfold limit. intros H. rewrite <- (firstn_skipn n l), map_app in H.
  exact (NoDup_app_remove_r _ _ H).
Qed.

Lemma NoDup_app_disjoint {A : Type} (l1 l2 : list A) (x : A) :
  NoDup (l1 ++ l2) -> In x l1 -> In x l2 -> False.
Proof.
  induction l1 as [|y l1 IH]; simpl; intros H H1 H2; [tauto|].
  inversion H as [|? ? Hnot Hnd]; subst. destruct H1 as [->|H1].
  - apply Hnot. apply in_or_app. now right.
  - now apply IH.
Qed.

Lemma filter_by_unique_key {R : Type} (f : R -> Z) (l : list R) (k : Z) :
  NoDup (map f l) ->
  (In k (map f l) -> exists x, filter (fun y => f y =? k) l = [x])
  /\ (~ In k (map f l) -> filter (fun y => f y =? k) l = []).
Proof.
  intros Hnd. split.
  - intros Hin. apply in_map_iff in Hin. destruct Hin as [x [<- Hx]].
    exists x. now apply filter_by_primary_key.
  - intros Hnot. apply filter_nil_of_all_false. intros y Hy.
    apply Z.eqb_neq. intros <-. apply Hnot. now apply in_map.
Qed.

Lemma appended_sold_once (db db' : DB) :
  appended_by db db' ->
  primary_key Listing.id (listings db) ->
  primary_key Listing.id (listings db') ->
  Forall (fun s => has_id Listing.id (listings db) (Sale.listing_id s)) (sales db) ->
  sold_once db -> sold_once db'.
Proof.
  intros [no [na [nao [ns [nl [nb [nsa [nc [nm [sold [xs
            [-> [_ [Hl [[n Hsold] [Hfst [_ [Hs _]]]]]]]]]]]]]]]]]].
  cbn [listings]. intros Hpk Hpk' Hfk Hinv.
  assert (Hids : map Sale.listing_id nsa = map Listing.id sold).
  { rewrite (sale_listing_ids _ _ Hs), Hfst. reflexivity. }
  assert (Hnd : NoDup (map Sale.listing_id nsa)).
  { rewrite Hids, Hsold. apply NoDup_map_limit. unfold unsold.
    now apply NoDup_map_filter. }
  assert (Hsub : forall k, In k (map Listing.id sold) ->
                           In k (map Listing.id (listings db))).
  { intros k Hk. apply in_map_iff in Hk. destruct Hk as [l0 [<- Hl0]].
    rewrite Hsold in Hl0. apply in_map.
    exact (proj1 (sold_listing_in_table _ _ _ Hl0)). }
  intros l' Hl'. unfold sales_of_listing. cbn [sales]. rewrite filter_app.
  apply in_app_or in Hl'. destruct Hl' as [Hl' | Hl'].
  - unfold flag_sold in Hl'. apply in_map_iff in Hl'. destruct Hl' as [l [Heq Hin]].
    assert (Hid : Listing.id l' = Listing.id l).
    { rewrite <- Heq. now destruct (existsb _ _). }
    rewrite Hid.
    destruct (filter_by_unique_key Sale.listing_id nsa (Listing.id l) Hnd)
      as [Hone Hnone].
    destruct (existsb (Z.eqb (Listing.id l)) (map Listing.id sold)) eqn:E.
    + apply existsb_exists in E. destruct E as [k [Hk Heqk]].
      apply Z.eqb_eq in Heqk. subst k.
      assert (Hunsold : Listing.is_sold l = 0).
      { apply in_map_iff in Hk. destruct Hk as [l0 [Hid0 Hl0]].
        rewrite Hsold in Hl0. apply sold_listing_in_table in Hl0.
        destruct Hl0 as [Hin0 H0].
        now rewrite <- (primary_key_inj Listing.id _ _ _ Hpk Hin0 Hin Hid0). }
      right. subst l'. split; [reflexivity|].
      destruct (Hinv l Hin) as [[_ Hno] | [H1 _]]; [|congruence].
      unfold sales_of_listing in Hno. rewrite Hno.
      rewrite Hids in Hone. destruct (Hone Hk) as [s Hs1]. exists s. exact Hs1.
    + subst l'.
      assert (Hnot : ~ In (Listing.id l) (map Sale.listing_id nsa)).
      { rewrite Hids. intro Hk.
        assert (Ht : existsb (Z.eqb (Listing.id l)) (map Listing.id sold) = true).
        { apply existsb_exists. exists (Listing.id l). split; [exact Hk|].
          apply Z.eqb_refl. }
        congruence. }
      rewrite (Hnone Hnot), app_nil_r. exact (Hinv l Hin).
  - rewrite Forall_forall in Hl. destruct (Hl _ Hl') as [Hunsold _].
    left. split; [exact Hunsold|].
    assert (Hfresh : ~ In (Listing.id l') (map Listing.id (listings db))).
    { intro Hk. unfold primary_key in Hpk'. rewrite map_app, flag_sold_ids in Hpk'.
      apply (NoDup_app_disjoint _ _ _ Hpk' Hk). now apply in_map. }
    rewrite (filter_nil_of_all_false _ (sales db)), (filter_nil_of_all_false _ nsa);
      [reflexivity| |].
    + intros s Hin. apply Z.eqb_neq. intros Heq. apply Hfresh, Hsub.
      rewrite <- Heq, <- Hids. now apply in_map.
    + intros s Hin. apply Z.eqb_neq. intros Heq. apply Hfresh.
      rewrite Forall_forall in Hfk. rewrite <- Heq. exact (Hfk _ Hin).
Qed.

Lemma exec_sold_once (o : op) (db : DB) :
  all_keys_unique db /\ foreign_keys db /\ sold_once db ->
  all_keys_unique (exec o db) /\ foreign_keys (exec o db) /\ sold_once (exec o db).
Proof.
  intros [Hk [Hf Hs]].
  pose proof (exec_all_keys_unique o db Hk) as Hk'.
  pose proof (appended_foreign_keys _ _ (exec_appended_by o db) Hf) as Hf'.
  split; [exact Hk'|]. split; [exact Hf'|].
  apply (appended_sold_once db); [apply exec_appended_by | | | | exact Hs].
  - exact (proj1 (proj2 (proj2 (proj2 (proj2 Hk))))).
  - exact (proj1 (proj2 (proj2 (proj2 (proj2 Hk'))))).
  - destruct Hf as [_ [_ [Fs _]]]. eapply Forall_impl; [|exact Fs].
    intros s H. exact (proj2 (proj2 (proj2 H))).
Qed.

(** X16: a listing is never sold twice.  In every state reached from the empty
    database each listing either has is_sold = 0 and no Sale row, or
    is_sold = 1 and exactly one Sale row; any operation keeps this on a state
    with unique ids and valid foreign keys. *)
Theorem listings_sold_at_most_once :
  (forall ops : list op, sold_once (run ops empty_db))
  /\ (forall (o : op) (db : DB),
         all_keys_unique db -> foreign_keys db -> sold_once db ->
         sold_once (exec o db)).
Proof.
  split.
  - intros ops.
    apply (run_invariant
             (fun db => all_keys_unique db /\ foreign_keys db /\ sold_once db)
             exec_sold_once ops empty_db).
    split; [|split; [exact empty_db_foreign_keys|]].
    + unfold all_keys_unique, primary_key. simpl. repeat split; constructor.
    + intros l [].
  - intros o db Hk Hf Hs.
    exact (proj2 (proj2 (exec_sold_once o db (conj Hk (conj Hf Hs))))).
Qed.

Lemma listings_sold_at_most_once_witness :
  sold_once (exec (InsertSales [draw_apr20]) db_sold).
Proof.
  apply (proj2 listings_sold_at_most_once (InsertSales [draw_apr20]) db_sold).
  - unfold all_keys_unique, primary_key. simpl.
    repeat split; repeat constructor; simpl; tauto.
  - unfold foreign_keys, has_id. simpl. repeat split; repeat constructor; simpl; tauto.
  - intros l [<-|[]]. right. split; [reflexivity|].
    exists (Sale.mk 1 1 150000 (apr 10) 1 1 1). reflexivity.
Defined.

(** ** The averages *)

Lemma sql_sum_bounds (lo hi : Q) (xs : list Q) :
  Forall (fun x => (lo <= x)%Q /\ (x <= hi)%Q) xs ->
  forall acc : Q,
    (acc + inject_Z (Z.of_nat (List.length xs)) * lo <= fold_left Qplus xs acc)%Q
    /\ (fold_left Qplus xs acc <= acc + inject_Z (Z.of_nat (List.length xs)) * hi)%Q.
Proof.
  induction 1 as [|x xs [Hlo Hhi] _ IH]; intros acc.
  - cbn [fold_left List.length Z.of_nat]. change (inject_Z 0) with 0%Q. split; lra.
  - cbn [fold_left List.length]. rewrite Nat2Z.inj_succ, <- Z.add_1_r, inject_Z_plus.
    destruct (IH (acc + x)%Q) as [H1 H2].
    change (inject_Z 1) with 1%Q.
    set (N := inject_Z (Z.of_nat (List.length xs))) in *.
    split.
    + apply Qle_trans with (acc + x + N * lo)%Q; [|exact H1].
      assert (E : (acc + (N + 1) * lo == acc + N * lo + lo)%Q) by ring.
      rewrite E. lra.
    + apply Qle_trans with (acc + x + N * hi)%Q; [exact H2|].
      assert (E : (acc + (N + 1) * hi == acc + N * hi + hi)%Q) by ring.
      rewrite E. lra.
Qed.

Lemma sql_avg_bounds (lo hi v : Q) (xs : list Q) :
  Forall (fun x => (lo <= x)%Q /\ (x <= hi)%Q) xs ->
  sql_avg xs = Some v -> (lo <= v)%Q /\ (v <= hi)%Q.
Proof.
  intros Hall Havg. destruct xs as [|x xs]; [discriminate|].
  assert (Hv : v = (sql_sum (x :: xs)
                    / inject_Z (Z.of_nat (List.length (x :: xs))))%Q)
    by (unfold sql_avg in Havg; congruence).
  rewrite Hv. clear Hv Havg.
  destruct (sql_sum_bounds lo hi (x :: xs) Hall 0) as [H1 H2].
  fold (sql_sum (x :: xs)) in H1, H2.
  assert (Hn : (0 < inject_Z (Z.of_nat (List.length (x :: xs))))%Q).
  { change 0%Q with (inject_Z 0). rewrite <- Zlt_Qlt. cbn [List.length]. lia. }
  set (N := inject_Z (Z.of_nat (List.length (x :: xs)))) in *. clearbody N.
  split.
  - apply Qle_shift_div_l; [exact Hn|].
    apply Qle_trans with (0 + N * lo)%Q; [|exact H1].
    apply Qle_lteq. right. ring.
  - apply Qle_shift_div_r; [exact Hn|].
    apply Qle_trans with (0 + N * hi)%Q; [exact H2|].
    apply Qle_lteq. right. ring.
Qed.

Lemma sql_avg_none (xs : list Q) : sql_avg xs = None <-> xs = [].
Proof.
  destruct xs; simpl; split; intro H; try reflexivity; discriminate.
Qed.

(** X17: [average_selling_price_monthly] averages the prices of the sales
    dated after the first day of the month, up to and including the first day
    of the following month.  It returns None exactly when there is no such
    sale, and otherwise a value between the lowest and the highest of their
    prices. *)
Theorem average_selling_price_range (year month : Z) (db : DB) :
  valid_month year month ->
  let selected s :=
    after_upto (window_start year month) (window_end year month)
               (Sale.date_of_sale s) in
  (average_selling_price_monthly year month db = Ok None
   <-> forall s, In s (sales db) -> selected s = false)
  /\ (forall lo hi v,
         (forall s, In s (sales db) -> selected s = true ->
                    (lo <= Sale.sale_price s)%Q /\ (Sale.sale_price s <= hi)%Q) ->
         average_selling_price_monthly year month db = Ok (Some v) ->
         (lo <= v)%Q /\ (v <= hi)%Q).
Proof.
  intros Hv selected. unfold average_selling_price_monthly.
  rewrite (month_window_valid _ _ Hv). cbn [bind].
  rewrite (filter_ext _ selected) by (intros s; apply in_window_after_upto).
  split.
  - split.
    + intros H. injection H as H. apply sql_avg_none, map_eq_nil in H.
      intros s Hs. destruct (selected s) eqn:E; [|reflexivity].
      assert (Hin : In s (filter selected (sales db))) by (apply filter_In; now split).
      rewrite H in Hin. destruct Hin.
    + intros H. now rewrite (filter_nil_of_all_false _ _ H).
  - intros lo hi v Hrange H. injection H as H.
    apply (sql_avg_bounds lo hi v _) in H; [exact H|].
    apply Forall_forall. intros p Hp. apply in_map_iff in Hp.
    destruct Hp as [s [<- Hs]]. apply filter_In in Hs. now apply Hrange.
Qed.

Lemma average_selling_price_range_witness :
  average_selling_price_monthly 2023 4 (db_sold_on (apr 1)) = Ok None
  /\ average_selling_price_monthly 2023 4 db_top_first_days
     = Ok (Some (750000 # 3))
  /\ (100000 <= 750000 # 3)%Q /\ (750000 # 3 <= 300000)%Q.
Proof.
  assert (Hv : valid_month 2023 4) by (unfold valid_month; lia).
  split; [|split; [reflexivity|]].
  - apply (proj2 (proj1 (average_selling_price_range 2023 4 (db_sold_on (apr 1))
                           Hv))).
    intros s [<-|[]]. reflexivity.
  - apply (proj2 (average_selling_price_range 2023 4 db_top_first_days Hv)
             100000%Q 300000%Q (750000 # 3)%Q).
    + intros s Hs _. simpl in Hs.
      repeat (destruct Hs as [<- | Hs]; [split; discriminate|]).
      destruct Hs.
    + reflexivity.
Defined.

(** X18: [average_days_on_market_monthly] averages over the sales joined to
    their listing, so a sale whose listing row is missing is left out.  When
    every sale refers to a listing of the table, the result is None exactly
    when no sale is dated after the first day of the month, up to and
    including the first day of the following month. *)
Theorem average_days_on_market_none_iff (year month : Z) (db : DB) :
  valid_month year month ->
  Forall (fun s => has_id Listing.id (listings db) (Sale.listing_id s)) (sales db) ->
  (average_days_on_market_monthly year month db = Ok None
   <-> forall s, In s (sales db) ->
                 after_upto (window_start year month) (window_end year month)
                            (Sale.date_of_sale s) = false).
Proof.
  intros Hv Hfk. unfold average_days_on_market_monthly.
  rewrite (month_window_valid _ _ Hv). cbn [bind].
  rewrite (filter_ext _ (fun r : Sale.t * Listing.t =>
                           after_upto (window_start year month)
                                      (window_end year month)
                                      (Sale.date_of_sale (fst r))))
    by (intros r; apply in_window_after_upto).
  split.
  - intros H. injection H as H. apply sql_avg_none, map_eq_nil in H.
    intros s Hs.
    destruct (after_upto _ _ (Sale.date_of_sale s)) eqn:E; [|reflexivity].
    rewrite Forall_forall in Hfk. specialize (Hfk s Hs).
    unfold has_id in Hfk. apply in_map_iff in Hfk. destruct Hfk as [l [Hid Hl]].
    assert (Hin : In (s, l)
                     (filter (fun r => after_upto (window_start year month)
                                         (window_end year month)
                                         (Sale.date_of_sale (fst r)))
                        (inner_join (fun s l => Listing.id l =? Sale.listing_id s)
                                    (sales db) (listings db)))).
    { apply filter_In. split; [|exact E]. apply in_inner_join.
      repeat split; try assumption. now apply Z.eqb_eq. }
    rewrite H in Hin. destruct Hin.
  - intros H. rewrite filter_nil_of_all_false; [reflexivity|].
    intros [s l] Hin. apply in_inner_join in Hin. apply H. tauto.
Qed.

Lemma average_days_on_market_none_iff_witness :
  average_days_on_market_monthly 2023 4 (db_sold_on (apr 1)) = Ok None.
Proof.
  apply (average_days_on_market_none_iff 2023 4 (db_sold_on (apr 1))).
  - unfold valid_month. lia.
  - constructor; [|constructor]. unfold has_id. simpl. now left.
  - intros s [<-|[]]. reflexivity.
Defined.

(** ** Top agents by sales, as the query selects them *)

(** X25: for a valid (year, month) and unique agent ids,
    [top_agents_by_sales_monthly] returns the first five rows of a list that
    holds one row per agent with at least one Sale (by selling_agent_id) dated
    after the first day of the month, up to and including the first day of
    the following month, each with the agent's number of such sales, in
    descending order of that number. *)
Theorem top_agents_by_sales_monthly_rows (year month : Z) (db : DB) :
  valid_month year month ->
  primary_key Agent.id (agents db) ->
  let s := window_start year month in
  let e := window_end year month in
  exists full,
    top_agents_by_sales_monthly year month db = Ok (limit 5 full)
    /\ Permutation full
         (map (agent_sales_row s e db) (filter (has_sale s e db) (agents db)))
    /\ StronglySorted (fun x y => sales_count y <= sales_count x) full
    /\ List.length (limit 5 full)
       = Nat.min 5 (List.length (filter (has_sale s e db) (agents db))).
Proof.
  intros Hv Hpk s e.
  unfold top_agents_by_sales_monthly. rewrite (month_window_valid _ _ Hv).
  cbn [bind]. cbv zeta. fold s e. rewrite (top_agents_rows s e db Hpk).
  eexists. split; [reflexivity|].
  assert (Hperm : Permutation
            (order_by_desc (fun x y => sales_count y <=? sales_count x)
               (map (agent_sales_row s e db) (filter (has_sale s e db) (agents db))))
            (map (agent_sales_row s e db) (filter (has_sale s e db) (agents db))))
    by apply order_by_desc_perm.
  split; [exact Hperm|]. split.
  - apply (StronglySorted_weaken
             (fun x y => (sales_count y <=? sales_count x) = true)).
    + intros x y. apply Z.leb_le.
    + apply order_by_desc_sorted.
      * intros x y H. apply Z.leb_gt in H. apply Z.leb_le. lia.
      * intros x y z H1 H2. apply Z.leb_le in H1, H2. apply Z.leb_le. lia.
  - unfold limit. rewrite length_firstn, (Permutation_length Hperm), length_map.
    reflexivity.
Qed.

Lemma top_agents_by_sales_monthly_rows_witness :
  exists full,
    top_agents_by_sales_monthly 2023 4 db_top_first_days = Ok (limit 5 full)
    /\ Permutation full
         (map (agent_sales_row (mkdate 2023 4 1) (mkdate 2023 5 1)
                               db_top_first_days)
              [agent_B; agent_C])
    /\ StronglySorted (fun x y => sales_count y <= sales_count x) full
    /\ List.length (limit 5 full) = 2%nat.
Proof.
  apply (top_agents_by_sales_monthly_rows 2023 4 db_top_first_days).
  - unfold valid_month. lia.
  - unfold primary_key. simpl. repeat constructor; simpl; intuition discriminate.
Defined.

(** The scenario of the specification: seven sales for B and three for C give
    two rows, B first. *)
Example top_agents_scenario :
  top_agents_by_sales_monthly 2023 4 db_top
  = Ok [mk_agent_sales 2 "B" "b@example.org" "555-0102" 7;
        mk_agent_sales 3 "C" "c@example.org" "555-0103" 3].
Proof. reflexivity. Qed.

(** ** Top offices by sales *)










(** ** The listings left for sale, and the seeding run *)

Lemma unsold_flag_sold (ids : list Z) (tbl : list Listing.t) :
  unsold (flag_sold ids tbl)
  = filter (fun l => negb (existsb (Z.eqb (Listing.id l)) ids)) (unsold tbl).
Proof.
  unfold unsold, flag_sold. induction tbl as [|l tbl IH]; [reflexivity|].
  cbn [map filter].
  destruct (existsb (Z.eqb (Listing.id l)) ids) eqn:E.
  - cbn [Listing.is_sold Listing.set_is_sold Z.eqb].
    destruct (Listing.is_sold l =? 0); cbn [filter]; rewrite ?E; cbn [negb];
      exact IH.
  - destruct (Listing.is_sold l =? 0); cbn [filter]; rewrite ?E; cbn [negb];
      now rewrite IH.
Qed.

Lemma filter_not_first (k : nat) (tbl : list Listing.t) :
  NoDup (map Listing.id tbl) ->
  filter (fun l => negb (existsb (Z.eqb (Listing.id l))
                                 (map Listing.id (limit k tbl)))) tbl
  = skipn k tbl.
Proof.
  unfold limit. revert k. induction tbl as [|x tbl IH]; intros k Hnd.
  - now destruct k.
  - destruct k as [|k].
    + cbn [firstn map existsb negb skipn].
      apply forallb_filter_id. now apply forallb_forall.
    + inversion Hnd as [|? ? Hnot Hnd']; subst.
      cbn [firstn map filter existsb skipn]. rewrite Z.eqb_refl. cbn [orb negb].
      rewrite <- (IH k Hnd'). apply filter_ext_in. intros y Hy.
      replace (Listing.id y =? Listing.id x) with false; [reflexivity|].
      symmetry. apply Z.eqb_neq. intros Heq. apply Hnot. rewrite <- Heq.
      now apply in_map.
Qed.

(** X20: after [insert_sales] with unique listing ids, the listings left for
    sale are the ones that were for sale before minus the first [num_sales] of
    them, in the same order. *)
Theorem insert_sales_leaves_the_rest (draws : list SaleDraw) (db db' : DB) :
  primary_key Listing.id (listings db) ->
  insert_sales draws db = Ok db' ->
  unsold (listings db') = skipn (List.length draws) (unsold (listings db)).
Proof.
  intros Hpk. unfold insert_sales.
  cbn [commit_or_rollback buyers set_buyers listings].
  fold (unsold (listings db)).
  match goal with
  | [ |- context [for_each insert_sales_body ?xs ?st] ] =>
      destruct (insert_sales_loop_result xs st) as [ns [nc [Hrun _]]]
  end.
  rewrite Hrun. cbn [commit_or_rollback]. intro H. injection H as <-.
  cbn [listings set_buyers].
  destruct (new_buyers draws (buyers db)) as [nb [Hnb Hnames]].
  rewrite Hnb, skipn_app_length.
  rewrite <- (map_map fst Listing.id), map_fst_combine.
  - rewrite unsold_flag_sold. apply filter_not_first.
    unfold unsold. now apply NoDup_map_filter.
  - rewrite length_combine, <- (Forall2_length Hnames). unfold limit.
    rewrite length_firstn. lia.
Qed.

Lemma insert_sales_leaves_the_rest_witness :
  unsold (listings db_sold) = skipn 1 (unsold (listings db_listed)).
Proof.
  apply (insert_sales_leaves_the_rest [draw_apr10] db_listed db_sold).
  - unfold primary_key. simpl. repeat constructor. simpl. tauto.
  - reflexivity.
Defined.

Lemma Forall2_left {A B : Type} (P : A -> B -> Prop) (la : list A) (lb : list B) :
  Forall2 P la lb -> Forall (fun a => exists b, In b lb /\ P a b) la.
Proof.
  induction 1 as [|a b la lb Hab _ IH]; constructor.
  - exists b. split; [now left | exact Hab].
  - eapply Forall_impl; [|exact IH]. intros a' [b' [Hb' Hp]].
    exists b'. split; [now right | exact Hp].
Qed.

(** The seeding run on a fresh database, for any non-empty offices and
    agents. *)
Lemma insert_data_main_counts (d : SeedDraws) :
  office_addresses d <> [] -> agent_draws d <> [] ->
  exists db',
    insert_data_main d empty_db = Ok db'
    /\ List.length (offices db') = List.length (office_addresses d)
    /\ List.length (agents db') = List.length (agent_draws d)
    /\ List.length (agent_office db')
       = (List.length (agent_draws d) + List.length (assignment_picks d))%nat
    /\ List.length (sellers db') = List.length (listing_draws d)
    /\ List.length (listings db') = List.length (listing_draws d)
    /\ List.length (unsold (listings db'))
       = (List.length (listing_draws d) - List.length (sale_draws d))%nat
    /\ List.length (buyers db') = List.length (sale_draws d)
    /\ List.length (sales db')
       = Nat.min (List.length (sale_draws d)) (List.length (listing_draws d))
    /\ List.length (commissions db') = List.length (sales db')
    /\ month_commissions db' = [].
Proof.
  destruct d as [a ag p l s]. cbn [office_addresses agent_draws assignment_picks
                                   listing_draws sale_draws].
  intros Ha Hag. unfold insert_data_main.
  cbn [office_addresses agent_draws assignment_picks listing_draws sale_draws].
  (* offices *)
  set (db1 := insert_offices a empty_db).
  assert (Hk1 : all_keys_unique db1).
  { apply (exec_all_keys_unique (InsertOffices a)).
    unfold all_keys_unique, primary_key. simpl. repeat split; constructor. }
  assert (H1 : exists no, db1 = set_offices empty_db no
                          /\ List.length no = List.length a).
  { unfold db1, insert_offices. cbn [commit_or_rollback offices empty_db].
    destruct (fold_left_append
                (fun t d => Office.mk (next_id (map Office.id t)) d) a [])
      as [new [Hrun Hnew]].
    change (fold_left add_office a [] = [] ++ new) in Hrun.
    exists new. rewrite Hrun. split; [reflexivity|].
    symmetry. exact (Forall2_length Hnew). }
  destruct H1 as [no [E1 Lno]].
  assert (Hoff : offices db1 <> []).
  { rewrite E1. cbn. destruct no; [|discriminate].
    destruct a; [congruence | discriminate]. }
  (* agents *)
  set (db2 := insert_agents ag db1).
  assert (Hk2 : all_keys_unique db2) by exact (exec_all_keys_unique (InsertAgents ag) db1 Hk1).
  destruct (insert_agents_loop ag db1 Hoff) as [na [nr [Hrun2 [Hd2 Hr2]]]].
  assert (E2 : db2 = mkDB no na nr [] [] [] [] [] []).
  { unfold db2, insert_agents. rewrite Hrun2. cbn [commit_or_rollback].
    rewrite E1. reflexivity. }
  pose proof (Forall2_length Hd2) as Lna.
  pose proof (Forall2_length Hr2) as Lnr.
  assert (Hag2 : agents db2 <> []).
  { rewrite E2. cbn. destruct na; [|discriminate].
    destruct ag; [congruence | discriminate]. }
  assert (Hoff2 : offices db2 <> []) by (rewrite E2; rewrite E1 in Hoff; exact Hoff).
  (* assignments *)
  set (db3 := assign_agents_to_offices p db2).
  assert (Hk3 : all_keys_unique db3)
    by exact (exec_all_keys_unique (AssignAgentsToOffices p) db2 Hk2).
  destruct (assign_loop (agents db2) (offices db2) p Hag2 Hoff2 db2)
    as [nr3 [Hrun3 [Lnr3 _]]].
  assert (E3 : db3 = mkDB no na (nr ++ nr3) [] [] [] [] [] []).
  { unfold db3, assign_agents_to_offices. rewrite Hrun3. cbn [commit_or_rollback].
    rewrite E2. reflexivity. }
  (* listings *)
  set (db4 := insert_listings l db3).
  assert (Hk4 : all_keys_unique db4)
    by exact (exec_all_keys_unique (InsertListings l) db3 Hk3).
  assert (Hhas : forall x, In x (agents db3) ->
                           exists ao, In ao (agent_office db3)
                                      /\ AgentOffice.agent_id ao = Agent.id x).
  { rewrite E3. cbn [agents agent_office]. intros x Hx.
    apply Forall2_left in Hr2. rewrite Forall_forall in Hr2.
    destruct (Hr2 x Hx) as [ao [Hao [Hid _]]].
    exists ao. split; [apply in_or_app; now left | exact Hid]. }
  assert (Hag3 : agents db3 <> []) by (rewrite E3; rewrite E2 in Hag2; exact Hag2).
  destruct (new_sellers l (sellers db3)) as [ns [Hns Hnames]].
  destruct (insert_listings_loop_ok (agents db3) (combine ns l) Hag3
              (set_sellers db3 (sellers db3 ++ ns)) Hhas) as [db4' Hrun4].
  assert (E4 : exists nl, db4 = mkDB no na (nr ++ nr3) ns nl [] [] [] []
                          /\ List.length nl = List.length l
                          /\ Forall (fun x => Listing.is_sold x = 0) nl).
  { pose proof Hrun4 as Hinv.
    apply (insert_listings_loop_inv (agents db3) _ db3) in Hinv; try reflexivity.
    destruct Hinv as [nl [-> Hnl]]. exists nl. split; [|split].
    - unfold db4, insert_listings. cbn [commit_or_rollback sellers set_sellers].
      rewrite Hns, skipn_app_length, Hrun4. cbn [commit_or_rollback].
      rewrite E3. reflexivity.
    - rewrite <- (Forall2_length Hnl), length_combine, <- (Forall2_length Hnames).
      lia.
    - apply Forall2_right in Hnl. eapply Forall_impl; [|exact Hnl].
      intros x [y [_ Hy]]. exact (proj1 Hy). }
  destruct E4 as [nl [E4 [Lnl Hunsold]]].
  pose proof (Forall2_length Hnames) as Lns.
  (* sales *)
  assert (Hall : unsold (listings db4) = nl).
  { rewrite E4. cbn [listings]. unfold unsold. apply forallb_filter_id.
    apply forallb_forall. intros x Hx. rewrite Forall_forall in Hunsold.
    apply Z.eqb_eq. now apply Hunsold. }
  destruct (new_buyers s (buyers db4)) as [nb [Hnb Hbn]].
  pose proof (Forall2_length Hbn) as Lnb.
  unfold insert_sales. cbn [commit_or_rollback buyers set_buyers listings].
  rewrite Hnb, skipn_app_length. fold (unsold (listings db4)).
  set (sold := limit (List.length s) (unsold (listings db4))).
  destruct (insert_sales_loop_result (combine sold (combine nb s))
              (set_buyers db4 (buyers db4 ++ nb))) as [nsa [nc [Hrun5 [Hs5 Hc5]]]].
  rewrite Hrun5. cbn [commit_or_rollback]. eexists. split; [reflexivity|].
  cbn [offices agents agent_office sellers listings buyers sales commissions
       month_commissions set_buyers].
  assert (Lsold : List.length sold = Nat.min (List.length s) (List.length l)).
  { unfold sold, limit. rewrite length_firstn, Hall. lia. }
  assert (Hfst : map fst (combine sold (combine nb s)) = sold).
  { apply map_fst_combine. rewrite length_combine. lia. }
  rewrite E4. cbn [offices agents agent_office sellers listings buyers sales
                   commissions month_commissions].
  rewrite !length_app, <- (Forall2_length Hc5), <- (Forall2_length Hs5), length_combine,
    length_combine.
  repeat split; try lia.
  - unfold flag_sold. now rewrite length_map.
  - rewrite <- (map_map fst Listing.id), Hfst.
    rewrite unsold_flag_sold.
    assert (Hsold : sold = limit (List.length s) nl)
      by (unfold sold; now rewrite Hall).
    rewrite Hsold.
    assert (Hun : unsold nl = nl) by (rewrite <- Hall at 2; rewrite E4; reflexivity).
    rewrite Hun, filter_not_first.
    + rewrite length_skipn. lia.
    + destruct Hk4 as [_ [_ [_ [_ [Hl4 _]]]]]. rewrite E4 in Hl4. exact Hl4.
  - cbn [List.length]. lia.
  - cbn [List.length]. lia.
Qed.

(** X21: [insert_data.main] on a fresh database never takes one of its
    [except] branches: with 50 office, 250 agent, 500 assignment, 1000 listing
    and 500 sale draws it ends with 50 offices, 250 agents, 750 office
    assignments, 1000 sellers, 1000 listings of which 500 are still for sale,
    500 buyers, 500 sales and 500 commissions, and no monthly total. *)
Theorem insert_data_main_on_fresh_database (d : SeedDraws) :
  List.length (office_addresses d) = 50%nat ->
  List.length (agent_draws d) = 250%nat ->
  List.length (assignment_picks d) = 500%nat ->
  List.length (listing_draws d) = 1000%nat ->
  List.length (sale_draws d) = 500%nat ->
  exists db',
    insert_data_main d empty_db = Ok db'
    /\ List.length (offices db') = 50%nat
    /\ List.length (agents db') = 250%nat
    /\ List.length (agent_office db') = 750%nat
    /\ List.length (sellers db') = 1000%nat
    /\ List.length (listings db') = 1000%nat
    /\ List.length (unsold (listings db')) = 500%nat
    /\ List.length (buyers db') = 500%nat
    /\ List.length (sales db') = 500%nat
    /\ List.length (commissions db') = 500%nat
    /\ month_commissions db' = [].
Proof.
  intros L1 L2 L3 L4 L5.
  destruct (insert_data_main_counts d) as [db' [Hrun H]].
  - intro E. rewrite E in L1. discriminate.
  - intro E. rewrite E in L2. discriminate.
  - exists db'. split; [exact Hrun|].
    rewrite L1, L2, L3, L4, L5 in H.
    destruct H as [H1 [H2 [H3 [H4 [H5 [H6 [H7 [H8 [H9 H10]]]]]]]]].
    rewrite H8 in H9.
    repeat split; try assumption; try (rewrite H3; reflexivity);
      try (rewrite H6; reflexivity); try (rewrite H8; reflexivity);
      try (rewrite H9; reflexivity).
Qed.

Lemma insert_data_main_on_fresh_database_witness :
  exists db',
    insert_data_main seed_draws empty_db = Ok db'
    /\ List.length (offices db') = 50%nat
    /\ List.length (agents db') = 250%nat
    /\ List.length (agent_office db') = 750%nat
    /\ List.length (sellers db') = 1000%nat
    /\ List.length (listings db') = 1000%nat
    /\ List.length (unsold (listings db')) = 500%nat
    /\ List.length (buyers db') = 500%nat
    /\ List.length (sales db') = 500%nat
    /\ List.length (commissions db') = 500%nat
    /\ month_commissions db' = [].
Proof.
  apply (insert_data_main_on_fresh_database seed_draws); reflexivity.
Defined.

(** ** Order of the stored totals and of the top-five reports *)

Lemma StronglySorted_of_map {A B : Type} (R : B -> B -> Prop) (g : A -> B)
  (l : list A) :
  StronglySorted R (map g l) -> StronglySorted (fun a b => R (g a) (g b)) l.
Proof.
  induction l as [|x l IH]; simpl; intros H; [constructor|].
  inversion H as [|? ? Hs Hall]; subst. constructor; [now apply IH|].
  rewrite Forall_map in Hall. exact Hall.
Qed.

Lemma StronglySorted_to_map {A B : Type} (R : B -> B -> Prop) (g : A -> B)
  (l : list A) :
  StronglySorted (fun a b => R (g a) (g b)) l -> StronglySorted R (map g l).
Proof.
  induction 1 as [|x l _ IH Hall]; simpl; constructor; [exact IH|].
  rewrite Forall_map. exact Hall.
Qed.

Lemma agents_commission_query_sorted (s e : date) (db : DB) :
  StronglySorted (fun x y : Z * Q => (snd y <= snd x)%Q)
                 (agents_commission_query s e db).
Proof.
  unfold agents_commission_query.
  apply (StronglySorted_weaken (fun x y : Z * Q => Qle_bool (snd y) (snd x) = true)).
  - intros x y. apply Qle_bool_iff.
  - apply order_by_desc_sorted.
    + intros x y H. apply Qle_bool_iff.
      destruct (Qlt_le_dec (snd x) (snd y)) as [Hlt|Hle].
      * now apply Qlt_le_weak.
      * apply Qle_bool_iff in Hle. congruence.
    + intros x y z H1 H2. apply Qle_bool_iff in H1, H2. apply Qle_bool_iff.
      now apply (Qle_trans _ (snd y)).
Qed.

(** X22: the rows one rollup appends to MonthlyCommission are in descending
    order of amount: the aggregate query is ordered by the summed commission,
    largest first, and the loop inserts in that order. *)
Theorem rollup_stores_largest_first (year month : Z) (db db' : DB) :
  get_total_commission year month db = Ok db' ->
  exists new,
    month_commissions db' = month_commissions db ++ new
    /\ StronglySorted
         (fun x y => (MonthlyCommission.amount y <= MonthlyCommission.amount x)%Q)
         new.
Proof.
  unfold get_total_commission.
  destruct (month_window year month) as [[s e]|]; cbn [bind]; [|discriminate].
  intro H. injection H as <-.
  destruct (rollup_loop_new e (agents_commission_query s e db) db)
    as [new [Hrun Hnew]].
  exists new. split; [now rewrite Hrun|].
  apply (StronglySorted_of_map (fun f1 f2 : Z * date * Q => (snd f2 <= snd f1)%Q)
                               monthly_fields).
  rewrite Hnew.
  apply (StronglySorted_to_map (fun f1 f2 : Z * date * Q => (snd f2 <= snd f1)%Q)
                               (fun r : Z * Q => (fst r, e, snd r))).
  cbn [snd]. apply agents_commission_query_sorted.
Qed.

Lemma rollup_stores_largest_first_witness :
  exists new,
    month_commissions db_april_B_first_rolled
    = month_commissions db_april_B_first ++ new
    /\ StronglySorted
         (fun x y => (MonthlyCommission.amount y <= MonthlyCommission.amount x)%Q)
         new.
Proof.
  apply (rollup_stores_largest_first 2023 4 db_april_B_first
           db_april_B_first_rolled).
  reflexivity.
Defined.




